(** * Monad DEX arbitrage bot: price aggregation, opportunity evaluation and
      two-leg execution

    A shallow embedding of [config.py], [price_monitor.py],
    [transaction_executor.py] and [arbitrage_bot.py].

    Conventions of the embedding.
    - Python [int] is [Z] and a Python [float] is the rational [Q] it
      denotes.  Where the code decides on a number computed in floats, or
      puts one into a transaction as an integer, the computation is done in
      binary64 ([F64]): every operand is taken as the float nearest to it and
      every result is rounded to nearest, ties to even.  These are the
      profit tests of the evaluators, the tests of the driver before a
      trade, the balance check before MON is sold, the amounts of the two
      legs, the minimum outputs and the gas fee.  The exponent range is not
      bounded, so overflow and subnormal numbers are not represented.
      Elsewhere a float is the exact rational: the prices, the amount a
      quote is asked for, the deadline, and what is stored or reported.
      [int(x)] truncates toward zero, [a / b] raises on a zero divisor.
    - A Python [dict] is an association list in insertion order; assigning to
      an existing key keeps its position.
    - The blockchain, the clock and the random generator are an external
      world [W] reached through the interface [Env].  A read is a function of
      the current world; a call that can raise returns [res].  Only a
      submitted transaction, a sleep and a random draw change the world.
    - Code that can raise lives in the monad [M]: state passing plus an
      [Exception] outcome, the state being kept when an exception is raised.
      [try: ... except Exception] is [try_except].  [sys.exit] raises
      [SystemExit], which is no [Exception]; it occurs once, in the driver
      cycle, and is a separate outcome of the cycle.
    - Logging is dropped. *)

From Stdlib Require Import ZArith QArith Qround Qabs Qpower List String Ascii.
From Stdlib Require Import Bool Lia.
From Stdlib Require Import Permutation Sorted.
Import ListNotations.

Set Implicit Arguments.
Open Scope string_scope.
Open Scope list_scope.

(** ** Python values and operators *)

Module Py.

Inductive res (A : Type) : Type :=
| Ok (a : A)
| Raise (e : string).
Arguments Ok {A} a.
Arguments Raise {A} e.

(** [int(x)] on a float: truncation toward zero. *)
Definition int_of (x : Q) : Z := Z.quot (Qnum x) (Zpos (Qden x)).

(** [10 ** e]; a negative exponent gives the reciprocal, as Python's float. *)
Definition pow10 (e : Z) : Q := Qpower (10 # 1) e.

Definition gt (a b : Q) : bool := negb (Qle_bool a b).
Definition ge (a b : Q) : bool := Qle_bool b a.
Definition lt (a b : Q) : bool := negb (Qle_bool b a).
Definition le (a b : Q) : bool := Qle_bool a b.

(** [a / b], raising [ZeroDivisionError] on a zero divisor. *)
Definition div (a b : Q) : res Q :=
  if Qeq_bool b 0 then Raise "float division by zero" else Ok (a / b)%Q.

Definition abs (a : Q) : Q := Qabs a.

(** Round to the nearest integer, ties to the even one. *)
Definition round_half_even (x : Q) : Z :=
  let f := Qfloor x in
  match (x - inject_Z f ?= 1 # 2)%Q with
  | Lt => f
  | Gt => (f + 1)%Z
  | Eq => if Z.even f then f else (f + 1)%Z
  end.

(** [round(x, 2)] *)
Definition round2 (x : Q) : Q :=
  (inject_Z (round_half_even (x * 100)) / 100)%Q.

(** Binary64 arithmetic, as Python's [float] has it: 53 bits of precision,
    rounding to nearest with ties to even. *)
Module F64.

(** [2 ** e] *)
Definition pow2 (e : Z) : Q := Qpower (2 # 1) e.

(** For [x > 0], the [k] with [2 ** k <= x < 2 ** (k + 1)]. *)
Definition ilog2 (x : Q) : Z :=
  let k := (Z.log2 (Qnum x) - Z.log2 (Zpos (Qden x)))%Z in
  if Qle_bool (pow2 k) x then k else (k - 1)%Z.

(** The float nearest to [x]: [float(x)] for an [int], a [Decimal] or a
    quotient of integers, and the rounding every float operation ends
    with. *)
Definition fl (x : Q) : Q :=
  if Qeq_bool x 0 then 0%Q
  else
    let a := Qabs x in
    let e := (ilog2 a - 52)%Z in
    let m := round_half_even (a / pow2 e) in
    let r := Qred (inject_Z m * pow2 e) in
    if Qle_bool 0 x then r else (- r)%Q.

Definition add (x y : Q) : Q := fl (fl x + fl y).
Definition sub (x y : Q) : Q := fl (fl x - fl y).
Definition mul (x y : Q) : Q := fl (fl x * fl y).

(** [x / y] by a divisor known not to be zero. *)
Definition quot (x y : Q) : Q := fl (fl x / fl y).

(** [x / y], raising [ZeroDivisionError] on a zero divisor. *)
Definition div (x y : Q) : res Q :=
  if Qeq_bool (fl y) 0 then Raise "float division by zero"
  else Ok (quot x y).

End F64.

(** [web3.from_wei(n, unit)] with [unit] worth [10 ** e] wei; web3 rejects a
    negative number and one above [2**256 - 1]. *)
Definition from_wei (n : Z) (e : Z) : res Q :=
  if (n =? 0)%Z then Ok 0%Q
  else if ((n <? 0) || (2 ^ 256 - 1 <? n))%Z
       then Raise "value must be between 1 and 2**256 - 1"
       else Ok (inject_Z n / pow10 e)%Q.

(** Truthiness of a string: the empty string is false. *)
Definition truthy (s : string) : bool := negb (String.eqb s "").

Definition truthy_opt (o : option string) : bool :=
  match o with Some s => truthy s | None => false end.

(** *** Dictionaries *)

Section Dict.
Variables K V : Type.
Variable eqb : K -> K -> bool.

Definition dict := list (K * V).

Fixpoint dict_get (d : dict) (k : K) : option V :=
  match d with
  | [] => None
  | (k', v) :: d' => if eqb k k' then Some v else dict_get d' k
  end.

Definition dict_mem (d : dict) (k : K) : bool :=
  match dict_get d k with Some _ => true | None => false end.

(** [d[k] = v] *)
Fixpoint dict_set (d : dict) (k : K) (v : V) : dict :=
  match d with
  | [] => [(k, v)]
  | (k', v') :: d' =>
      if eqb k k' then (k', v) :: d' else (k', v') :: dict_set d' k v
  end.

Definition dict_keys (d : dict) : list K := map fst d.
End Dict.

Definition str_in (s : string) (l : list string) : bool :=
  existsb (String.eqb s) l.

Definition pair_eqb (a b : string * string) : bool :=
  String.eqb (fst a) (fst b) && String.eqb (snd a) (snd b).

(** [s.split(sep)] for a one-character separator. *)
Fixpoint split_on (sep : ascii) (s : string) : list string :=
  match s with
  | EmptyString => [EmptyString]
  | String c s' =>
      if Ascii.eqb c sep then EmptyString :: split_on sep s'
      else match split_on sep s' with
           | [] => [String c EmptyString]
           | w :: ws => String c w :: ws
           end
  end.

(** A value stored in a record written to the trade history. *)
Inductive val : Type :=
| VNone
| VBool (b : bool)
| VInt (z : Z)
| VFloat (q : Q)
| VStr (s : string).

Definition of_opt_str (o : option string) : val :=
  match o with Some s => VStr s | None => VNone end.

(** Stable sort by decreasing key: [l.sort(key=..., reverse=True)].  Elements
    of equal key keep their order. *)
Section Sort.
Variable A : Type.
Variable key : A -> Q.

Fixpoint insert_desc (x : A) (l : list A) : list A :=
  match l with
  | [] => [x]
  | y :: l' => if gt (key y) (key x) then y :: insert_desc x l'
               else x :: y :: l'
  end.

Fixpoint sort_desc (l : list A) : list A :=
  match l with
  | [] => []
  | x :: l' => insert_desc x (sort_desc l')
  end.
End Sort.

End Py.

Import Py.

Definition Token := string.
Definition Dex := string.
Definition Addr := string.

(** ** config.py *)

Module Config.

Record ArbitrageConfig : Type := {
  mon_decimals : Z;
  price_diff_threshold : Q;
  min_profit_threshold : Q;
  max_trade_amount : Q;
  slippage_tolerance : Q;
  price_check_interval : Q;
  gas_price_multiplier : Q;
  gas_limit : Z;
  trade_interval : Q
}.

Record VolumeBoosting : Type := {
  enabled : bool;
  target_dex : Dex;
  loss_tolerance : Q;
  vb_min_trade_amount : Q;
  vb_max_trade_amount : Q;
  vb_trade_interval : Q;
  vb_gas_limit : Z;
  vb_gas_price_multiplier : Q;
  include_gas_in_calculation : bool;
  volume_limit : Q
}.

Record t : Type := {
  WRAPPED_MON : string;
  DEX_ROUTERS : list (Dex * Addr);
  DEX_TYPES : list (Dex * string);
  TOKENS : list (Token * option Addr);
  TOKEN_PAIRS : list (Token * Token);
  ARBITRAGE_CONFIG : ArbitrageConfig;
  VOLUME_BOOSTING : VolumeBoosting
}.

(** The values of config.py when no environment variable overrides them. *)
Definition default : t := {|
  WRAPPED_MON := "0x760afe86e5de5fa0ee542fc7b7b713e1c5425701";
  DEX_ROUTERS :=
    [ ("hakifi", "0x398ac3b5d6c8279ea32ed05ca2b8331132afcebe");
      ("bean", "0xca810d095e90daae6e867c19df6d9a8c56db2c89");
      ("monda", "0xc80585f78a6e44fb46e1445006f820448840386e");
      ("octo", "0xb6091233aacacba45225a2b2121bbac807af4255");
      ("madness", "0x64aff7245ebdaaecaf266852139c67e4d8dba4de") ];
  DEX_TYPES :=
    [ ("hakifi", "uniswap_v2"); ("bean", "uniswap_v2");
      ("monda", "uniswap_v2"); ("octo", "uniswap_v2");
      ("madness", "uniswap_v2") ];
  TOKENS :=
    [ ("MON", None);
      ("USDC", Some "0xf817257fed379853cde0fa4f97ab987181b1e5ea") ];
  TOKEN_PAIRS := [ ("MON", "USDC") ];
  ARBITRAGE_CONFIG := {|
    mon_decimals := 18;
    price_diff_threshold := 1;
    min_profit_threshold := 5 # 100;
    max_trade_amount := 1;
    slippage_tolerance := 1;
    price_check_interval := 5;
    gas_price_multiplier := 11 # 10;
    gas_limit := 170000;
    trade_interval := 5 |};
  VOLUME_BOOSTING := {|
    enabled := true;
    target_dex := "monda";
    loss_tolerance := 1;
    vb_min_trade_amount := 7;
    vb_max_trade_amount := 10;
    vb_trade_interval := 5;
    vb_gas_limit := 200000;
    vb_gas_price_multiplier := 115 # 100;
    include_gas_in_calculation := true;
    volume_limit := 55000 |}
|}.

(** [DEX_TYPES.get(dex_name, "uniswap_v2")] *)
Definition dex_type (cfg : t) (dex_name : Dex) : string :=
  match dict_get String.eqb (DEX_TYPES cfg) dex_name with
  | Some ty => ty
  | None => "uniswap_v2"
  end.

(** [dex_name in DEX_TYPES and DEX_TYPES[dex_name] == "algebra"] *)
Definition is_algebra (cfg : t) (dex_name : Dex) : bool :=
  match dict_get String.eqb (DEX_TYPES cfg) dex_name with
  | Some ty => String.eqb ty "algebra"
  | None => false
  end.

(** [TOKENS.get(token)]: the address, [None] for a missing key and for the
    native token. *)
Definition token_address (cfg : t) (token : Token) : option Addr :=
  match dict_get String.eqb (TOKENS cfg) token with
  | Some a => a
  | None => None
  end.

(** The configuration with another [min_profit_threshold]. *)
Definition with_min_profit_threshold (cfg : t) (threshold : Q) : t :=
  let a := ARBITRAGE_CONFIG cfg in
  {| WRAPPED_MON := WRAPPED_MON cfg;
     DEX_ROUTERS := DEX_ROUTERS cfg;
     DEX_TYPES := DEX_TYPES cfg;
     TOKENS := TOKENS cfg;
     TOKEN_PAIRS := TOKEN_PAIRS cfg;
     ARBITRAGE_CONFIG :=
       {| mon_decimals := mon_decimals a;
          price_diff_threshold := price_diff_threshold a;
          min_profit_threshold := threshold;
          max_trade_amount := max_trade_amount a;
          slippage_tolerance := slippage_tolerance a;
          price_check_interval := price_check_interval a;
          gas_price_multiplier := gas_price_multiplier a;
          gas_limit := gas_limit a;
          trade_interval := trade_interval a |};
     VOLUME_BOOSTING := VOLUME_BOOSTING cfg |}.

End Config.

(** ** The external world: chain, clock and random generator *)

Module Chain.

(** The argument struct of an Algebra router's [exactInputSingle]. *)
Record ExactInputSingleParams : Type := {
  tokenIn : Addr;
  tokenOut : Addr;
  deployer : Addr;
  recipient : Addr;
  deadline : Z;
  amountIn : Z;
  amountOutMinimum : Z;
  limitSqrtPrice : Z
}.

(** [params['amountOutMinimum'] = m] *)
Definition set_amountOutMinimum (p : ExactInputSingleParams) (m : Z)
  : ExactInputSingleParams :=
  {| tokenIn := tokenIn p; tokenOut := tokenOut p; deployer := deployer p;
     recipient := recipient p; deadline := deadline p; amountIn := amountIn p;
     amountOutMinimum := m; limitSqrtPrice := limitSqrtPrice p |}.

(** The contract functions the bot sends as transactions. *)
Inductive call : Type :=
| swapExactETHForTokens (amountOutMin : Z) (path : list Addr) (to : Addr)
    (deadline : Z)
| swapExactTokensForETH (amountIn amountOutMin : Z) (path : list Addr)
    (to : Addr) (deadline : Z)
| swapExactTokensForTokens (amountIn amountOutMin : Z) (path : list Addr)
    (to : Addr) (deadline : Z)
| exactInputSingle (params : ExactInputSingleParams)
| approve (spender : Addr) (amount : Z).

(** What [build_transaction] receives; the nonce is read when the
    transaction is sent.  [target] names the router (a DEX) or the token
    contract called. *)
Record transaction : Type := {
  target : string;
  fn : call;
  value : option Z;
  gas : Z;
  maxFeePerGas : Z
}.

(** The minimum output a swap transaction asks of the venue; an approval has
    none. *)
Definition min_output (tx : transaction) : option Z :=
  match fn tx with
  | swapExactETHForTokens m _ _ _ => Some m
  | swapExactTokensForETH _ m _ _ _ => Some m
  | swapExactTokensForTokens _ m _ _ _ => Some m
  | exactInputSingle p => Some (amountOutMinimum p)
  | approve _ _ => None
  end.

(** web3, [time] and [random] as the bot uses them.  [send_transaction] is
    build, sign, [send_raw_transaction] and [wait_for_transaction_receipt]:
    it gives the transaction hash and the receipt status, or raises.
    [balanceOf] decodes a [uint256]: a token balance is a natural number. *)
Class Env (W : Type) : Type := {
  time_time : W -> Q;
  sleep : Q -> W -> W;
  random_random : W -> Q * W;
  is_address : Addr -> bool;
  to_checksum_address : Addr -> res Addr;
  default_account : Addr;
  address : Addr;
  gas_price : W -> res Z;
  get_balance : W -> res Z;
  balanceOf : W -> Token -> res N;
  allowance : W -> Token -> Addr -> res Z;
  WETH : W -> Dex -> res Addr;
  WNativeToken : W -> Dex -> res Addr;
  poolDeployer : W -> Dex -> res Addr;
  getAmountsOut : W -> Dex -> Z -> list Addr -> res (list Z);
  exactInputSingle_call :
    W -> Dex -> ExactInputSingleParams -> option Z -> res Z;
  send_transaction : transaction -> W -> res (string * Z) * W
}.

(** The next [n] values of [random.random()]. *)
Fixpoint draws {W : Type} {E : Env W} (n : nat) (w : W) : list Q :=
  match n with
  | O => []
  | S n' => let (u, w') := random_random w in u :: draws n' w'
  end.

End Chain.

Import Chain.

(** ** Computations with state and exceptions *)

Module Monad.

Definition M (S A : Type) : Type := S -> res A * S.

Definition ret {S A} (a : A) : M S A := fun s => (Ok a, s).

Definition bind {S A B} (m : M S A) (k : A -> M S B) : M S B :=
  fun s => match m s with
           | (Ok a, s') => k a s'
           | (Raise e, s') => (Raise e, s')
           end.

Definition raise {S A} (e : string) : M S A := fun s => (Raise e, s).

(** [try: m except Exception as e: h e] *)
Definition try_except {S A} (m : M S A) (h : string -> M S A) : M S A :=
  fun s => match m s with
           | (Ok a, s') => (Ok a, s')
           | (Raise e, s') => h e s'
           end.

Definition gets {S A} (f : S -> A) : M S A := fun s => (Ok (f s), s).

Definition modify {S} (f : S -> S) : M S unit := fun s => (Ok tt, f s).

(** A read that can raise. *)
Definition read {S A} (f : S -> res A) : M S A := fun s => (f s, s).

(** A pure computation that can raise. *)
Definition of_res {S A} (r : res A) : M S A := fun s => (r, s).

(** Run a computation on a component of the state. *)
Definition zoom {S T A} (get : S -> T) (set : T -> S -> S) (m : M T A)
  : M S A :=
  fun s => match m (get s) with (r, t') => (r, set t' s) end.

(** [for x in l: body x] *)
Fixpoint for_each {S A} (l : list A) (body : A -> M S unit) : M S unit :=
  match l with
  | [] => ret tt
  | x :: l' => bind (body x) (fun _ => for_each l' body)
  end.

(** Exceptions without state. *)
Definition bind_res {A B} (r : res A) (k : A -> res B) : res B :=
  match r with Ok a => k a | Raise e => Raise e end.

Definition nth_res {A} (l : list A) (n : nat) : res A :=
  match nth_error l n with
  | Some a => Ok a
  | None => Raise "list index out of range"
  end.

Module Notations.
Notation "x <- m ;; k" := (bind m (fun x => k))
  (at level 61, m at next level, right associativity).
Notation "' pat <- m ;; k" := (bind m (fun x => match x with pat => k end))
  (at level 61, pat pattern, m at next level, right associativity).
Notation "m ;; k" := (bind m (fun _ => k))
  (at level 61, right associativity).
Notation "x <~ r ;; k" := (bind_res r (fun x => k))
  (at level 61, r at next level, right associativity).
End Notations.

End Monad.

Import Monad.
Import Monad.Notations.

(** A quote is [(price, amount_out, amount_in)]. *)
Definition price (quote : Q * Z * Z) : Q := fst (fst quote).
Definition amount_out (quote : Q * Z * Z) : Z := snd (fst quote).

(** ** An opportunity, as the evaluators build it *)

Record Opportunity : Type := {
  op_type : string;
  op_token_in : Token;
  op_token_out : Token;
  op_token_middle : option Token;
  op_buy_dex : Dex;
  op_sell_dex : Dex;
  op_max_trade_amount : Q;
  op_expected_profit : Q;
  op_expected_profit_percentage : Q;
  op_token_out_amount : Q;
  op_final_token_in : Q
}.

(** [{(token_in, token_out): {dex_name: price}}] *)
Definition PriceMap : Type := dict (Token * Token) (dict Dex Q).

(** ** price_monitor.py *)

Module PriceMonitor.
Section PriceMonitor.
Context {W : Type} {E : Env W}.
Variable cfg : Config.t.

Let arb := Config.ARBITRAGE_CONFIG cfg.
Let vb := Config.VOLUME_BOOSTING cfg.

Definition zero_price : Q * Z * Z := (0%Q, 0%Z, 0%Z).

(** [__init__], lines 53-69: the routers whose address could be loaded. *)
Definition load_routers (l : list (Dex * Addr)) : dict Dex Addr :=
  fold_left
    (fun rs (kv : Dex * Addr) =>
       match to_checksum_address (snd kv) with
       | Ok router_address => dict_set String.eqb rs (fst kv) router_address
       | Raise _ => rs
       end)
    l [].

Definition routers : dict Dex Addr := load_routers (Config.DEX_ROUTERS cfg).

(** [__init__], lines 73-88: the decimals table.  MON has the configured
    precision, USDC and USDT have 6, every other configured token 18. *)
Definition token_decimals : dict Token Z :=
  fold_left
    (fun d (kv : Token * option Addr) =>
       let token_name := fst kv in
       if String.eqb token_name "MON" then d
       else dict_set String.eqb d token_name
              (if str_in token_name ["USDC"; "USDT"] then 6 else 18)%Z)
    (Config.TOKENS cfg)
    [("MON", Config.mon_decimals arb)].

(** [self.token_decimals.get(token, 18)] *)
Definition decimals_of (token : Token) : Z :=
  match dict_get String.eqb token_decimals token with
  | Some d => d
  | None => 18%Z
  end.

(** [get_weth_address].  The table [_weth_addresses] memoises the result and
    is left out: the read is a function of the world. *)
Definition get_weth_address (w : W) (dex_name : Dex) : option Addr :=
  if truthy (Config.WRAPPED_MON cfg) then Some (Config.WRAPPED_MON cfg)
  else if dict_mem String.eqb routers dex_name then
    match (if Config.is_algebra cfg dex_name then WNativeToken w dex_name
           else WETH w dex_name) with
    | Ok weth_address => Some weth_address
    | Raise _ => None
    end
  else None.

(** [get_pool_deployer] *)
Definition get_pool_deployer (w : W) (dex_name : Dex) : option Addr :=
  if negb (dict_mem String.eqb routers dex_name) then None
  else match poolDeployer w dex_name with
       | Ok pool_deployer => Some pool_deployer
       | Raise _ => None
       end.

(** [amount_out / amount_in * (10 ** (token_in_decimals - token_out_decimals))],
    the division being one of integers. *)
Definition price_of (token_in token_out : Token) (amount_out amount_in : Z)
  : res Q :=
  if (amount_in =? 0)%Z then Raise "division by zero"
  else Ok ((inject_Z amount_out / inject_Z amount_in)
           * pow10 (decimals_of token_in - decimals_of token_out))%Q.

(** [_get_uniswap_v2_price] *)
Definition _get_uniswap_v2_price (w : W) (dex_name : Dex)
    (token_in token_out : Token) (token_in_address token_out_address : Addr)
    (amount_in : Z) : Q * Z * Z :=
  let path := [token_in_address; token_out_address] in
  match (amounts <~ getAmountsOut w dex_name amount_in path ;;
         amount_out <~ nth_res amounts 1 ;;
         price <~ price_of token_in token_out amount_out amount_in ;;
         Ok (price, amount_out, amount_in)) with
  | Ok r => r
  | Raise _ => zero_price
  end.

(** [_get_algebra_dex_price]: a read-only [exactInputSingle] with a zero
    minimum output. *)
Definition _get_algebra_dex_price (w : W) (dex_name : Dex)
    (token_in token_out : Token) (token_in_address token_out_address : Addr)
    (amount_in : Z) : Q * Z * Z :=
  match get_pool_deployer w dex_name with
  | None => zero_price
  | Some pool_deployer =>
      if negb (truthy pool_deployer) then zero_price
      else
        let params :=
          {| tokenIn := token_in_address;
             tokenOut := token_out_address;
             deployer := pool_deployer;
             recipient := default_account;
             deadline := int_of (time_time w + 300);
             amountIn := amount_in;
             amountOutMinimum := 0;
             limitSqrtPrice := 0 |} in
        match (amount_out <~ exactInputSingle_call w dex_name params None ;;
               price <~ price_of token_in token_out amount_out amount_in ;;
               Ok (price, amount_out, amount_in)) with
        | Ok r => r
        | Raise _ => zero_price
        end
  end.

(** [get_token_price]: [(price, amount_out, amount_in)], and [(0, 0, 0)] for
    every failure. *)
Definition get_token_price (w : W) (dex_name : Dex)
    (token_in token_out : Token) (amount_in : option Z) : Q * Z * Z :=
  if negb (dict_mem String.eqb routers dex_name) then zero_price
  else
    let token_in_address :=
      if String.eqb token_in "MON" then get_weth_address w dex_name
      else Config.token_address cfg token_in in
    let token_out_address :=
      if String.eqb token_out "MON" then get_weth_address w dex_name
      else Config.token_address cfg token_out in
    match token_in_address, token_out_address with
    | Some a_in, Some a_out =>
        if negb (truthy a_in) || negb (truthy a_out) then zero_price
        else
          match to_checksum_address a_in, to_checksum_address a_out with
          | Ok token_in_address, Ok token_out_address =>
              let amount_in :=
                match amount_in with
                | None => int_of (Config.max_trade_amount arb
                                  * pow10 (decimals_of token_in))
                | Some a => a
                end in
              if String.eqb (Config.dex_type cfg dex_name) "algebra" then
                _get_algebra_dex_price w dex_name token_in token_out
                  token_in_address token_out_address amount_in
              else
                _get_uniswap_v2_price w dex_name token_in token_out
                  token_in_address token_out_address amount_in
          | _, _ => zero_price
          end
    | _, _ => zero_price
    end.

(** [get_all_prices], lines 144-150: every pair and its reverse. *)
Definition all_pairs : list (Token * Token) :=
  flat_map (fun p => [(fst p, snd p); (snd p, fst p)]) (Config.TOKEN_PAIRS cfg).

(** [get_all_prices], lines 164-169: the amount quoted. *)
Definition quote_amount : Q :=
  if Config.enabled vb
  then ((Config.vb_min_trade_amount vb + Config.vb_max_trade_amount vb) / 2)%Q
  else Config.max_trade_amount arb.

(** [get_all_prices], lines 171-181: one quote per configured venue, in the
    order of [DEX_ROUTERS]. *)
Definition gather_prices (w : W) (token_in token_out : Token)
  : list (Dex * (Q * Z * Z)) :=
  map (fun dex_name =>
         let amount_in := int_of (quote_amount * pow10 (decimals_of token_in)) in
         (dex_name,
          get_token_price w dex_name token_in token_out (Some amount_in)))
      (dict_keys (Config.DEX_ROUTERS cfg)).

(** [get_all_prices], lines 184-188: keep the venues whose price is valid. *)
Definition pair_prices_of (price_results : list (Dex * (Q * Z * Z)))
  : dict Dex Q :=
  fold_left
    (fun pair_prices (r : Dex * (Q * Z * Z)) =>
       let dex_name := fst r in
       let price := fst (fst (snd r)) in
       if gt price 0 then dict_set String.eqb pair_prices dex_name price
       else pair_prices)
    price_results [].

(** [get_all_prices], lines 191-195: a pair enters the map only with at least
    one valid price. *)
Definition add_pair_prices (prices : PriceMap) (token_pair : Token * Token)
    (pair_prices : dict Dex Q) : PriceMap :=
  match pair_prices with
  | [] => prices
  | _ :: _ => dict_set pair_eqb prices token_pair pair_prices
  end.

(** [get_all_prices] *)
Definition get_all_prices (w : W) : PriceMap :=
  fold_left
    (fun prices (token_pair : Token * Token) =>
       let token_in := fst token_pair in
       let token_out := snd token_pair in
       add_pair_prices prices (token_in, token_out)
         (pair_prices_of (gather_prices w token_in token_out)))
    all_pairs [].

(** [check_pair_price_difference], lines 384-391: the venues with a valid
    forward price, with the amount each one pays out. *)
Definition dex_prices_of (price_results : list (Dex * (Q * Z * Z)))
  : dict Dex (Q * Z) :=
  fold_left
    (fun dex_prices (r : Dex * (Q * Z * Z)) =>
       let dex_name := fst r in
       let price := fst (fst (snd r)) in
       let amount_out := snd (fst (snd r)) in
       if gt price 0
       then dict_set String.eqb dex_prices dex_name (price, amount_out)
       else dex_prices)
    price_results [].

(** [check_pair_price_difference], lines 399-409: the venue of strictly
    highest price, the first one met on a tie. *)
Definition best_sell (dex_prices : dict Dex (Q * Z)) : Q * option Dex * Z :=
  fold_left
    (fun best (kv : Dex * (Q * Z)) =>
       let best_sell_price := fst (fst best) in
       let price := fst (snd kv) in
       let amount_out := snd (snd kv) in
       if gt price best_sell_price then (price, Some (fst kv), amount_out)
       else best)
    dex_prices ((-1)%Q, None, 0%Z).

(** [check_pair_price_difference], lines 438-471: one candidate per venue
    with a valid reverse quote, kept when its profit exceeds the threshold.
    The division by [max_amount] raises when the amount is zero. *)
Fixpoint build_opportunities (token_in token_out : Token)
    (best_sell_dex : Dex) (obtained_token_out : Q)
    (reverse_price_results : list (Dex * (Q * Z * Z)))
    (opportunities : list Opportunity) : res (list Opportunity) :=
  match reverse_price_results with
  | [] => Ok opportunities
  | (buy_dex, (reverse_price, reverse_amount_out, _)) :: rest =>
      if gt reverse_price 0 && (0 <? reverse_amount_out)%Z then
        let max_amount := Config.max_trade_amount arb in
        let final_token_in :=
          F64.fl (inject_Z reverse_amount_out
                  / pow10 (decimals_of token_in)) in
        let profit := F64.sub final_token_in max_amount in
        ratio <~ F64.div profit max_amount ;;
        let profit_percentage := F64.mul ratio 100 in
        if gt profit (F64.fl (Config.min_profit_threshold arb)) then
          build_opportunities token_in token_out best_sell_dex
            obtained_token_out rest
            (opportunities ++
             [ {| op_type := "simple";
                  op_token_in := token_in;
                  op_token_out := token_out;
                  op_token_middle := Some token_out;
                  op_buy_dex := buy_dex;
                  op_sell_dex := best_sell_dex;
                  op_max_trade_amount := max_amount;
                  op_expected_profit := profit;
                  op_expected_profit_percentage := profit_percentage;
                  op_token_out_amount := obtained_token_out;
                  op_final_token_in := final_token_in |} ])
        else
          build_opportunities token_in token_out best_sell_dex
            obtained_token_out rest opportunities
      else
        build_opportunities token_in token_out best_sell_dex
          obtained_token_out rest opportunities
  end.

(** The body of [check_pair_price_difference], inside its [try]. *)
Definition check_pair_price_difference_body (w : W) (token_in token_out : Token)
  : res (list Opportunity) :=
  let max_amount := Config.max_trade_amount arb in
  let token_in_decimals := decimals_of token_in in
  let amount_in_wei := int_of (max_amount * pow10 token_in_decimals) in
  let price_results :=
    map (fun dex_name =>
           (dex_name,
            get_token_price w dex_name token_in token_out (Some amount_in_wei)))
        (dict_keys (Config.DEX_ROUTERS cfg)) in
  let dex_prices := dex_prices_of price_results in
  match dex_prices with
  | [] => Ok []
  | _ :: _ =>
      match best_sell dex_prices with
      | (best_sell_price, Some best_sell_dex, best_output_amount) =>
          if le best_sell_price 0 || (best_output_amount <=? 0)%Z then Ok []
          else
            let token_out_decimals := decimals_of token_out in
            let obtained_token_out :=
              (inject_Z best_output_amount / pow10 token_out_decimals)%Q in
            let token_out_amount_wei := best_output_amount in
            let reverse_price_results :=
              map (fun dex_name =>
                     (dex_name,
                      get_token_price w dex_name token_out token_in
                        (Some token_out_amount_wei)))
                  (dict_keys (Config.DEX_ROUTERS cfg)) in
            opportunities <~ build_opportunities token_in token_out
                               best_sell_dex obtained_token_out
                               reverse_price_results [] ;;
            Ok (sort_desc op_expected_profit opportunities)
      | (_, None, _) => Ok []
      end
  end.

(** [check_pair_price_difference]: every exception gives the empty list. *)
Definition check_pair_price_difference (w : W) (token_in token_out : Token)
  : list Opportunity :=
  match check_pair_price_difference_body w token_in token_out with
  | Ok opportunities => opportunities
  | Raise _ => []
  end.

(** [random.uniform(a, b)] *)
Definition random_uniform (a b : Q) : M W Q :=
  fun w => let (u, w') := random_random w in (Ok (a + (b - a) * u)%Q, w').

(** [find_volume_boosting_opportunities], lines 716-719: the venue of
    highest forward price above zero. *)
Definition best_forward (forward : dict Dex Q) : option Dex * Q :=
  fold_left
    (fun best (kv : Dex * Q) =>
       if gt (snd kv) (snd best) then (Some (fst kv), snd kv) else best)
    forward (None, 0%Q).

(** [find_volume_boosting_opportunities], lines 704-779: one trading pair,
    once its trade amount is drawn.  The result is the list of opportunities
    with the pair's, if any, appended; the division by a trade amount of
    zero raises. *)
Definition evaluate_boosting (prices : PriceMap) (token_in token_out : Token)
    (trade_amount : Q) (volume_boosting_opportunities : list Opportunity)
  : res (list Opportunity) :=
  let skip := Ok volume_boosting_opportunities in
  match dict_get pair_eqb prices (token_in, token_out) with
  | None => skip
  | Some forward =>
      match best_forward forward with
      | (None, _) => skip
      | (Some best_sell_dex, best_sell_price) =>
          if negb (truthy best_sell_dex) then skip
          else
            let best_output_amount :=
              F64.mul trade_amount best_sell_price in
            match dict_get pair_eqb prices (token_out, token_in) with
            | None => skip
            | Some reverse =>
                match dict_get String.eqb reverse (Config.target_dex vb) with
                | None => skip
                | Some target_buy_price =>
                    let final_token_in :=
                      F64.mul best_output_amount target_buy_price in
                    let profit := F64.sub final_token_in trade_amount in
                    ratio <~ F64.div profit trade_amount ;;
                    let profit_percentage := F64.mul ratio 100 in
                    if ge profit_percentage
                         (- F64.fl (Config.loss_tolerance vb))
                    then
                      Ok (volume_boosting_opportunities ++
                          [ {| op_type := "volume_boosting";
                               op_token_in := token_in;
                               op_token_out := token_out;
                               op_token_middle := None;
                               op_buy_dex := Config.target_dex vb;
                               op_sell_dex := best_sell_dex;
                               op_max_trade_amount := trade_amount;
                               op_expected_profit := profit;
                               op_expected_profit_percentage :=
                                 profit_percentage;
                               op_token_out_amount := best_output_amount;
                               op_final_token_in := final_token_in |} ])
                    else skip
                end
            end
      end
  end.

(** [find_volume_boosting_opportunities], lines 689-702: a well-formed pair
    draws its trade amount, uniform between the configured bounds and
    rounded to two decimals, and is evaluated. *)
Definition volume_boosting_pair (prices : PriceMap) (pair_str : string)
    (volume_boosting_opportunities : list Opportunity)
  : M W (list Opportunity) :=
  match split_on "-" pair_str with
  | [token_in; token_out] =>
      u <- random_uniform (Config.vb_min_trade_amount vb)
                          (Config.vb_max_trade_amount vb) ;;
      let trade_amount := round2 u in
      of_res (evaluate_boosting prices token_in token_out trade_amount
                volume_boosting_opportunities)
  | _ => ret volume_boosting_opportunities
  end.

(** The loop of [find_volume_boosting_opportunities] over the pairs. *)
Fixpoint volume_boosting_pairs (prices : PriceMap) (trading_pairs : list string)
    (volume_boosting_opportunities : list Opportunity)
  : M W (list Opportunity) :=
  match trading_pairs with
  | [] => ret volume_boosting_opportunities
  | pair_str :: rest =>
      found <- volume_boosting_pair prices pair_str
                 volume_boosting_opportunities ;;
      volume_boosting_pairs prices rest found
  end.

(** [find_volume_boosting_opportunities].  It has no [try]: the division by
    a trade amount of zero raises to the caller. *)
Definition find_volume_boosting_opportunities (trading_pairs : list string)
    (prices : PriceMap) : M W (list Opportunity) :=
  if negb (Config.enabled vb) then ret []
  else if negb (dict_mem String.eqb (Config.DEX_ROUTERS cfg)
                  (Config.target_dex vb))
  then ret []
  else
    found <- volume_boosting_pairs prices trading_pairs [] ;;
    ret (sort_desc op_expected_profit_percentage found).

End PriceMonitor.
End PriceMonitor.

(** ** The state of the process *)

(** A record of the trade history: a dictionary with string keys. *)
Definition record : Type := dict string val.

(** [ArbitrageBot.stats] *)
Record Stats : Type := {
  total_trades : Z;
  successful_trades : Z;
  failed_trades : Z;
  total_profit : Q;
  average_profit : Q
}.

(** The world, the fields of [TransactionExecutor] and [ArbitrageBot] that
    change, and [submitted]: every transaction handed to the chain, the
    oldest first.  [submitted] is not in the source; it lets properties of
    the submitted transactions be stated. *)
Record Sys (W : Type) : Type := {
  world : W;
  submitted : list transaction;
  pre_tx_mon_balance : Q;
  trade_history : list record;
  total_volume_usdc : Q;
  stats : Stats;
  last_trade_time : Q;
  trade_history_file : list record
}.

Section SysUpdate.
Context {W : Type}.

Definition set_world (w : W) (s : Sys W) : Sys W :=
  {| world := w; submitted := submitted s;
     pre_tx_mon_balance := pre_tx_mon_balance s;
     trade_history := trade_history s;
     total_volume_usdc := total_volume_usdc s; stats := stats s;
     last_trade_time := last_trade_time s;
     trade_history_file := trade_history_file s |}.

Definition log_submitted (tx : transaction) (s : Sys W) : Sys W :=
  {| world := world s; submitted := submitted s ++ [tx];
     pre_tx_mon_balance := pre_tx_mon_balance s;
     trade_history := trade_history s;
     total_volume_usdc := total_volume_usdc s; stats := stats s;
     last_trade_time := last_trade_time s;
     trade_history_file := trade_history_file s |}.

Definition set_pre_tx_mon_balance (b : Q) (s : Sys W) : Sys W :=
  {| world := world s; submitted := submitted s;
     pre_tx_mon_balance := b;
     trade_history := trade_history s;
     total_volume_usdc := total_volume_usdc s; stats := stats s;
     last_trade_time := last_trade_time s;
     trade_history_file := trade_history_file s |}.

Definition set_trade_history (h : list record) (s : Sys W) : Sys W :=
  {| world := world s; submitted := submitted s;
     pre_tx_mon_balance := pre_tx_mon_balance s;
     trade_history := h;
     total_volume_usdc := total_volume_usdc s; stats := stats s;
     last_trade_time := last_trade_time s;
     trade_history_file := trade_history_file s |}.

Definition set_total_volume_usdc (v : Q) (s : Sys W) : Sys W :=
  {| world := world s; submitted := submitted s;
     pre_tx_mon_balance := pre_tx_mon_balance s;
     trade_history := trade_history s;
     total_volume_usdc := v; stats := stats s;
     last_trade_time := last_trade_time s;
     trade_history_file := trade_history_file s |}.

Definition set_stats (st : Stats) (s : Sys W) : Sys W :=
  {| world := world s; submitted := submitted s;
     pre_tx_mon_balance := pre_tx_mon_balance s;
     trade_history := trade_history s;
     total_volume_usdc := total_volume_usdc s; stats := st;
     last_trade_time := last_trade_time s;
     trade_history_file := trade_history_file s |}.

Definition set_last_trade_time (t : Q) (s : Sys W) : Sys W :=
  {| world := world s; submitted := submitted s;
     pre_tx_mon_balance := pre_tx_mon_balance s;
     trade_history := trade_history s;
     total_volume_usdc := total_volume_usdc s; stats := stats s;
     last_trade_time := t;
     trade_history_file := trade_history_file s |}.

Definition set_trade_history_file (f : list record) (s : Sys W) : Sys W :=
  {| world := world s; submitted := submitted s;
     pre_tx_mon_balance := pre_tx_mon_balance s;
     trade_history := trade_history s;
     total_volume_usdc := total_volume_usdc s; stats := stats s;
     last_trade_time := last_trade_time s;
     trade_history_file := f |}.

(** A computation on the world alone, run in the process. *)
Definition on_world {A} (m : M W A) : M (Sys W) A :=
  zoom (@world W) set_world m.

(** [time.time()] *)
Definition now {E : Env W} : M (Sys W) Q := gets (fun s => time_time (world s)).

(** [await asyncio.sleep(d)] *)
Definition asyncio_sleep {E : Env W} (d : Q) : M (Sys W) unit :=
  modify (fun s => set_world (sleep d (world s)) s).

(** Build, sign and send a transaction and wait for its receipt. *)
Definition send {E : Env W} (tx : transaction) : M (Sys W) (string * Z) :=
  fun s => let (r, w') := send_transaction tx (world s) in
           (r, set_world w' (log_submitted tx s)).

End SysUpdate.

(** ** transaction_executor.py *)

Module TransactionExecutor.
Section TransactionExecutor.
Context {W : Type} {E : Env W}.
Variable cfg : Config.t.

Let arb := Config.ARBITRAGE_CONFIG cfg.
Let vb := Config.VOLUME_BOOSTING cfg.

Definition zero_address : Addr := "0x0000000000000000000000000000000000000000".

(** What a swap returns: [(success, tx_hash, amount_out)]. *)
Definition swap_result : Type := bool * option string * Q.

Definition swap_failed : swap_result := (false, None, 0%Q).

(** [__init__], lines 58-77: the routers, loaded as in [PriceMonitor]. *)
Definition routers : dict Dex Addr := PriceMonitor.routers cfg.

(** [__init__], lines 87-97: the same decimals table as [PriceMonitor]. *)
Definition token_decimals : dict Token Z := PriceMonitor.token_decimals cfg.

(** [__init__], lines 100-112: the tokens with a contract instance. *)
Definition tokens : list Token :=
  flat_map
    (fun kv : Token * option Addr =>
       match kv with
       | (token_name, Some token_address) =>
           if String.eqb token_name "MON" || negb (truthy token_address)
           then []
           else match to_checksum_address token_address with
                | Ok _ => [token_name]
                | Raise _ => []
                end
       | (_, None) => []
       end)
    (Config.TOKENS cfg).

(** [get_weth_address]; the memo table is left out as in [PriceMonitor].
    The checksum of [WRAPPED_MON] can raise. *)
Definition get_weth_address (dex_name : Dex) : M (Sys W) (option Addr) :=
  if truthy (Config.WRAPPED_MON cfg) then
    a <- of_res (to_checksum_address (Config.WRAPPED_MON cfg)) ;;
    ret (Some a)
  else if dict_mem String.eqb routers dex_name then
    w <- gets (@world W) ;;
    match (if Config.is_algebra cfg dex_name then WNativeToken w dex_name
           else WETH w dex_name) with
    | Ok weth_address => ret (Some weth_address)
    | Raise _ => ret None
    end
  else ret None.

(** [get_pool_deployer]; the memo table is left out. *)
Definition get_pool_deployer (dex_name : Dex) : M (Sys W) Addr :=
  if dict_mem String.eqb routers dex_name
     && Config.is_algebra cfg dex_name
  then
    w <- gets (@world W) ;;
    match poolDeployer w dex_name with
    | Ok pool_deployer => ret pool_deployer
    | Raise _ => ret zero_address
    end
  else ret zero_address.

(** [get_native_balance]: the balance in MON, 0 when the read fails. *)
Definition get_native_balance : M (Sys W) Q :=
  gets (fun s =>
          match (balance_wei <~ get_balance (world s) ;;
                 from_wei balance_wei 18) with
          | Ok balance => balance
          | Raise _ => 0%Q
          end).

(** Lines 694-697 and 766-768: when the output asset is MON, keep the
    balance before the transaction. *)
Definition remember_mon_balance (token_out : Token) : M (Sys W) unit :=
  if String.eqb token_out "MON" then
    b <- get_native_balance ;; modify (set_pre_tx_mon_balance b)
  else ret tt.

(** [get_token_decimals].  The branch that asks the token contract is not
    reachable: a token of [self.tokens] is a key of [TOKENS] other than MON,
    and [__init__] gave each of those an entry of [self.token_decimals]. *)
Definition get_token_decimals (token_name : Token) : Z :=
  match dict_get String.eqb token_decimals token_name with
  | Some d => d
  | None =>
      if String.eqb token_name "MON" then Config.mon_decimals arb
      else if str_in token_name ["USDC"; "USDT"] then 6%Z else 18%Z
  end.

(** [get_token_balance]: the balance in token units, 0 for every failure. *)
Definition get_token_balance (token_name : Token) : M (Sys W) Q :=
  if String.eqb token_name "MON" then get_native_balance
  else if negb (str_in token_name tokens) then ret 0%Q
  else
    gets (fun s =>
            match balanceOf (world s) token_name with
            | Ok balance_wei =>
                (inject_Z (Z.of_N balance_wei)
                 / pow10 (get_token_decimals token_name))%Q
            | Raise _ => 0%Q
            end).

(** [approve_token]; the result is the ["success"] entry of the dictionary
    the source returns.  A nonzero allowance is taken as sufficient; the
    approval granted is [2**256 - 1]. *)
Definition approve_token (token_name : Token) (router_address : Addr)
  : M (Sys W) bool :=
  try_except
    (if String.eqb token_name "MON" then ret true
     else if negb (str_in token_name tokens) then ret false
     else
       let max_amount := (2 ^ 256 - 1)%Z in
       current_allowance <-
         read (fun s => allowance (world s) token_name router_address) ;;
       if (0 <? current_allowance)%Z then ret true
       else
         let gas_limit := Config.gas_limit arb in
         fee <- read (fun s => gas_price (world s)) ;;
         receipt <- send {| target := token_name;
                            fn := approve router_address max_amount;
                            value := None;
                            gas := gas_limit;
                            maxFeePerGas := fee |} ;;
         ret (snd receipt =? 1)%Z)
    (fun _ => ret false).

(** Lines 876-890 and 983-996: the output amount a confirmed swap reports.
    For MON, the balance now minus [pre_tx_mon_balance]; for a token, the
    balance now. *)
Definition realized_output (token_out : Token) (token_out_decimals : Z)
  : M (Sys W) Q :=
  if String.eqb token_out "MON" then
    initial_balance <- gets (@pre_tx_mon_balance W) ;;
    final_balance <- get_native_balance ;;
    ret (final_balance - initial_balance)%Q
  else if negb (str_in token_out tokens) then raise "KeyError"
  else
    current_balance <- read (fun s => balanceOf (world s) token_out) ;;
    ret (inject_Z (Z.of_N current_balance) / pow10 token_out_decimals)%Q.

(** [_swap_tokens_uniswap_v2], lines 783-800: the minimum output submitted.
    A caller's 0 is replaced by the quote less the configured slippage; when
    the quote cannot be read the caller's value stays. *)
Definition v2_min_amount_out (w : W) (dex_name : Dex) (amount_in : Z)
    (path : list Addr) (min_amount_out : Z) : Z :=
  match (amounts_out <~ getAmountsOut w dex_name amount_in path ;;
         nth_res amounts_out 1) with
  | Ok expected_out =>
      if (min_amount_out =? 0)%Z then
        let slippage := F64.quot (Config.slippage_tolerance arb) 100 in
        int_of (F64.mul (inject_Z expected_out) (F64.sub 1 slippage))
      else min_amount_out
  | Raise _ => min_amount_out
  end.

(** [_swap_tokens_uniswap_v2] *)
Definition _swap_tokens_uniswap_v2 (dex_name : Dex) (token_in token_out : Token)
    (token_in_address token_out_address : Addr) (amount_in min_amount_out : Z)
    (token_out_decimals : Z) (deadline : Z) (is_volume_boosting : bool)
  : M (Sys W) swap_result :=
  try_except
    (let path := [token_in_address; token_out_address] in
     remember_mon_balance token_out ;;
     let gas_limit :=
       if is_volume_boosting then Config.vb_gas_limit vb
       else Config.gas_limit arb in
     let gas_price_multiplier :=
       if is_volume_boosting then Config.vb_gas_price_multiplier vb
       else Config.gas_price_multiplier arb in
     current_gas_price <- read (fun s => gas_price (world s)) ;;
     let fee :=
       int_of (F64.mul (inject_Z current_gas_price) gas_price_multiplier) in
     w <- gets (@world W) ;;
     let min_amount_out :=
       v2_min_amount_out w dex_name amount_in path min_amount_out in
     let transaction :=
       if String.eqb token_in "MON" && negb (String.eqb token_out "MON") then
         {| target := dex_name;
            fn := swapExactETHForTokens min_amount_out path address deadline;
            value := Some amount_in;
            gas := gas_limit;
            maxFeePerGas := fee |}
       else if negb (String.eqb token_in "MON") && String.eqb token_out "MON"
       then
         {| target := dex_name;
            fn := swapExactTokensForETH amount_in min_amount_out path address
                    deadline;
            value := None;
            gas := gas_limit;
            maxFeePerGas := fee |}
       else
         {| target := dex_name;
            fn := swapExactTokensForTokens amount_in min_amount_out path
                    address deadline;
            value := None;
            gas := gas_limit;
            maxFeePerGas := fee |} in
     receipt <- send transaction ;;
     let tx_hash_hex := fst receipt in
     if (snd receipt =? 1)%Z then
       token_out_amount <- realized_output token_out token_out_decimals ;;
       ret (true, Some tx_hash_hex, token_out_amount)
     else ret (false, Some tx_hash_hex, 0%Q))
    (fun _ => ret swap_failed).

(** [_swap_tokens_algebra], lines 920-938: the parameters submitted.  A
    caller's 0 is replaced by 99% of the simulated output; when the
    simulation fails the 0 stays. *)
Definition algebra_params_with_minimum (w : W) (dex_name : Dex)
    (token_in : Token) (amount_in min_amount_out : Z)
    (params : ExactInputSingleParams) : ExactInputSingleParams :=
  if (min_amount_out =? 0)%Z then
    match exactInputSingle_call w dex_name params
            (if String.eqb token_in "MON" then Some amount_in else None) with
    | Ok expected_out =>
        set_amountOutMinimum params
          (int_of (F64.mul (inject_Z expected_out) (99 # 100)))
    | Raise _ => params
    end
  else params.

(** [_swap_tokens_algebra] *)
Definition _swap_tokens_algebra (dex_name : Dex) (token_in token_out : Token)
    (token_in_address token_out_address : Addr) (amount_in min_amount_out : Z)
    (token_out_decimals : Z) (deadline : Z) (is_volume_boosting : bool)
  : M (Sys W) swap_result :=
  try_except
    (pool_deployer <- get_pool_deployer dex_name ;;
     let params :=
       {| tokenIn := token_in_address;
          tokenOut := token_out_address;
          deployer := pool_deployer;
          recipient := address;
          Chain.deadline := deadline;
          amountIn := amount_in;
          amountOutMinimum := min_amount_out;
          limitSqrtPrice := 0 |} in
     w <- gets (@world W) ;;
     let params :=
       algebra_params_with_minimum w dex_name token_in amount_in
         min_amount_out params in
     let gas_limit :=
       if is_volume_boosting then Config.vb_gas_limit vb
       else Config.gas_limit arb in
     fee <- read (fun s => gas_price (world s)) ;;
     receipt <- send {| target := dex_name;
                        fn := exactInputSingle params;
                        value := if String.eqb token_in "MON"
                                 then Some amount_in else None;
                        gas := gas_limit;
                        maxFeePerGas := fee |} ;;
     let tx_hash_hex := fst receipt in
     if (snd receipt =? 1)%Z then
       token_out_amount <- realized_output token_out token_out_decimals ;;
       ret (true, Some tx_hash_hex, token_out_amount)
     else ret (false, Some tx_hash_hex, 0%Q))
    (fun _ => ret swap_failed).

(** [swap_tokens], lines 699-721: the address of the input asset, after the
    balance check; [None] stands for the early [return False, None, 0]. *)
Definition resolve_token_in (weth_address : option Addr) (token_in : Token)
    (amount_in : Z) : M (Sys W) (option Addr) :=
  if String.eqb token_in "MON" then
    amount_in_eth <- of_res (from_wei amount_in 18) ;;
    current_balance <- get_native_balance ;;
    if lt (F64.fl current_balance) (F64.fl amount_in_eth) then ret None
    else ret weth_address
  else
    match Config.token_address cfg token_in with
    | None => ret None
    | Some a =>
        if negb (truthy a) then ret None
        else
          token_in_address <- of_res (to_checksum_address a) ;;
          if negb (str_in token_in tokens) then raise "KeyError"
          else
            current_balance_wei <-
              read (fun s => balanceOf (world s) token_in) ;;
            if (Z.of_N current_balance_wei <? amount_in)%Z then ret None
            else ret (Some token_in_address)
    end.

(** [swap_tokens], lines 723-732: the address and the decimals of the output
    asset; [None] stands for the early [return False, None, 0]. *)
Definition resolve_token_out (weth_address : option Addr) (token_out : Token)
  : M (Sys W) (option (Addr * Z)) :=
  if String.eqb token_out "MON" then
    match weth_address with
    | Some a => ret (Some (a, Config.mon_decimals arb))
    | None => ret None
    end
  else
    match Config.token_address cfg token_out with
    | None => ret None
    | Some a =>
        if negb (truthy a) then ret None
        else
          token_out_address <- of_res (to_checksum_address a) ;;
          ret (Some (token_out_address, get_token_decimals token_out))
    end.

(** [swap_tokens]: a swap for the execution coordinator.  It never raises:
    every exception gives [(False, None, 0)]. *)
Definition swap_tokens (dex_name : Dex) (token_in token_out : Token)
    (amount_in : Z) (min_amount_out : Z) (deadline : option Z)
    (is_volume_boosting : bool) : M (Sys W) swap_result :=
  try_except
    (match dict_get String.eqb routers dex_name with
     | None => ret swap_failed
     | Some router_address =>
         t <- now ;;
         let deadline :=
           match deadline with
           | None => int_of (t + 300)
           | Some d => d
           end in
         weth_address <- get_weth_address dex_name ;;
         if negb (truthy_opt weth_address)
            && (String.eqb token_in "MON" || String.eqb token_out "MON")
         then ret swap_failed
         else
           remember_mon_balance token_out ;;
           resolved_in <- resolve_token_in weth_address token_in amount_in ;;
           match resolved_in with
           | None => ret swap_failed
           | Some token_in_address =>
               resolved_out <- resolve_token_out weth_address token_out ;;
               match resolved_out with
               | None => ret swap_failed
               | Some (token_out_address, token_out_decimals) =>
                   approved <-
                     (if negb (String.eqb token_in "MON")
                      then approve_token token_in router_address
                      else ret true) ;;
                   if negb approved then ret swap_failed
                   else if String.eqb (Config.dex_type cfg dex_name) "algebra"
                   then _swap_tokens_algebra dex_name token_in token_out
                          token_in_address token_out_address amount_in
                          min_amount_out token_out_decimals deadline
                          is_volume_boosting
                   else _swap_tokens_uniswap_v2 dex_name token_in token_out
                          token_in_address token_out_address amount_in
                          min_amount_out token_out_decimals deadline
                          is_volume_boosting
               end
           end
     end)
    (fun _ => ret swap_failed).

End TransactionExecutor.
End TransactionExecutor.

(** ** arbitrage_bot.py *)

Module ArbitrageBot.
Section ArbitrageBot.
Context {W : Type} {E : Env W}.
Variable cfg : Config.t.

Let arb := Config.ARBITRAGE_CONFIG cfg.
Let vb := Config.VOLUME_BOOSTING cfg.

(** What [execute_cross_dex_arbitrage] returns: a flag and a dictionary. *)
Definition execution_result : Type := bool * record.

(** Lines 484 and 515: what a failed leg returns. *)
Definition leg_failed : execution_result :=
  (false, [("profit", VInt 0); ("profit_pct", VInt 0)]).

(** [save_trade_history]: the history is written out whole and the average
    profit refreshed.  Writing the files is taken to succeed; the source
    logs a failure and goes on. *)
Definition save_trade_history : M (Sys W) unit :=
  modify (fun s =>
    let st := stats s in
    let avg :=
      if (0 <? successful_trades st)%Z
      then (total_profit st / inject_Z (successful_trades st))%Q
      else 0%Q in
    set_stats {| total_trades := total_trades st;
                 successful_trades := successful_trades st;
                 failed_trades := failed_trades st;
                 total_profit := total_profit st;
                 average_profit := avg |}
      (set_trade_history_file (trade_history s) s)).

(** Lines 623-628: append a successful trade and count it. *)
Definition record_success (trade_record : record) (profit : Q)
  : M (Sys W) unit :=
  modify (fun s =>
    let st := stats s in
    set_stats {| total_trades := total_trades st + 1;
                 successful_trades := successful_trades st + 1;
                 failed_trades := failed_trades st;
                 total_profit := total_profit st + profit;
                 average_profit := average_profit st |}
      (set_trade_history (trade_history s ++ [trade_record]) s)).

(** Lines 632-666: the handler of [execute_cross_dex_arbitrage].  A record
    with status [failed] is appended, holding the mode, the error text and
    the fields of the opportunity; it holds no transaction hash.
    [final_token_name] is [Some] when the exception came after line 504 or
    511, where the source binds that name. *)
Definition record_failure (is_volume_boosting : bool)
    (token_in token_out : Token) (final_token_name : option Token)
    (buy_dex sell_dex : Dex) (amount_in : Q) (e : string)
  : M (Sys W) execution_result :=
  t <- now ;;
  let trade_record : record :=
    [ ("timestamp", VInt (int_of t));
      ("type", VStr (if is_volume_boosting then "volume_boosting"
                     else "arbitrage"));
      ("error", VStr e);
      ("status", VStr "failed");
      ("token_in", VStr token_in);
      ("token_out", VStr (match final_token_name with
                          | Some n => n
                          | None => token_out
                          end));
      ("buy_dex", VStr buy_dex);
      ("sell_dex", VStr sell_dex);
      ("amount", VFloat amount_in) ] in
  modify (fun s =>
    let st := stats s in
    set_stats {| total_trades := total_trades st + 1;
                 successful_trades := successful_trades st;
                 failed_trades := failed_trades st + 1;
                 total_profit := total_profit st;
                 average_profit := average_profit st |}
      (set_trade_history (trade_history s ++ [trade_record]) s)) ;;
  ret (false, [("error", VStr e)]).

(** What the two legs leave for the settlement. *)
Record legs_done : Type := {
  initial_balance : Q;
  buy_tx_hash : option string;
  token_middle_amount : Q;
  sell_tx_hash : option string;
  token_out_amount : Q;
  final_token_name : Token
}.

(** Lines 452-517: the two legs.  [inl] is an early return of the source. *)
Definition execute_legs (is_volume_boosting : bool)
    (token_in token_out token_middle : Token) (buy_dex sell_dex : Dex)
    (amount_in : Q) : M (Sys W) (execution_result + legs_done) :=
  let token_in_decimals :=
    if String.eqb token_in "MON" then 18%Z
    else TransactionExecutor.get_token_decimals cfg token_in in
  initial_balance <- TransactionExecutor.get_token_balance cfg token_in ;;
  let amount_in_wei :=
    int_of (F64.mul amount_in (pow10 token_in_decimals)) in
  let middle_token_name :=
    if is_volume_boosting then token_out else token_middle in
  '(buy_result, buy_tx_hash, token_middle_amount) <-
    TransactionExecutor.swap_tokens cfg sell_dex token_in middle_token_name
      amount_in_wei 0 None is_volume_boosting ;;
  if negb buy_result then ret (inl leg_failed)
  else
    let token_middle_decimals :=
      if String.eqb middle_token_name "MON" then 18%Z
      else TransactionExecutor.get_token_decimals cfg middle_token_name in
    let token_middle_amount_wei :=
      int_of (F64.mul token_middle_amount (pow10 token_middle_decimals)) in
    '(sell_result, sell_tx_hash, token_out_amount) <-
      TransactionExecutor.swap_tokens cfg buy_dex middle_token_name token_in
        token_middle_amount_wei 0 None is_volume_boosting ;;
    let final_token_name := token_in in
    if negb sell_result then ret (inl leg_failed)
    else ret (inr {| initial_balance := initial_balance;
                     buy_tx_hash := buy_tx_hash;
                     token_middle_amount := token_middle_amount;
                     sell_tx_hash := sell_tx_hash;
                     token_out_amount := token_out_amount;
                     final_token_name := final_token_name |}).

(** Lines 519-630: settlement after two successful legs. *)
Definition settle (is_volume_boosting : bool) (token_in token_out : Token)
    (buy_dex sell_dex : Dex) (amount_in : Q) (l : legs_done)
  : M (Sys W) execution_result :=
  final_balance <- TransactionExecutor.get_token_balance cfg (final_token_name l) ;;
  let profit :=
    if is_volume_boosting then (final_balance - initial_balance l)%Q
    else if negb (String.eqb token_in (final_token_name l))
         then (final_balance - amount_in)%Q
         else (final_balance - initial_balance l)%Q in
  ratio <- of_res (div profit amount_in) ;;
  let profit_pct := (ratio * 100)%Q in
  let gas_limit :=
    if is_volume_boosting then Config.vb_gas_limit vb
    else Config.gas_limit arb in
  let include_gas :=
    if is_volume_boosting then Config.include_gas_in_calculation vb
    else true in
  current_gas_price <- read (fun s => gas_price (world s)) ;;
  gas_price_gwei <- of_res (from_wei current_gas_price 9) ;;
  let estimated_gas_cost_wei := (gas_limit * current_gas_price * 2)%Z in
  estimated_gas_cost <- of_res (from_wei estimated_gas_cost_wei 18) ;;
  let actual_profit := (profit - estimated_gas_cost)%Q in
  (if is_volume_boosting && String.eqb token_out "USDC" then
     modify (fun s =>
       set_total_volume_usdc (total_volume_usdc s + token_middle_amount l)%Q s)
   else ret tt) ;;
  t <- now ;;
  let trade_record : record :=
    [ ("timestamp", VInt (int_of t));
      ("type", VStr (if is_volume_boosting then "volume_boosting"
                     else "arbitrage"));
      ("token_in", VStr token_in);
      ("token_out", VStr (final_token_name l));
      ("sell_dex", VStr sell_dex);
      ("buy_dex", VStr buy_dex);
      ("amount", VFloat amount_in);
      ("initial_balance", VFloat (initial_balance l));
      ("final_balance", VFloat final_balance);
      ("token_out_amount", VFloat (token_out_amount l));
      ("token_middle_amount", VFloat (token_middle_amount l));
      ("profit", VFloat profit);
      ("profit_percentage", VFloat profit_pct);
      ("estimated_gas", VFloat estimated_gas_cost);
      ("net_profit", VFloat (if include_gas then actual_profit else profit));
      ("sell_tx_hash", of_opt_str (sell_tx_hash l));
      ("buy_tx_hash", of_opt_str (buy_tx_hash l));
      ("status", VStr "success") ] in
  record_success trade_record profit ;;
  ret (true, trade_record).

(** [execute_cross_dex_arbitrage].  The one [try] of the source is written
    as two, around the legs and around the settlement, so that the handler
    knows whether [final_token_name] was bound, which the source asks of
    [locals()].  The other names the handler looks up are bound by lines
    419-434, which cannot raise on an [Opportunity]. *)
Definition execute_cross_dex_arbitrage (opportunity : Opportunity)
  : M (Sys W) execution_result :=
  let volume_boosting := Config.enabled vb in
  let is_volume_boosting :=
    volume_boosting && String.eqb (op_type opportunity) "volume_boosting" in
  let token_in := op_token_in opportunity in
  let token_out := op_token_out opportunity in
  let buy_dex := op_buy_dex opportunity in
  let sell_dex := op_sell_dex opportunity in
  let amount_in := op_max_trade_amount opportunity in
  let token_middle :=
    if negb is_volume_boosting then
      match op_token_middle opportunity with
      | Some m => m
      | None => token_out
      end
    else token_out in
  legs <- try_except
            (execute_legs is_volume_boosting token_in token_out token_middle
               buy_dex sell_dex amount_in)
            (fun e =>
               r <- record_failure is_volume_boosting token_in token_out None
                      buy_dex sell_dex amount_in e ;;
               ret (inl r)) ;;
  match legs with
  | inl early => ret early
  | inr l =>
      try_except
        (settle is_volume_boosting token_in token_out buy_dex sell_dex
           amount_in l)
        (record_failure is_volume_boosting token_in token_out
           (Some (final_token_name l)) buy_dex sell_dex amount_in)
  end.

(** [check_and_save_liquidity], lines 132-146: the venues with a well-formed
    address and a loaded router. *)
Definition active_dexes : list Dex :=
  flat_map
    (fun kv : Dex * Addr =>
       if negb (is_address (snd kv)) then []
       else if negb (dict_mem String.eqb (PriceMonitor.routers cfg) (fst kv))
            then []
            else [fst kv])
    (Config.DEX_ROUTERS cfg).

(** [check_and_save_liquidity], lines 176-188: the pair is appended once for
    every venue that quotes a valid price. *)
Definition liquid_on (w : W) (token_in token_out : Token) (test_amount_wei : Z)
  : list (Token * Token) :=
  flat_map
    (fun dex_name =>
       let price_info :=
         PriceMonitor.get_token_price cfg w dex_name token_in token_out
           (Some test_amount_wei) in
       if gt (fst (fst price_info)) 0 then [(token_in, token_out)] else [])
    active_dexes.

(** [check_and_save_liquidity] *)
Definition check_and_save_liquidity (w : W) : list (Token * Token) :=
  let test_amount :=
    if Config.enabled vb then Config.vb_max_trade_amount vb
    else Config.max_trade_amount arb in
  let test_amount_wei := int_of (test_amount * pow10 18) in
  match active_dexes with
  | [] => []
  | first_dex :: _ =>
      flat_map
        (fun token_pair : Token * Token =>
           let token_in := fst token_pair in
           let token_out := snd token_pair in
           let token_in_address :=
             if String.eqb token_in "MON"
             then PriceMonitor.get_weth_address cfg w first_dex
             else Config.token_address cfg token_in in
           let token_out_address :=
             if String.eqb token_out "MON"
             then PriceMonitor.get_weth_address cfg w first_dex
             else Config.token_address cfg token_out in
           if negb (truthy_opt token_in_address)
              || negb (truthy_opt token_out_address)
           then []
           else liquid_on w token_in token_out test_amount_wei)
        (Config.TOKEN_PAIRS cfg)
  end.

(** Lines 311-314 and 361-364: the gas of two transactions, in MON. *)
Definition estimate_gas_cost (gas_limit : Z) : M (Sys W) Q :=
  current_gas_price <- read (fun s => gas_price (world s)) ;;
  of_res (from_wei (gas_limit * current_gas_price * 2) 18).

(** Lines 316-335: the loss gate of the driver in boosting mode; [true] lets
    the opportunity through. *)
Definition within_loss_tolerance (best_opportunity : Opportunity)
    (estimated_gas_cost : Q) : res bool :=
  let expected_profit := op_expected_profit best_opportunity in
  let expected_profit_percentage :=
    op_expected_profit_percentage best_opportunity in
  let loss_tolerance := Config.loss_tolerance vb in
  if Config.include_gas_in_calculation vb then
    let profit_after_gas := F64.sub expected_profit estimated_gas_cost in
    ratio <~ F64.div profit_after_gas (op_max_trade_amount best_opportunity) ;;
    let profit_percentage_after_gas := F64.mul ratio 100 in
    Ok (negb (lt profit_percentage_after_gas (- F64.fl loss_tolerance)))
  else
    Ok (negb (lt (F64.fl expected_profit_percentage)
                 (- F64.fl loss_tolerance))).

(** Lines 266-283 and 296-335: boosting mode.  The opportunity to execute,
    or [None] where the source goes on to the next pair. *)
Definition select_volume_boosting (all_prices : PriceMap)
    (token_in token_out : Token) : M (Sys W) (option Opportunity) :=
  let trading_pair := (token_in ++ "-" ++ token_out)%string in
  opportunities <-
    on_world (PriceMonitor.find_volume_boosting_opportunities cfg
                [trading_pair] all_prices) ;;
  match opportunities with
  | [] => ret None
  | best_opportunity :: _ =>
      estimated_gas_cost <- estimate_gas_cost (Config.vb_gas_limit vb) ;;
      pass <- of_res (within_loss_tolerance best_opportunity
                        estimated_gas_cost) ;;
      if pass then ret (Some best_opportunity) else ret None
  end.

(** Lines 371-373: the profit gate of the driver in arbitrage mode; [true]
    lets the opportunity through. *)
Definition above_min_profit (best_opportunity : Opportunity)
    (estimated_gas_cost : Q) : bool :=
  let profit_after_gas :=
    F64.sub (op_expected_profit best_opportunity) estimated_gas_cost in
  negb (le profit_after_gas (F64.fl (Config.min_profit_threshold arb))).

(** Lines 284-293 and 351-375: arbitrage mode. *)
Definition select_arbitrage (token_in token_out : Token)
  : M (Sys W) (option Opportunity) :=
  w <- gets (@world W) ;;
  let opportunities :=
    PriceMonitor.check_pair_price_difference cfg w token_in token_out in
  match sort_desc op_expected_profit opportunities with
  | [] => ret None
  | best_opportunity :: _ =>
      estimated_gas_cost <- estimate_gas_cost (Config.gas_limit arb) ;;
      if above_min_profit best_opportunity estimated_gas_cost
      then ret (Some best_opportunity)
      else ret None
  end.

(** Lines 341-346 and 381-386: wait until the interval since the last trade
    has passed. *)
Definition wait_for_cooldown (min_interval : Q) : M (Sys W) unit :=
  current_time <- now ;;
  last <- gets (@last_trade_time W) ;;
  if lt (current_time - last) min_interval
  then asyncio_sleep (min_interval - (current_time - last))
  else ret tt.

(** Lines 349/389 and 392: execute, then record the time. *)
Definition execute_and_stamp (best_opportunity : Opportunity)
  : M (Sys W) unit :=
  execute_cross_dex_arbitrage best_opportunity ;;
  t <- now ;;
  modify (set_last_trade_time t).

(** Lines 256-403: one pair of the cycle.  An exception ends the pair. *)
Definition process_pair (all_prices : PriceMap) (token_pair : Token * Token)
  : M (Sys W) unit :=
  let token_in := fst token_pair in
  let token_out := snd token_pair in
  try_except
    (selected <-
       (if Config.enabled vb
        then select_volume_boosting all_prices token_in token_out
        else select_arbitrage token_in token_out) ;;
     match selected with
     | None => ret tt
     | Some best_opportunity =>
         let min_interval :=
           if Config.enabled vb then Config.vb_trade_interval vb
           else Config.trade_interval arb in
         wait_for_cooldown min_interval ;;
         execute_and_stamp best_opportunity ;;
         save_trade_history ;;
         asyncio_sleep 5
     end)
    (fun _ => ret tt).

(** Lines 243-409: prices, liquid pairs, then every pair in turn. *)
Definition trade_cycle : M (Sys W) unit :=
  w <- gets (@world W) ;;
  let all_prices := PriceMonitor.get_all_prices cfg w in
  let valid_pairs := check_and_save_liquidity w in
  for_each valid_pairs (process_pair all_prices).

(** How a cycle ends: it returns, or [sys.exit] ends the process. *)
Inductive cycle_outcome : Type :=
| Returned
| Exited (code : Z).

(** [find_and_execute_arbitrage].  In boosting mode the cycle returns at
    once while the interval since the last trade has not passed, and exits
    the process once the USDC volume has reached the limit. *)
Definition find_and_execute_arbitrage (s : Sys W) : cycle_outcome * Sys W :=
  let volume_boosting_enabled := Config.enabled vb in
  let current_time := time_time (world s) in
  let time_since_last_trade := (current_time - last_trade_time s)%Q in
  if volume_boosting_enabled
     && lt time_since_last_trade (Config.vb_trade_interval vb)
  then (Returned, s)
  else if volume_boosting_enabled
          && ge (total_volume_usdc s) (Config.volume_limit vb)
  then (Exited 0, snd (save_trade_history s))
  else (Returned, snd (trade_cycle s)).

(** How the process stands after some cycles. *)
Inductive run_outcome : Type :=
| Running
| Stopped (code : Z).

(** [run]: cycles until the process exits; [fuel] bounds the cycles looked
    at.  The history is saved after every cycle and once more on exit. *)
Fixpoint run (fuel : nat) (s : Sys W) : run_outcome * Sys W :=
  match fuel with
  | O => (Running, s)
  | S fuel' =>
      match find_and_execute_arbitrage s with
      | (Exited code, s1) => (Stopped code, snd (save_trade_history s1))
      | (Returned, s1) =>
          let s2 := snd (save_trade_history s1) in
          let s3 := snd (asyncio_sleep (Config.price_check_interval arb) s2) in
          run fuel' s3
      end
  end.

End ArbitrageBot.
End ArbitrageBot.

(** ** A scripted world, to run the model on concrete inputs *)

Module Toy.

(** What the next transaction does: the outcome of sending it, and the
    changes of the account's balances it leaves (in wei and raw token
    units). *)
Record effect : Type := {
  outcome : res (string * Z);
  native_delta : Z;
  token_delta : list (Token * Z);
  elapsed : Q
}.

(** [rates] holds, per venue and input asset address, the output per unit of
    input in raw units; a missing entry makes the quote revert. *)
Record t : Type := {
  clock : Q;
  randoms : list Q;
  native_wei : Z;
  token_wei : dict Token Z;
  rates : dict (Dex * Addr) Q;
  current_gas_price : res Z;
  script : list effect
}.

Definition quote (w : t) (dex_name : Dex) (amount_in : Z) (a_in : Addr)
  : res Z :=
  match dict_get pair_eqb (rates w) (dex_name, a_in) with
  | Some r => Ok (Qfloor (inject_Z amount_in * r))
  | None => Raise "execution reverted"
  end.

Definition add_delta (balances : dict Token Z) (d : Token * Z) : dict Token Z :=
  let old := match dict_get String.eqb balances (fst d) with
             | Some b => b
             | None => 0%Z
             end in
  dict_set String.eqb balances (fst d) (old + snd d)%Z.

Definition step (tx : transaction) (w : t) : res (string * Z) * t :=
  match script w with
  | [] => (Raise "connection lost", w)
  | e :: rest =>
      (outcome e,
       {| clock := (clock w + elapsed e)%Q;
          randoms := randoms w;
          native_wei := (native_wei w + native_delta e)%Z;
          token_wei := fold_left add_delta (token_delta e) (token_wei w);
          rates := rates w;
          current_gas_price := current_gas_price w;
          script := rest |})
  end.

Definition draw (w : t) : Q * t :=
  match randoms w with
  | [] => (0%Q, w)
  | u :: rest =>
      (u, {| clock := clock w; randoms := rest; native_wei := native_wei w;
             token_wei := token_wei w; rates := rates w;
             current_gas_price := current_gas_price w; script := script w |})
  end.

Definition pass (d : Q) (w : t) : t :=
  {| clock := (clock w + d)%Q; randoms := randoms w;
     native_wei := native_wei w; token_wei := token_wei w; rates := rates w;
     current_gas_price := current_gas_price w; script := script w |}.

#[global] Instance env : Env t := {|
  time_time := clock;
  sleep := pass;
  random_random := draw;
  is_address := fun _ => true;
  to_checksum_address := fun a => Ok a;
  default_account := "0xb07";
  address := "0xb07";
  gas_price := current_gas_price;
  get_balance := fun w => Ok (native_wei w);
  balanceOf := fun w token =>
    Ok (Z.to_N (match dict_get String.eqb (token_wei w) token with
                | Some b => b
                | None => 0%Z
                end));
  allowance := fun _ _ _ => Ok (2 ^ 256 - 1)%Z;
  WETH := fun _ _ => Raise "not used";
  WNativeToken := fun _ _ => Raise "not used";
  poolDeployer := fun _ _ => Raise "not used";
  getAmountsOut := fun w dex_name amount_in path =>
    match path with
    | a_in :: _ =>
        match quote w dex_name amount_in a_in with
        | Ok out => Ok [amount_in; out]
        | Raise e => Raise e
        end
    | [] => Raise "empty path"
    end;
  exactInputSingle_call := fun w dex_name params _ =>
    quote w dex_name (amountIn params) (tokenIn params);
  send_transaction := step
|}.

Definition wmon : Addr := Config.WRAPPED_MON Config.default.
Definition usdc : Addr := "0xf817257fed379853cde0fa4f97ab987181b1e5ea".

(** One MON is [10^18] wei, one USDC [10^6] units: a price of [p] USDC per
    MON is a raw rate of [p / 10^12]. *)
Definition mon_to_usdc (p : Q) : Q := (p / pow10 12)%Q.
Definition usdc_to_mon (p : Q) : Q := (p * pow10 12)%Q.

Definition one_mon : Z := (10 ^ 18)%Z.
Definition one_usdc : Z := (10 ^ 6)%Z.
Definition gwei : Z := (10 ^ 9)%Z.

Definition start (w : t) : Sys t :=
  {| world := w; submitted := []; pre_tx_mon_balance := 0;
     trade_history := []; total_volume_usdc := 0;
     stats := {| total_trades := 0; successful_trades := 0;
                 failed_trades := 0; total_profit := 0;
                 average_profit := 0 |};
     last_trade_time := 0; trade_history_file := [] |}.

End Toy.

(** ** Concrete markets and opportunities *)

Module Examples.

(** Two venues quote MON for USDC, the target venue [monda] the better
    price; only [monda] quotes the way back.  The account holds 100 MON, the
    gas price is 50 gwei. *)
Definition market : Toy.t := {|
  Toy.clock := 1000;
  Toy.randoms := [1 # 2; 1 # 4];
  Toy.native_wei := 100 * Toy.one_mon;
  Toy.token_wei := [];
  Toy.rates := [ (("hakifi", Toy.wmon), Toy.mon_to_usdc 2);
                 (("monda", Toy.wmon), Toy.mon_to_usdc (21 # 10));
                 (("monda", Toy.usdc), Toy.usdc_to_mon (476 # 1000)) ];
  Toy.current_gas_price := Ok (50 * Toy.gwei)%Z;
  Toy.script := []
|}.

(** [market] with the coming transactions scripted. *)
Definition with_script (w : Toy.t) (script : list Toy.effect) : Toy.t :=
  {| Toy.clock := Toy.clock w; Toy.randoms := Toy.randoms w;
     Toy.native_wei := Toy.native_wei w; Toy.token_wei := Toy.token_wei w;
     Toy.rates := Toy.rates w;
     Toy.current_gas_price := Toy.current_gas_price w;
     Toy.script := script |}.

Definition with_tokens (w : Toy.t) (balances : dict Token Z) : Toy.t :=
  {| Toy.clock := Toy.clock w; Toy.randoms := Toy.randoms w;
     Toy.native_wei := Toy.native_wei w; Toy.token_wei := balances;
     Toy.rates := Toy.rates w;
     Toy.current_gas_price := Toy.current_gas_price w;
     Toy.script := Toy.script w |}.

Definition with_rates (w : Toy.t) (rates : dict (Dex * Addr) Q) : Toy.t :=
  {| Toy.clock := Toy.clock w; Toy.randoms := Toy.randoms w;
     Toy.native_wei := Toy.native_wei w; Toy.token_wei := Toy.token_wei w;
     Toy.rates := rates;
     Toy.current_gas_price := Toy.current_gas_price w;
     Toy.script := Toy.script w |}.

(** A boosting round trip of 8.5 MON: sell on [hakifi], buy back on
    [monda]. *)
Definition round_trip : Opportunity := {|
  op_type := "volume_boosting";
  op_token_in := "MON";
  op_token_out := "USDC";
  op_token_middle := None;
  op_buy_dex := "monda";
  op_sell_dex := "hakifi";
  op_max_trade_amount := 85 # 10;
  op_expected_profit := - (408 # 1000);
  op_expected_profit_percentage := - (48 # 10);
  op_token_out_amount := 17;
  op_final_token_in := 8092 # 1000
|}.

(** A confirmed sale of 8.5 MON for 17 USDC. *)
Definition leg1_confirmed : Toy.effect := {|
  Toy.outcome := Ok ("0xaaa1", 1%Z);
  Toy.native_delta := (- (85 * 10 ^ 17) - 10 ^ 16)%Z;
  Toy.token_delta := [("USDC", 17 * Toy.one_usdc)%Z];
  Toy.elapsed := 2
|}.

(** A buy-back that is mined and reverts: gas is paid, nothing moves. *)
Definition leg2_reverted : Toy.effect := {|
  Toy.outcome := Ok ("0xbbb2", 0%Z);
  Toy.native_delta := (- 10 ^ 16)%Z;
  Toy.token_delta := [];
  Toy.elapsed := 2
|}.

(** A confirmed buy-back of 8.092 MON for 17 USDC. *)
Definition leg2_confirmed : Toy.effect := {|
  Toy.outcome := Ok ("0xbbb2", 1%Z);
  Toy.native_delta := (8092 * 10 ^ 15 - 10 ^ 16)%Z;
  Toy.token_delta := [("USDC", - (17 * Toy.one_usdc))%Z];
  Toy.elapsed := 2
|}.

(** A confirmed sale of 1 MON that pays out 3 USDC. *)
Definition sale_of_one_mon : Toy.effect := {|
  Toy.outcome := Ok ("0xccc3", 1%Z);
  Toy.native_delta := (- 10 ^ 18 - 10 ^ 16)%Z;
  Toy.token_delta := [("USDC", 3 * Toy.one_usdc)%Z];
  Toy.elapsed := 2
|}.

(** Scenario D: the first leg is confirmed, the second reverts. *)
Definition scenario_d : Sys Toy.t :=
  Toy.start (with_script market [leg1_confirmed; leg2_reverted]).

(** Both legs are confirmed. *)
Definition both_confirmed : Sys Toy.t :=
  Toy.start (with_script market [leg1_confirmed; leg2_confirmed]).

(** The round trip asked with a trade amount of zero. *)
Definition empty_round_trip : Opportunity := {|
  op_type := "volume_boosting";
  op_token_in := "MON";
  op_token_out := "USDC";
  op_token_middle := None;
  op_buy_dex := "monda";
  op_sell_dex := "hakifi";
  op_max_trade_amount := 0;
  op_expected_profit := 0;
  op_expected_profit_percentage := 0;
  op_token_out_amount := 0;
  op_final_token_in := 0
|}.

(** The account already holds 5 USDC when it sells 1 MON for 3 USDC. *)
Definition holding_usdc : Sys Toy.t :=
  Toy.start (with_script (with_tokens market [("USDC", 5 * Toy.one_usdc)%Z])
               [sale_of_one_mon]).


(** Scenario A: three venues quote 1.00, 1.02 and 0.98 USDC for a MON, and
    0.97, 0.99 and 1.01 MON for a USDC. *)
Definition scenario_a : Toy.t :=
  with_rates market
    [ (("hakifi", Toy.wmon), Toy.mon_to_usdc 1);
      (("bean", Toy.wmon), Toy.mon_to_usdc (102 # 100));
      (("monda", Toy.wmon), Toy.mon_to_usdc (98 # 100));
      (("hakifi", Toy.usdc), Toy.usdc_to_mon (97 # 100));
      (("bean", Toy.usdc), Toy.usdc_to_mon (99 # 100));
      (("monda", Toy.usdc), Toy.usdc_to_mon (101 # 100)) ].





(** [monda] pays 2 USDC for a MON, more than [hakifi], and gives back
    0.4975 MON for a USDC. *)
Definition steady : Toy.t :=
  with_rates market
    [ (("hakifi", Toy.wmon), Toy.mon_to_usdc (19 # 10));
      (("monda", Toy.wmon), Toy.mon_to_usdc 2);
      (("monda", Toy.usdc), Toy.usdc_to_mon (4975 # 10000)) ].

(** A confirmed sale of MON for USDC, and a confirmed buy-back; each costs
    0.01 MON of gas. *)
Definition sale (tx_hash : string) (mon_wei usdc_units : Z) : Toy.effect := {|
  Toy.outcome := Ok (tx_hash, 1%Z);
  Toy.native_delta := (- mon_wei - 10 ^ 16)%Z;
  Toy.token_delta := [("USDC", usdc_units)];
  Toy.elapsed := 2
|}.

Definition buy_back (tx_hash : string) (usdc_units mon_wei : Z)
  : Toy.effect := {|
  Toy.outcome := Ok (tx_hash, 1%Z);
  Toy.native_delta := (mon_wei - 10 ^ 16)%Z;
  Toy.token_delta := [("USDC", - usdc_units)%Z];
  Toy.elapsed := 2
|}.

(** The volume counter stands 10 USDC below the configured limit of 55000
    USDC.  The chain will confirm two round trips at the rates of [steady]:
    8.5 MON for 17 USDC and back, then 7.75 MON for 15.5 USDC and back. *)
Definition near_the_ceiling : Sys Toy.t :=
  set_total_volume_usdc 54990
    (Toy.start
       (with_script steady
          [ sale "0xa1" (85 * 10 ^ 17) (17 * Toy.one_usdc);
            buy_back "0xa2" (17 * Toy.one_usdc) (84575 * 10 ^ 14);
            sale "0xb1" (775 * 10 ^ 16) (155 * 10 ^ 5);
            buy_back "0xb2" (155 * 10 ^ 5) (771125 * 10 ^ 13) ])).

End Examples.

(** ** What a computation leaves alone *)

Section Books.
Context {W : Type}.

(** The fields of [ArbitrageBot] agree in two states. *)
Definition same_books (s s' : Sys W) : Prop :=
  trade_history s' = trade_history s
  /\ stats s' = stats s
  /\ total_volume_usdc s' = total_volume_usdc s
  /\ last_trade_time s' = last_trade_time s
  /\ trade_history_file s' = trade_history_file s.

(** A computation that changes no field of [ArbitrageBot], whether it
    returns or raises. *)
Definition keeps_books {A : Type} (m : M (Sys W) A) : Prop :=
  forall s, same_books s (snd (m s)).






End Books.

(** ** The cases of an execution *)

Section ExecutionCases.
Context {W : Type} {E : Env W}.
Variable cfg : Config.t.

(** What the settlement computes between the second leg and the record, in
    the order of lines 533-547: the division by the trade amount, the read
    of the gas price and its conversions to gwei and to MON.  [Raise] is the
    exception the settlement ends with, [Ok] the estimated gas cost. *)
Definition settlement_reads (is_volume_boosting : bool) (amount_in : Q)
    (s : Sys W) : res Q :=
  if Qeq_bool amount_in 0 then Raise "float division by zero"
  else
    let gas_limit :=
      if is_volume_boosting
      then Config.vb_gas_limit (Config.VOLUME_BOOSTING cfg)
      else Config.gas_limit (Config.ARBITRAGE_CONFIG cfg) in
    current_gas_price <~ gas_price (world s) ;;
    _ <~ from_wei current_gas_price 9 ;;
    from_wei (gas_limit * current_gas_price * 2) 18.

End ExecutionCases.
(** ** price_monitor.py: the other evaluators *)

Module PriceMonitorMore.
Section PriceMonitorMore.
Context {W : Type} {E : Env W}.
Variable cfg : Config.t.

Let arb := Config.ARBITRAGE_CONFIG cfg.

(** [find_arbitrage_opportunities]: every configured pair and its reverse
    is checked, the opportunities are put together in that order and sorted
    by decreasing expected profit.  Nothing in its [try] raises. *)
Definition find_arbitrage_opportunities (w : W) : list Opportunity :=
  let results :=
    flat_map
      (fun token_pair : Token * Token =>
         let token_in := fst token_pair in
         let token_out := snd token_pair in
         [ PriceMonitor.check_pair_price_difference cfg w token_in token_out;
           PriceMonitor.check_pair_price_difference cfg w token_out token_in ])
      (Config.TOKEN_PAIRS cfg) in
  let all_opportunities := List.concat results in
  sort_desc op_expected_profit all_opportunities.

(** The dictionary [find_triangular_arbitrage] returns. *)
Record Triangular : Type := {
  tri_dex : Dex;
  tri_path : string;
  tri_triangular_ratio : Q;
  tri_profit_percent : Q;
  tri_profit_amount : Q;
  tri_max_trade_amount : Q
}.

(** [find_triangular_arbitrage]: three swaps on one venue, each quoted for
    the amount the one before is priced to give.  [None] is the [None] of
    the source; nothing in its [try] raises. *)
Definition find_triangular_arbitrage (w : W) (dex_name : Dex)
    (tokens : list Token) : option Triangular :=
  match tokens with
  | [token0; token1; token2] =>
      let max_amount := Config.max_trade_amount arb in
      let token0_decimals := PriceMonitor.decimals_of cfg token0 in
      let amount_in_wei := int_of (max_amount * pow10 token0_decimals) in
      let price_a_b :=
        price (PriceMonitor.get_token_price cfg w dex_name token0 token1
                 (Some amount_in_wei)) in
      if gt price_a_b 0 then
        let token1_decimals := PriceMonitor.decimals_of cfg token1 in
        let b_amount_wei :=
          int_of (max_amount * price_a_b * pow10 token1_decimals) in
        let price_b_c :=
          price (PriceMonitor.get_token_price cfg w dex_name token1 token2
                   (Some b_amount_wei)) in
        if gt price_b_c 0 then
          let token2_decimals := PriceMonitor.decimals_of cfg token2 in
          let c_amount_wei :=
            int_of (inject_Z b_amount_wei * price_b_c
                    * pow10 token2_decimals) in
          let price_c_a :=
            price (PriceMonitor.get_token_price cfg w dex_name token2 token0
                     (Some c_amount_wei)) in
          if le price_a_b 0 || le price_b_c 0 || le price_c_a 0 then None
          else
            let triangular_ratio := (price_a_b * price_b_c * price_c_a)%Q in
            let profit_percent := ((triangular_ratio - 1) * 100)%Q in
            if gt profit_percent (Config.price_diff_threshold arb) then
              let max_trade_amount := Config.max_trade_amount arb in
              let expected_final := (max_trade_amount * triangular_ratio)%Q in
              let profit_amount := (expected_final - max_trade_amount)%Q in
              let path_str :=
                (String.concat "->" tokens ++ "->" ++ token0)%string in
              Some {| tri_dex := dex_name;
                      tri_path := path_str;
                      tri_triangular_ratio := triangular_ratio;
                      tri_profit_percent := profit_percent;
                      tri_profit_amount := profit_amount;
                      tri_max_trade_amount := max_trade_amount |}
            else None
        else None
      else None
  | _ => None
  end.

End PriceMonitorMore.

(** [get_price_from_cache]: the price stored for the pair on the venue; or
    the reciprocal of the price stored for the reverse pair, when that one
    is above zero; or 0. *)
Definition get_price_from_cache (prices : PriceMap) (token_in token_out : Token)
    (dex_name : Dex) : Q :=
  let lookup (a b : Token) : option Q :=
    match dict_get pair_eqb prices (a, b) with
    | Some pair_prices => dict_get String.eqb pair_prices dex_name
    | None => None
    end in
  match lookup token_in token_out with
  | Some direct => direct
  | None =>
      match lookup token_out token_in with
      | Some reverse_price =>
          if gt reverse_price 0 then (1 / reverse_price)%Q else 0%Q
      | None => 0%Q
      end
  end.

End PriceMonitorMore.

(** ** arbitrage_bot.py: loading the trade history *)

Module ArbitrageBotMore.
Section ArbitrageBotMore.
Context {W : Type}.

(** A number read from a record, as [+=] needs it; [None] and a string
    raise [TypeError]. *)
Definition num_of (v : val) : res Q :=
  match v with
  | VInt z => Ok (inject_Z z)
  | VFloat q => Ok q
  | VBool b => Ok (if b then 1%Q else 0%Q)
  | VNone => Raise "unsupported operand type(s) for +=: 'int' and 'NoneType'"
  | VStr _ => Raise "unsupported operand type(s) for +=: 'int' and 'str'"
  end.

(** [trade.get("status") == "success"] *)
Definition is_success (trade : record) : bool :=
  match dict_get String.eqb trade "status" with
  | Some (VStr status) => String.eqb status "success"
  | _ => false
  end.

(** [trade.get("profit", 0)] *)
Definition profit_of (trade : record) : val :=
  match dict_get String.eqb trade "profit" with
  | Some v => v
  | None => VInt 0
  end.

(** Lines 101-106: one trade of the loaded history is counted. *)
Definition count_trade (trade : record) : M (Sys W) unit :=
  modify (fun s =>
    let st := stats s in
    set_stats {| total_trades := total_trades st + 1;
                 successful_trades := successful_trades st;
                 failed_trades := failed_trades st;
                 total_profit := total_profit st;
                 average_profit := average_profit st |} s) ;;
  if is_success trade then
    modify (fun s =>
      let st := stats s in
      set_stats {| total_trades := total_trades st;
                   successful_trades := successful_trades st + 1;
                   failed_trades := failed_trades st;
                   total_profit := total_profit st;
                   average_profit := average_profit st |} s) ;;
    profit <- of_res (num_of (profit_of trade)) ;;
    modify (fun s =>
      let st := stats s in
      set_stats {| total_trades := total_trades st;
                   successful_trades := successful_trades st;
                   failed_trades := failed_trades st;
                   total_profit := total_profit st + profit;
                   average_profit := average_profit st |} s)
  else
    modify (fun s =>
      let st := stats s in
      set_stats {| total_trades := total_trades st;
                   successful_trades := successful_trades st;
                   failed_trades := failed_trades st + 1;
                   total_profit := total_profit st;
                   average_profit := average_profit st |} s).

(** [_load_trade_history].  [file] is [None] when
    [data/trade_history.json] does not exist, a [Raise] when it cannot be
    read as JSON, and otherwise the list of records it holds, which is what
    [save_trade_history] writes.  Every exception is logged and dropped. *)
Definition _load_trade_history (file : option (res (list record)))
  : M (Sys W) unit :=
  try_except
    (match file with
     | None => ret tt
     | Some content =>
         trades <- of_res content ;;
         modify (set_trade_history trades) ;;
         for_each trades count_trade
     end)
    (fun _ => ret tt).

End ArbitrageBotMore.
End ArbitrageBotMore.

(** ** What a computation does to the state *)

Section Steps.
Context {W : Type}.

(** [R] relates the state before a computation to the state after it,
    whether the computation returns or raises. *)
Definition respects (R : Sys W -> Sys W -> Prop) {A : Type}
    (m : M (Sys W) A) : Prop :=
  forall s, R s (snd (m s)).

(** The volume counter is as it was. *)
Definition same_volume (s s' : Sys W) : Prop :=
  total_volume_usdc s' = total_volume_usdc s.

(** The profits of the successful trades of a history, added up in its
    order. *)
Definition profit_sum (history : list record) : Q :=
  fold_left
    (fun acc trade =>
       if ArbitrageBotMore.is_success trade then
         match ArbitrageBotMore.num_of (ArbitrageBotMore.profit_of trade) with
         | Ok profit => (acc + profit)%Q
         | Raise _ => acc
         end
       else acc)
    history 0%Q.

(** The statistics are those of the history: one trade counted for each
    record, a success for each record of status [success] and a failure for
    each other record, and the total profit that of the successes. *)
Definition counted (s : Sys W) : Prop :=
  total_trades (stats s) = Z.of_nat (List.length (trade_history s))
  /\ successful_trades (stats s)
     = Z.of_nat (List.length (filter ArbitrageBotMore.is_success
                                (trade_history s)))
  /\ failed_trades (stats s)
     = Z.of_nat (List.length
                   (filter (fun trade => negb (ArbitrageBotMore.is_success trade))
                      (trade_history s)))
  /\ total_profit (stats s) = profit_sum (trade_history s).

(** Every successful trade of the history has a number for its profit. *)
Definition readable (history : list record) : Prop :=
  Forall
    (fun trade =>
       ArbitrageBotMore.is_success trade = true ->
       exists profit,
         ArbitrageBotMore.num_of (ArbitrageBotMore.profit_of trade) = Ok profit)
    history.

Definition keeps_counted (s s' : Sys W) : Prop :=
  counted s /\ readable (trade_history s) ->
  counted s' /\ readable (trade_history s').

(** The history and the statistics [__init__] starts from. *)
Definition no_trades (s : Sys W) : Prop :=
  trade_history s = []
  /\ total_trades (stats s) = 0%Z
  /\ successful_trades (stats s) = 0%Z
  /\ failed_trades (stats s) = 0%Z
  /\ total_profit (stats s) = 0%Q.

End Steps.

(** ** More concrete markets *)

Module MoreExamples.

(** The default configuration in arbitrage mode. *)
Definition arbitrage_mode : Config.t :=
  let v := Config.VOLUME_BOOSTING Config.default in
  {| Config.WRAPPED_MON := Config.WRAPPED_MON Config.default;
     Config.DEX_ROUTERS := Config.DEX_ROUTERS Config.default;
     Config.DEX_TYPES := Config.DEX_TYPES Config.default;
     Config.TOKENS := Config.TOKENS Config.default;
     Config.TOKEN_PAIRS := Config.TOKEN_PAIRS Config.default;
     Config.ARBITRAGE_CONFIG := Config.ARBITRAGE_CONFIG Config.default;
     Config.VOLUME_BOOSTING :=
       {| Config.enabled := false;
          Config.target_dex := Config.target_dex v;
          Config.loss_tolerance := Config.loss_tolerance v;
          Config.vb_min_trade_amount := Config.vb_min_trade_amount v;
          Config.vb_max_trade_amount := Config.vb_max_trade_amount v;
          Config.vb_trade_interval := Config.vb_trade_interval v;
          Config.vb_gas_limit := Config.vb_gas_limit v;
          Config.vb_gas_price_multiplier := Config.vb_gas_price_multiplier v;
          Config.include_gas_in_calculation :=
            Config.include_gas_in_calculation v;
          Config.volume_limit := Config.volume_limit v |} |}.


(** The default configuration with a third token. *)
Definition usdt : Addr := "0x88b8e2161dedc77ef4ab7585569d2415a1c1055d".

Definition three_tokens : Config.t :=
  {| Config.WRAPPED_MON := Config.WRAPPED_MON Config.default;
     Config.DEX_ROUTERS := Config.DEX_ROUTERS Config.default;
     Config.DEX_TYPES := Config.DEX_TYPES Config.default;
     Config.TOKENS :=
       [ ("MON", None);
         ("USDC", Some Toy.usdc);
         ("USDT", Some usdt) ];
     Config.TOKEN_PAIRS := Config.TOKEN_PAIRS Config.default;
     Config.ARBITRAGE_CONFIG := Config.ARBITRAGE_CONFIG Config.default;
     Config.VOLUME_BOOSTING := Config.VOLUME_BOOSTING Config.default |}.

(** On [bean] a MON sells for 2 USDC, a USDC for 1 USDT and a USDT for 0.52
    MON: the triangle returns 1.04 MON for 1 MON. *)
Definition triangle : Toy.t :=
  Examples.with_rates Examples.market
    [ (("bean", Toy.wmon), Toy.mon_to_usdc 2);
      (("bean", Toy.usdc), 1%Q);
      (("bean", usdt), Toy.usdc_to_mon (52 # 100)) ].


(** A history file of two records: a success with a profit of 0.5 and a
    failure. *)
Definition saved_history : list record :=
  [ [ ("timestamp", VInt 1000); ("profit", VFloat (1 # 2));
      ("status", VStr "success") ];
    [ ("timestamp", VInt 1010); ("error", VStr "execution reverted");
      ("status", VStr "failed") ] ].

End MoreExamples.

(** ** What a computation hands to the chain *)

Section Submissions.
Context {W : Type}.

(** An unlimited approval of [token] for [spender]. *)
Definition is_approval (token : Token) (spender : Addr) (tx : transaction)
  : Prop :=
  target tx = token
  /\ fn tx = approve spender (2 ^ 256 - 1)%Z
  /\ value tx = None.

(** A swap of [amount_in] of [token_in] on [dex_name]: it carries a minimum
    output, and the amount as its value only when MON is sold. *)
Definition is_swap (dex_name : Dex) (token_in : Token) (amount_in : Z)
    (tx : transaction) : Prop :=
  target tx = dex_name
  /\ (exists minimum, min_output tx = Some minimum)
  /\ (value tx = None \/ value tx = Some amount_in)
  /\ (String.eqb token_in "MON" = false -> value tx = None).

(** What [approve_token] submits: nothing, or one approval. *)
Definition approval_or_nothing (token : Token) (spender : Addr)
    (txs : list transaction) : Prop :=
  txs = [] \/ exists tx, txs = [tx] /\ is_approval token spender tx.

(** What a swap routine submits and returns: it returns, having submitted
    nothing or one swap; success comes with a swap submitted and its
    hash. *)
Definition swap_or_nothing (dex_name : Dex) (token_in : Token) (amount_in : Z)
    (txs : list transaction) (r : res TransactionExecutor.swap_result) : Prop :=
  exists ok tx_hash amount_out,
    r = Ok (ok, tx_hash, amount_out)
    /\ ((txs = [] /\ ok = false /\ tx_hash = None)
        \/ exists tx, txs = [tx] /\ is_swap dex_name token_in amount_in tx)
    /\ (ok = true -> exists h, tx_hash = Some h)
    /\ (ok = false -> (amount_out == 0)%Q).

End Submissions.

(** ** The minimum output a quote gives *)

Section Floors.
Context {W : Type} {E : Env W}.
Variable cfg : Config.t.







End Floors.

(** * Properties *)

(** ** Comparisons *)

Lemma gt_true (a b : Q) : gt a b = true <-> (b < a)%Q.
Proof.
  unfold gt. rewrite negb_true_iff. split; intro H.
  - apply Qnot_le_lt. intro Hle. apply Qle_bool_iff in Hle. congruence.
  - destruct (Qle_bool a b) eqn:Hb; [|reflexivity].
    apply Qle_bool_iff in Hb. exfalso. exact (Qlt_not_le _ _ H Hb).
Qed.

Lemma gt_false (a b : Q) : gt a b = false <-> (a <= b)%Q.
Proof.
  unfold gt. rewrite negb_false_iff. apply Qle_bool_iff.
Qed.

Lemma ge_true (a b : Q) : ge a b = true <-> (b <= a)%Q.
Proof. unfold ge. apply Qle_bool_iff. Qed.

Lemma lt_true (a b : Q) : lt a b = true <-> (a < b)%Q.
Proof. unfold lt. apply (gt_true b a). Qed.

Lemma lt_false (a b : Q) : lt a b = false <-> (b <= a)%Q.
Proof. unfold lt. apply (gt_false b a). Qed.

Lemma le_true (a b : Q) : le a b = true <-> (a <= b)%Q.
Proof. unfold le. apply Qle_bool_iff. Qed.

Lemma div_Ok (a b q : Q) : div a b = Ok q -> ~ (b == 0)%Q /\ q = (a / b)%Q.
Proof.
  unfold div. destruct (Qeq_bool b 0) eqn:Hb; [discriminate|].
  intro H. injection H as <-. split; [|reflexivity].
  intro Hz. apply Qeq_bool_iff in Hz. congruence.
Qed.

Lemma div_nonzero (a b : Q) : ~ (b == 0)%Q -> div a b = Ok (a / b)%Q.
Proof.
  intro H. unfold div. destruct (Qeq_bool b 0) eqn:Hb; [|reflexivity].
  apply Qeq_bool_iff in Hb. contradiction.
Qed.

Lemma div_zero (a b : Q) : (b == 0)%Q -> exists e, div a b = Raise e.
Proof.
  intro H. unfold div. apply Qeq_bool_iff in H. rewrite H. eauto.
Qed.

(** ** Binary floating point *)

Section Float.
Local Open Scope Q_scope.

Lemma round_half_even_between (x : Q) :
  (Qfloor x <= round_half_even x <= Qfloor x + 1)%Z.
Proof.
  unfold round_half_even.
  destruct (x - inject_Z (Qfloor x) ?= 1 # 2)%Q; [|lia|lia].
  destruct (Z.even (Qfloor x)); lia.
Qed.

Lemma round_half_even_mono (x y : Q) :
  (x <= y)%Q -> (round_half_even x <= round_half_even y)%Z.
Proof.
  intro Hxy. pose proof (Qfloor_resp_le _ _ Hxy) as Hfl.
  destruct (Z.eq_dec (Qfloor x) (Qfloor y)) as [Heq|Hne].
  - unfold round_half_even. rewrite <- Heq.
    assert (Hfr : (x - inject_Z (Qfloor x) <= y - inject_Z (Qfloor x))%Q).
    { apply Qplus_le_compat; [exact Hxy | apply Qle_refl]. }
    destruct (x - inject_Z (Qfloor x) ?= 1 # 2)%Q eqn:Cx;
      destruct (y - inject_Z (Qfloor x) ?= 1 # 2)%Q eqn:Cy;
      try (destruct (Z.even (Qfloor x)); lia); try lia; exfalso.
    + apply Qeq_alt in Cx. apply Qlt_alt in Cy. rewrite Cx in Hfr.
      apply (Qlt_irrefl (1 # 2)). eapply Qle_lt_trans; eassumption.
    + apply Qgt_alt in Cx. apply Qeq_alt in Cy. rewrite Cy in Hfr.
      apply (Qlt_irrefl (1 # 2)). eapply Qlt_le_trans; eassumption.
    + apply Qgt_alt in Cx. apply Qlt_alt in Cy.
      apply (Qlt_irrefl (1 # 2)).
      eapply Qlt_trans; [exact Cx|]. eapply Qle_lt_trans; eassumption.
  - pose proof (round_half_even_between x). pose proof (round_half_even_between y).
    lia.
Qed.


Lemma pow2_pos (e : Z) : 0 < F64.pow2 e.
Proof. unfold F64.pow2. apply Qpower_0_lt. reflexivity. Qed.

Lemma pow2_plus (a b : Z) : F64.pow2 (a + b) == F64.pow2 a * F64.pow2 b.
Proof. unfold F64.pow2. apply Qpower_plus. discriminate. Qed.


Lemma pow2_minus (a b : Z) : F64.pow2 (a - b) == F64.pow2 a / F64.pow2 b.
Proof.
  unfold Z.sub. rewrite pow2_plus. unfold F64.pow2. rewrite Qpower_opp.
  reflexivity.
Qed.

Lemma pow2_nat (n : Z) : (0 <= n)%Z -> F64.pow2 n == inject_Z (2 ^ n).
Proof.
  intro H. unfold F64.pow2. rewrite Zpower_Qpower by exact H. reflexivity.
Qed.

Lemma pow2_le (a b : Z) : (a <= b)%Z -> F64.pow2 a <= F64.pow2 b.
Proof.
  intro H. replace b with (a + (b - a))%Z by lia. rewrite pow2_plus.
  rewrite <- (Qmult_1_r (F64.pow2 a)) at 1.
  apply Qmult_le_l; [apply pow2_pos|].
  rewrite pow2_nat by lia. change 1 with (inject_Z 1).
  rewrite <- Zle_Qle. pose proof (Z.pow_pos_nonneg 2 (b - a)). lia.
Qed.

Lemma Qdiv_lt_cross (a b c d : Q) :
  0 < b -> 0 < d -> a * d < c * b -> a / b < c / d.
Proof.
  intros Hb Hd H. apply Qlt_shift_div_r; [exact Hb|].
  assert (E : c / d * b == c * b / d).
  { field. intro Hz. rewrite Hz in Hd. exact (Qlt_irrefl _ Hd). }
  rewrite E. apply Qlt_shift_div_l; assumption.
Qed.

Lemma Qdiv_le_cross (a b c d : Q) :
  0 < b -> 0 < d -> a * d <= c * b -> a / b <= c / d.
Proof.
  intros Hb Hd H. apply Qle_shift_div_r; [exact Hb|].
  assert (E : c / d * b == c * b / d).
  { field. intro Hz. rewrite Hz in Hd. exact (Qlt_irrefl _ Hd). }
  rewrite E. apply Qle_shift_div_l; assumption.
Qed.

(** The binary logarithm of a positive rational. *)
Lemma ilog2_spec (x : Q) :
  0 < x -> F64.pow2 (F64.ilog2 x) <= x /\ x < F64.pow2 (F64.ilog2 x + 1).
Proof.
  intro Hx. destruct x as [n d]. unfold F64.ilog2. cbn [Qnum Qden].
  assert (Hn : (0 < n)%Z) by (unfold Qlt in Hx; simpl in Hx; lia).
  pose proof (Z.log2_spec n Hn) as [Hn1 Hn2].
  pose proof (Z.log2_spec (Zpos d) (Pos2Z.is_pos d)) as [Hd1 Hd2].
  pose proof (Z.log2_nonneg n) as Hkn.
  pose proof (Z.log2_nonneg (Zpos d)) as Hkd.
  set (kn := Z.log2 n) in *. set (kd := Z.log2 (Zpos d)) in *.
  assert (Hq : n # d == inject_Z n / inject_Z (Zpos d)) by apply Qmake_Qdiv.
  assert (Hdpos : 0 < inject_Z (Zpos d)).
  { change 0 with (inject_Z 0). rewrite <- Zlt_Qlt. lia. }
  assert (Hnpos : 0 < inject_Z n).
  { change 0 with (inject_Z 0). rewrite <- Zlt_Qlt. lia. }
  assert (Hlow : F64.pow2 (kn - kd - 1) < n # d).
  { rewrite Hq. replace (kn - kd - 1)%Z with (kn - (kd + 1))%Z by lia.
    rewrite pow2_minus.
    apply Qdiv_lt_cross; [apply pow2_pos | exact Hdpos |].
    rewrite !pow2_nat by lia. rewrite <- !inject_Z_mult, <- Zlt_Qlt.
    replace (Z.succ kd) with (kd + 1)%Z in Hd2 by lia. nia. }
  assert (Hhigh : n # d < F64.pow2 (kn - kd + 1)).
  { rewrite Hq. replace (kn - kd + 1)%Z with (kn + 1 - kd)%Z by lia.
    rewrite pow2_minus.
    apply Qdiv_lt_cross; [exact Hdpos | apply pow2_pos |].
    rewrite !pow2_nat by lia. rewrite <- !inject_Z_mult, <- Zlt_Qlt.
    replace (Z.succ kn) with (kn + 1)%Z in Hn2 by lia. nia. }
  destruct (Qle_bool (F64.pow2 (kn - kd)) (n # d)) eqn:Hc.
  - apply Qle_bool_iff in Hc. split; [exact Hc | exact Hhigh].
  - split; [apply Qlt_le_weak; exact Hlow|].
    replace (kn - kd - 1 + 1)%Z with (kn - kd)%Z by lia.
    apply Qnot_le_lt. intro H. apply Qle_bool_iff in H. congruence.
Qed.

(** The significand of a positive number has 53 bits. *)
Lemma significand_bounds (x : Q) :
  0 < x ->
  let e := (F64.ilog2 x - 52)%Z in
  (2 ^ 52 <= round_half_even (x / F64.pow2 e) <= 2 ^ 53)%Z.
Proof.
  intros Hx e. destruct (ilog2_spec Hx) as [Hlo Hhi].
  assert (H1 : inject_Z (2 ^ 52) <= x / F64.pow2 e).
  { rewrite <- pow2_nat by lia. apply Qle_shift_div_l; [apply pow2_pos|].
    rewrite <- pow2_plus. subst e.
    replace (52 + (F64.ilog2 x - 52))%Z with (F64.ilog2 x) by lia. exact Hlo. }
  assert (H2 : x / F64.pow2 e <= inject_Z (2 ^ 53)).
  { rewrite <- pow2_nat by lia. apply Qle_shift_div_r; [apply pow2_pos|].
    rewrite <- pow2_plus. subst e.
    replace (53 + (F64.ilog2 x - 52))%Z with (F64.ilog2 x + 1)%Z by lia.
    apply Qlt_le_weak. exact Hhi. }
  apply round_half_even_mono in H1. apply round_half_even_mono in H2.
  assert (Hz : forall z, round_half_even (inject_Z z) = z).
  { intro z. unfold round_half_even. rewrite Qfloor_Z.
    assert (E : (inject_Z z - inject_Z z ?= 1 # 2) = Lt).
    { apply Qlt_alt. setoid_replace (inject_Z z - inject_Z z) with 0 by ring.
      reflexivity. }
    rewrite E. reflexivity. }
  rewrite Hz in H1, H2. lia.
Qed.

(** Rounding keeps the sign. *)
Lemma fl_pos (x : Q) : 0 < x -> 0 < F64.fl x.
Proof.
  intro Hx. unfold F64.fl.
  assert (Hne : Qeq_bool x 0 = false).
  { destruct (Qeq_bool x 0) eqn:E; [|reflexivity].
    apply Qeq_bool_iff in E. rewrite E in Hx. discriminate Hx. }
  assert (Hle : Qle_bool 0 x = true).
  { apply Qle_bool_iff. apply Qlt_le_weak. exact Hx. }
  rewrite Hne, Hle. cbv zeta. rewrite Qred_correct.
  assert (Ha : Qabs x == x) by (apply Qabs_pos, Qlt_le_weak; exact Hx).
  assert (Hx' : 0 < Qabs x) by (rewrite Ha; exact Hx).
  pose proof (significand_bounds Hx') as Hm. cbv zeta in Hm.
  apply Qmult_lt_0_compat; [|apply pow2_pos].
  change 0 with (inject_Z 0). rewrite <- Zlt_Qlt.
  pose proof (Z.pow_pos_nonneg 2 52). lia.
Qed.

Lemma fl_opp (x : Q) : F64.fl (- x) == - F64.fl x.
Proof.
  unfold F64.fl.
  destruct (Qeq_bool x 0) eqn:E0.
  - apply Qeq_bool_iff in E0.
    assert (E1 : Qeq_bool (- x) 0 = true).
    { apply Qeq_bool_iff. rewrite E0. reflexivity. }
    rewrite E1. reflexivity.
  - assert (E1 : Qeq_bool (- x) 0 = false).
    { destruct (Qeq_bool (- x) 0) eqn:E; [|reflexivity].
      apply Qeq_bool_iff in E. exfalso.
      assert (Hx : x == 0).
      { rewrite <- (Qopp_involutive x). rewrite E. reflexivity. }
      apply Qeq_bool_iff in Hx. congruence. }
    rewrite E1. cbv zeta.
    assert (Habs : Qabs (- x) = Qabs x).
    { destruct x as [n d]. unfold Qabs, Qopp. cbn. rewrite Z.abs_opp.
      reflexivity. }
    rewrite Habs.
    destruct (Qle_bool 0 x) eqn:Hx; destruct (Qle_bool 0 (- x)) eqn:Hnx.
    + exfalso. apply Qle_bool_iff in Hx, Hnx.
      assert (Hx0 : x == 0).
      { apply Qle_antisym; [|exact Hx].
        rewrite <- (Qopp_involutive x). change 0 with (- 0).
        apply Qopp_le_compat. exact Hnx. }
      apply Qeq_bool_iff in Hx0. congruence.
    + reflexivity.
    + rewrite Qopp_involutive. reflexivity.
    + exfalso.
      assert (H1 : ~ 0 <= x) by (intro H; apply Qle_bool_iff in H; congruence).
      assert (H2 : ~ 0 <= - x) by (intro H; apply Qle_bool_iff in H; congruence).
      apply Qnot_le_lt in H1. apply H2.
      change 0 with (- 0). apply Qopp_le_compat. apply Qlt_le_weak. exact H1.
Qed.

Lemma fl_zero (x : Q) : x == 0 -> F64.fl x = 0.
Proof.
  intro H. unfold F64.fl. apply Qeq_bool_iff in H. rewrite H. reflexivity.
Qed.

Lemma fl_neg (x : Q) : x < 0 -> F64.fl x < 0.
Proof.
  intro Hx.
  assert (H : 0 < - x).
  { change 0 with (- 0). apply Qopp_lt_compat. exact Hx. }
  apply fl_pos in H. rewrite fl_opp in H.
  rewrite <- (Qopp_involutive (F64.fl x)). change 0 with (- 0).
  apply Qopp_lt_compat. exact H.
Qed.

Lemma fl_nonneg (x : Q) : 0 <= x -> 0 <= F64.fl x.
Proof.
  intro Hx. destruct (Qeq_bool x 0) eqn:E.
  - apply Qeq_bool_iff in E. rewrite (fl_zero E). apply Qle_refl.
  - apply Qlt_le_weak, fl_pos. apply Qle_lteq in Hx. destruct Hx as [H|H].
    + exact H.
    + symmetry in H. apply Qeq_bool_iff in H. congruence.
Qed.

Lemma fl_nonpos (x : Q) : x <= 0 -> F64.fl x <= 0.
Proof.
  intro Hx. destruct (Qeq_bool x 0) eqn:E.
  - apply Qeq_bool_iff in E. rewrite (fl_zero E). apply Qle_refl.
  - apply Qlt_le_weak, fl_neg. apply Qle_lteq in Hx. destruct Hx as [H|H].
    + exact H.
    + apply Qeq_bool_iff in H. congruence.
Qed.

(** A number rounds to zero only when it is zero. *)
Lemma fl_eq_zero (x : Q) : F64.fl x == 0 <-> x == 0.
Proof.
  split; intro H.
  - destruct (Q_dec x 0) as [[Hlt|Hgt]|Heq]; [| |exact Heq]; exfalso.
    + apply fl_neg in Hlt. rewrite H in Hlt. exact (Qlt_irrefl _ Hlt).
    + apply fl_pos in Hgt. rewrite H in Hgt. exact (Qlt_irrefl _ Hgt).
  - rewrite (fl_zero H). reflexivity.
Qed.





(** What rounding gives for a positive number. *)
Lemma fl_shape (x : Q) :
  0 < x ->
  F64.fl x
  == inject_Z (round_half_even (x / F64.pow2 (F64.ilog2 x - 52)))
     * F64.pow2 (F64.ilog2 x - 52).
Proof.
  intro Hx. unfold F64.fl.
  assert (Hne : Qeq_bool x 0 = false).
  { destruct (Qeq_bool x 0) eqn:E; [|reflexivity].
    apply Qeq_bool_iff in E. rewrite E in Hx. discriminate Hx. }
  assert (Hle : Qle_bool 0 x = true).
  { apply Qle_bool_iff. apply Qlt_le_weak. exact Hx. }
  rewrite Hne, Hle. cbv zeta. rewrite Qred_correct.
  assert (Ha : Qabs x = x).
  { destruct x as [n d]. unfold Qabs. f_equal.
    unfold Qlt in Hx. simpl in Hx. lia. }
  rewrite Ha. reflexivity.
Qed.




(** Rounding is monotone. *)
Lemma fl_mono_pos (x y : Q) : 0 < x -> x <= y -> F64.fl x <= F64.fl y.
Proof.
  intros Hx Hxy.
  assert (Hy : 0 < y) by (eapply Qlt_le_trans; eassumption).
  rewrite (fl_shape Hx), (fl_shape Hy).
  destruct (ilog2_spec Hx) as [Hxlo Hxhi].
  destruct (ilog2_spec Hy) as [Hylo Hyhi].
  pose proof (significand_bounds Hx) as Hmx. cbv zeta in Hmx.
  pose proof (significand_bounds Hy) as Hmy. cbv zeta in Hmy.
  set (kx := F64.ilog2 x) in *. set (ky := F64.ilog2 y) in *.
  assert (Hk : (kx <= ky)%Z).
  { destruct (Z.le_gt_cases kx ky) as [H|H]; [exact H|]. exfalso.
    assert (Hp : F64.pow2 (ky + 1) <= F64.pow2 kx) by (apply pow2_le; lia).
    apply (Qlt_irrefl x).
    eapply Qle_lt_trans; [exact Hxy|].
    eapply Qlt_le_trans; [exact Hyhi|].
    eapply Qle_trans; [exact Hp | exact Hxlo]. }
  destruct (Z.eq_dec kx ky) as [Heq|Hne].
  - rewrite <- Heq. apply Qmult_le_compat_r; [|apply Qlt_le_weak, pow2_pos].
    rewrite <- Zle_Qle. apply round_half_even_mono.
    apply Qmult_le_compat_r; [exact Hxy|].
    apply Qlt_le_weak, Qinv_lt_0_compat, pow2_pos.
  - apply Qle_trans with (F64.pow2 (kx + 1)).
    + apply Qle_trans with (inject_Z (2 ^ 53) * F64.pow2 (kx - 52)).
      * apply Qmult_le_compat_r; [|apply Qlt_le_weak, pow2_pos].
        rewrite <- Zle_Qle. lia.
      * rewrite <- pow2_nat by lia. rewrite <- pow2_plus.
        replace (53 + (kx - 52))%Z with (kx + 1)%Z by lia. apply Qle_refl.
    + apply Qle_trans with (F64.pow2 ky); [apply pow2_le; lia|].
      apply Qle_trans with (inject_Z (2 ^ 52) * F64.pow2 (ky - 52)).
      * rewrite <- pow2_nat by lia. rewrite <- pow2_plus.
        replace (52 + (ky - 52))%Z with ky by lia. apply Qle_refl.
      * apply Qmult_le_compat_r; [|apply Qlt_le_weak, pow2_pos].
        rewrite <- Zle_Qle. lia.
Qed.

Lemma fl_mono (x y : Q) : x <= y -> F64.fl x <= F64.fl y.
Proof.
  intro Hxy.
  destruct (Qlt_le_dec 0 x) as [Hx|Hx].
  - apply fl_mono_pos; assumption.
  - destruct (Qlt_le_dec y 0) as [Hy|Hy].
    + assert (H : F64.fl (- y) <= F64.fl (- x)).
      { apply fl_mono_pos.
        - change 0 with (- 0). apply Qopp_lt_compat. exact Hy.
        - apply Qopp_le_compat. exact Hxy. }
      rewrite !fl_opp in H. apply Qopp_le_compat in H.
      rewrite !Qopp_involutive in H. exact H.
    + apply Qle_trans with 0; [apply fl_nonpos | apply fl_nonneg]; assumption.
Qed.

Lemma F64_div_Ok (a b q : Q) :
  F64.div a b = Ok q -> ~ b == 0 /\ q = F64.quot a b.
Proof.
  unfold F64.div. destruct (Qeq_bool (F64.fl b) 0) eqn:Hb; [discriminate|].
  intro H. injection H as <-. split; [|reflexivity].
  intro Hz. apply (proj2 (fl_eq_zero b)) in Hz. apply Qeq_bool_iff in Hz.
  congruence.
Qed.

Lemma F64_div_nonzero (a b : Q) : ~ b == 0 -> F64.div a b = Ok (F64.quot a b).
Proof.
  intro H. unfold F64.div.
  destruct (Qeq_bool (F64.fl b) 0) eqn:Hb; [|reflexivity].
  apply Qeq_bool_iff in Hb. apply (proj1 (fl_eq_zero b)) in Hb.
  destruct (H Hb).
Qed.

Lemma F64_div_zero (a b : Q) : b == 0 -> exists e, F64.div a b = Raise e.
Proof.
  intro H. unfold F64.div. apply (proj2 (fl_eq_zero b)) in H.
  apply Qeq_bool_iff in H. rewrite H. eauto.
Qed.

End Float.

(** ** Dictionaries *)

Lemma pair_eqb_eq (a b : string * string) : pair_eqb a b = true <-> a = b.
Proof.
  destruct a as [a1 a2], b as [b1 b2]. unfold pair_eqb. simpl.
  rewrite andb_true_iff, !String.eqb_eq. split.
  - intros [-> ->]. reflexivity.
  - intro H. injection H as -> ->. auto.
Qed.

Section DictFacts.
Variables K V : Type.
Variable eqb : K -> K -> bool.
Hypothesis eqb_eq : forall a b, eqb a b = true <-> a = b.

Lemma eqb_refl (k : K) : eqb k k = true.
Proof. apply eqb_eq. reflexivity. Qed.

Lemma eqb_neq (a b : K) : a <> b -> eqb a b = false.
Proof.
  intro H. destruct (eqb a b) eqn:Hab; [|reflexivity].
  apply eqb_eq in Hab. contradiction.
Qed.

Lemma dict_get_set_same (d : dict K V) (k : K) (v : V) :
  dict_get eqb (dict_set eqb d k v) k = Some v.
Proof.
  induction d as [|[k' v'] d IH]; simpl.
  - rewrite eqb_refl. reflexivity.
  - destruct (eqb k k') eqn:Hk; simpl; rewrite Hk; [reflexivity | exact IH].
Qed.

Lemma dict_get_set_other (d : dict K V) (k k0 : K) (v : V) :
  k0 <> k -> dict_get eqb (dict_set eqb d k v) k0 = dict_get eqb d k0.
Proof.
  intro Hne. induction d as [|[k' v'] d IH]; simpl.
  - rewrite (eqb_neq Hne). reflexivity.
  - destruct (eqb k k') eqn:Hk; simpl.
    + apply eqb_eq in Hk. subst k'. rewrite (eqb_neq Hne). reflexivity.
    + destruct (eqb k0 k'); [reflexivity | exact IH].
Qed.

Lemma dict_set_not_nil (d : dict K V) (k : K) (v : V) : dict_set eqb d k v <> [].
Proof.
  destruct d as [|[k' v'] d]; simpl; [discriminate|].
  destruct (eqb k k'); discriminate.
Qed.

Lemma dict_get_In (d : dict K V) (k : K) (v : V) :
  dict_get eqb d k = Some v -> In (k, v) d.
Proof.
  induction d as [|[k' v'] d IH]; simpl; [discriminate|].
  destruct (eqb k k') eqn:Hk.
  - apply eqb_eq in Hk. subst k'. intro H. injection H as ->. left. reflexivity.
  - intro H. right. exact (IH H).
Qed.

End DictFacts.

(** ** Price aggregation *)

Section Aggregation.
Context {W : Type} {E : Env W}.
Variable cfg : Config.t.
Variable w : W.

Lemma price_of_zero_out (token_in token_out : Token) (amount_in : Z) (p : Q) :
  PriceMonitor.price_of cfg token_in token_out 0 amount_in = Ok p ->
  (p == 0)%Q.
Proof.
  unfold PriceMonitor.price_of. destruct (amount_in =? 0)%Z; [discriminate|].
  intro H. injection H as <-. unfold Qdiv. change (inject_Z 0) with 0%Q. ring.
Qed.

Lemma zero_price_not_positive : ~ (0 < price PriceMonitor.zero_price)%Q.
Proof. unfold price, PriceMonitor.zero_price. simpl. apply Qlt_irrefl. Qed.

Lemma uniswap_v2_price_zero_out (dex_name : Dex) (token_in token_out : Token)
    (a_in a_out : Addr) (amount_in : Z) :
  let r := PriceMonitor._get_uniswap_v2_price cfg w dex_name token_in token_out
             a_in a_out amount_in in
  amount_out r = 0%Z -> ~ (0 < price r)%Q.
Proof.
  unfold PriceMonitor._get_uniswap_v2_price, bind_res.
  destruct (getAmountsOut w dex_name amount_in [a_in; a_out]) as [amounts|e];
    [|intros _; apply zero_price_not_positive].
  destruct (nth_res amounts 1) as [out|e];
    [|intros _; apply zero_price_not_positive].
  destruct (PriceMonitor.price_of cfg token_in token_out out amount_in)
    as [p|e] eqn:Hp; [|intros _; apply zero_price_not_positive].
  unfold amount_out, price. simpl. intros ->.
  apply price_of_zero_out in Hp. rewrite Hp. apply Qlt_irrefl.
Qed.

Lemma algebra_price_zero_out (dex_name : Dex) (token_in token_out : Token)
    (a_in a_out : Addr) (amount_in : Z) :
  let r := PriceMonitor._get_algebra_dex_price cfg w dex_name token_in token_out
             a_in a_out amount_in in
  amount_out r = 0%Z -> ~ (0 < price r)%Q.
Proof.
  unfold PriceMonitor._get_algebra_dex_price, bind_res.
  destruct (PriceMonitor.get_pool_deployer cfg w dex_name) as [pd|];
    [|intros _; apply zero_price_not_positive].
  destruct (negb (truthy pd)); [intros _; apply zero_price_not_positive|].
  match goal with
  | |- context [exactInputSingle_call ?a ?b ?c ?d] =>
      destruct (exactInputSingle_call a b c d) as [out|e]
  end; [|intros _; apply zero_price_not_positive].
  destruct (PriceMonitor.price_of cfg token_in token_out out amount_in)
    as [p|e] eqn:Hp; [|intros _; apply zero_price_not_positive].
  unfold amount_out, price. simpl. intros ->.
  apply price_of_zero_out in Hp. rewrite Hp. apply Qlt_irrefl.
Qed.

Lemma get_token_price_zero_out (dex_name : Dex) (token_in token_out : Token)
    (amount_in : option Z) :
  let r := PriceMonitor.get_token_price cfg w dex_name token_in token_out
             amount_in in
  amount_out r = 0%Z -> ~ (0 < price r)%Q.
Proof.
  unfold PriceMonitor.get_token_price.
  destruct (negb (dict_mem String.eqb (PriceMonitor.routers cfg) dex_name));
    [intros _; apply zero_price_not_positive|].
  match goal with
  | |- context [match ?x with Some _ => _ | None => _ end] => destruct x as [a_in|]
  end; [|intros _; apply zero_price_not_positive].
  match goal with
  | |- context [match ?x with Some _ => _ | None => _ end] => destruct x as [a_out|]
  end; [|intros _; apply zero_price_not_positive].
  destruct (negb (truthy a_in) || negb (truthy a_out));
    [intros _; apply zero_price_not_positive|].
  destruct (to_checksum_address a_in) as [c_in|];
    [|intros _; apply zero_price_not_positive].
  destruct (to_checksum_address a_out) as [c_out|];
    [|intros _; apply zero_price_not_positive].
  destruct (String.eqb (Config.dex_type cfg dex_name) "algebra").
  - apply algebra_price_zero_out.
  - apply uniswap_v2_price_zero_out.
Qed.

(** The fold of [pair_prices_of], from any table built so far. *)
Lemma pair_prices_fold (all rs : list (Dex * (Q * Z * Z))) (acc : dict Dex Q) :
  incl rs all ->
  (forall d p, dict_get String.eqb acc d = Some p ->
               (0 < p)%Q /\ exists r, In (d, r) all /\ price r = p) ->
  forall d p,
    dict_get String.eqb
      (fold_left
         (fun pair_prices (r : Dex * (Q * Z * Z)) =>
            if gt (fst (fst (snd r))) 0
            then dict_set String.eqb pair_prices (fst r) (fst (fst (snd r)))
            else pair_prices) rs acc) d = Some p ->
    (0 < p)%Q /\ exists r, In (d, r) all /\ price r = p.
Proof.
  revert acc. induction rs as [|[dex r] rs IH]; intros acc Hincl Hacc d p; simpl.
  - apply Hacc.
  - apply IH.
    + intros x Hx. apply Hincl. right. exact Hx.
    + intros d' p'. destruct (gt (fst (fst r)) 0) eqn:Hgt; [|apply Hacc].
      destruct (String.eqb d' dex) eqn:Hd.
      * apply String.eqb_eq in Hd. subst d'.
        rewrite (dict_get_set_same String.eqb String.eqb_eq).
        intro H. injection H as <-. split.
        -- apply gt_true. exact Hgt.
        -- exists r. split; [apply Hincl; left; reflexivity | reflexivity].
      * apply String.eqb_neq in Hd.
        rewrite (dict_get_set_other String.eqb String.eqb_eq) by exact Hd.
        apply Hacc.
Qed.

Lemma pair_prices_of_valid (rs : list (Dex * (Q * Z * Z))) (d : Dex) (p : Q) :
  dict_get String.eqb (PriceMonitor.pair_prices_of rs) d = Some p ->
  (0 < p)%Q /\ exists r, In (d, r) rs /\ price r = p.
Proof.
  unfold PriceMonitor.pair_prices_of. apply pair_prices_fold.
  - apply incl_refl.
  - simpl. discriminate.
Qed.

Lemma pair_prices_of_none_valid (rs : list (Dex * (Q * Z * Z))) :
  (forall d r, In (d, r) rs -> ~ (0 < price r)%Q) ->
  PriceMonitor.pair_prices_of rs = [].
Proof.
  intro H. revert H.
  enough (forall acc, (forall d r, In (d, r) rs -> ~ (0 < price r)%Q) ->
            fold_left
              (fun pair_prices (r : Dex * (Q * Z * Z)) =>
                 if gt (fst (fst (snd r))) 0
                 then dict_set String.eqb pair_prices (fst r) (fst (fst (snd r)))
                 else pair_prices) rs acc = acc) as Hgen.
  { intro H. exact (Hgen [] H). }
  induction rs as [|[dex r] rs IH]; intros acc H; simpl; [reflexivity|].
  destruct (gt (fst (fst r)) 0) eqn:Hgt.
  - apply gt_true in Hgt. exfalso. apply (H dex r); [left; reflexivity | exact Hgt].
  - apply IH. intros d r' Hin. apply (H d r'). right. exact Hin.
Qed.

Lemma gather_prices_In (token_in token_out : Token) (d : Dex) (r : Q * Z * Z) :
  In (d, r) (PriceMonitor.gather_prices cfg w token_in token_out) ->
  In d (dict_keys (Config.DEX_ROUTERS cfg))
  /\ r = PriceMonitor.get_token_price cfg w d token_in token_out
           (Some (int_of (PriceMonitor.quote_amount cfg
                          * pow10 (PriceMonitor.decimals_of cfg token_in)))).
Proof.
  unfold PriceMonitor.gather_prices. intro H. apply in_map_iff in H.
  destruct H as [d' [Heq Hin]]. injection Heq as -> <-. split; [exact Hin | reflexivity].
Qed.

(** The fold of [get_all_prices], from any map built so far. *)
Lemma get_all_prices_fold (pairs : list (Token * Token)) (acc : PriceMap) :
  (forall pr pp, dict_get pair_eqb acc pr = Some pp ->
     pp <> [] /\
     pp = PriceMonitor.pair_prices_of
            (PriceMonitor.gather_prices cfg w (fst pr) (snd pr))) ->
  forall pr pp,
    dict_get pair_eqb
      (fold_left
         (fun prices (token_pair : Token * Token) =>
            PriceMonitor.add_pair_prices prices (fst token_pair, snd token_pair)
              (PriceMonitor.pair_prices_of
                 (PriceMonitor.gather_prices cfg w (fst token_pair)
                    (snd token_pair))))
         pairs acc) pr = Some pp ->
    pp <> [] /\
    pp = PriceMonitor.pair_prices_of
           (PriceMonitor.gather_prices cfg w (fst pr) (snd pr)).
Proof.
  revert acc. induction pairs as [|[tin tout] pairs IH]; intros acc Hacc pr pp;
    simpl.
  - apply Hacc.
  - apply IH. intros pr' pp'. unfold PriceMonitor.add_pair_prices.
    destruct (PriceMonitor.pair_prices_of
                (PriceMonitor.gather_prices cfg w tin tout)) as [|x l] eqn:Hpp;
      [apply Hacc|].
    destruct (pair_eqb pr' (tin, tout)) eqn:Hp.
    + apply pair_eqb_eq in Hp. subst pr'.
      rewrite (dict_get_set_same pair_eqb pair_eqb_eq).
      intro H. injection H as <-. simpl. split; [discriminate | congruence].
    + assert (Hne : pr' <> (tin, tout)).
      { intro Heq. apply pair_eqb_eq in Heq. congruence. }
      rewrite (dict_get_set_other pair_eqb pair_eqb_eq) by exact Hne.
      apply Hacc.
Qed.

Lemma get_all_prices_entry (pr : Token * Token) (pp : dict Dex Q) :
  dict_get pair_eqb (PriceMonitor.get_all_prices cfg w) pr = Some pp ->
  pp <> [] /\
  pp = PriceMonitor.pair_prices_of
         (PriceMonitor.gather_prices cfg w (fst pr) (snd pr)).
Proof.
  unfold PriceMonitor.get_all_prices. apply get_all_prices_fold.
  simpl. discriminate.
Qed.

(** C7.  [get_all_prices] keeps a venue for a pair only with a price above
    zero, the one [get_token_price] gave for that venue; a quote with a zero
    output amount, which is also what every failed read gives, is not above
    zero and is dropped; a reverting read gives the triple [(0, 0, 0)]; no
    pair is present with an empty venue map; and a pair for which no
    configured venue gives a valid quote has no entry at all. *)
Theorem C7_invalid_quotes_are_dropped (token_in token_out : Token) :
  let amount_in :=
    int_of (PriceMonitor.quote_amount cfg
            * pow10 (PriceMonitor.decimals_of cfg token_in)) in
  let quote dex_name :=
    PriceMonitor.get_token_price cfg w dex_name token_in token_out
      (Some amount_in) in
  let prices := PriceMonitor.get_all_prices cfg w in
  (forall pair_prices dex_name p,
      dict_get pair_eqb prices (token_in, token_out) = Some pair_prices ->
      dict_get String.eqb pair_prices dex_name = Some p ->
      (0 < p)%Q
      /\ In dex_name (dict_keys (Config.DEX_ROUTERS cfg))
      /\ price (quote dex_name) = p)
  /\ (forall dex_name,
        amount_out (quote dex_name) = 0%Z -> ~ (0 < price (quote dex_name))%Q)
  /\ (forall dex_name a_in a_out amount e,
        getAmountsOut w dex_name amount [a_in; a_out] = Raise e ->
        PriceMonitor._get_uniswap_v2_price cfg w dex_name token_in token_out
          a_in a_out amount = PriceMonitor.zero_price)
  /\ (forall pair_prices dex_name,
        dict_get pair_eqb prices (token_in, token_out) = Some pair_prices ->
        ~ (0 < price (quote dex_name))%Q ->
        dict_get String.eqb pair_prices dex_name = None)
  /\ dict_get pair_eqb prices (token_in, token_out) <> Some []
  /\ ((forall dex_name,
         In dex_name (dict_keys (Config.DEX_ROUTERS cfg)) ->
         ~ (0 < price (quote dex_name))%Q) ->
      dict_get pair_eqb prices (token_in, token_out) = None).
Proof.
  intros amount_in quote prices.
  assert (Hentry : forall pair_prices dex_name p,
      dict_get pair_eqb prices (token_in, token_out) = Some pair_prices ->
      dict_get String.eqb pair_prices dex_name = Some p ->
      (0 < p)%Q
      /\ In dex_name (dict_keys (Config.DEX_ROUTERS cfg))
      /\ price (quote dex_name) = p).
  { intros pp d p Hpp Hd. apply get_all_prices_entry in Hpp.
    destruct Hpp as [_ ->]. apply pair_prices_of_valid in Hd.
    destruct Hd as [Hpos [r [Hin Hr]]]. apply gather_prices_In in Hin.
    destruct Hin as [Hkey ->]. auto. }
  split; [exact Hentry|]. split; [|split; [|split; [|split]]].
  - intro d. apply get_token_price_zero_out.
  - intros d a_in a_out amount e He.
    unfold PriceMonitor._get_uniswap_v2_price, bind_res. rewrite He. reflexivity.
  - intros pp d Hpp Hbad.
    destruct (dict_get String.eqb pp d) as [p|] eqn:Hd; [|reflexivity].
    destruct (Hentry pp d p Hpp Hd) as [Hpos [_ Hq]]. exfalso. apply Hbad.
    rewrite Hq. exact Hpos.
  - intro H. apply get_all_prices_entry in H. destruct H as [H _]. congruence.
  - intro Hnone.
    destruct (dict_get pair_eqb prices (token_in, token_out)) as [pp|] eqn:Hpp;
      [|reflexivity].
    apply get_all_prices_entry in Hpp. destruct Hpp as [Hne Heq]. exfalso.
    apply Hne. rewrite Heq. apply pair_prices_of_none_valid.
    intros d r Hin. apply gather_prices_In in Hin. destruct Hin as [Hkey ->].
    apply Hnone. exact Hkey.
Qed.

End Aggregation.

(** C7 on a market where no venue answers a quote: neither the pair nor its
    reverse is in the price map. *)
Lemma C7_no_quote_no_entry :
  let prices :=
    PriceMonitor.get_all_prices Config.default
      (Examples.with_rates Examples.market []) in
  dict_get pair_eqb prices ("MON", "USDC") = None
  /\ dict_get pair_eqb prices ("USDC", "MON") = None.
Proof.
  cbv zeta. split.
  - apply (@C7_invalid_quotes_are_dropped Toy.t Toy.env Config.default
             (Examples.with_rates Examples.market []) "MON" "USDC").
    intros d Hin H. simpl in Hin.
    repeat (destruct Hin as [<-|Hin]; [vm_compute in H; discriminate H|]).
    exact Hin.
  - apply (@C7_invalid_quotes_are_dropped Toy.t Toy.env Config.default
             (Examples.with_rates Examples.market []) "USDC" "MON").
    intros d Hin H. simpl in Hin.
    repeat (destruct Hin as [<-|Hin]; [vm_compute in H; discriminate H|]).
    exact Hin.
Defined.

(** ** Sorting *)

Section SortFacts.
Variable A : Type.
Variable key : A -> Q.

Lemma insert_desc_perm (x : A) (l : list A) :
  Permutation (insert_desc key x l) (x :: l).
Proof.
  induction l as [|y l IH]; simpl; [reflexivity|].
  destruct (gt (key y) (key x)); [|reflexivity].
  rewrite IH. apply perm_swap.
Qed.

Lemma sort_desc_perm (l : list A) : Permutation (sort_desc key l) l.
Proof.
  induction l as [|x l IH]; simpl; [reflexivity|].
  rewrite insert_desc_perm. constructor. exact IH.
Qed.

Lemma sort_desc_In (x : A) (l : list A) : In x (sort_desc key l) <-> In x l.
Proof.
  split; apply Permutation_in; [|symmetry]; apply sort_desc_perm.
Qed.

Lemma sort_desc_length (l : list A) : List.length (sort_desc key l) = List.length l.
Proof. apply Permutation_length. apply sort_desc_perm. Qed.

Lemma sort_desc_Forall (P : A -> Prop) (l : list A) :
  Forall P l -> Forall P (sort_desc key l).
Proof.
  intro H. apply Forall_forall. intros x Hx.
  apply (proj1 (sort_desc_In x l)) in Hx.
  rewrite Forall_forall in H. exact (H x Hx).
Qed.

End SortFacts.

(** ** The arbitrage evaluator and its threshold *)

Section Threshold.
Context {W : Type} {E : Env W}.
Variable cfg : Config.t.
Variable w : W.

Lemma get_token_price_threshold (t : Q) (dex_name : Dex)
    (token_in token_out : Token) (amount_in : option Z) :
  PriceMonitor.get_token_price (Config.with_min_profit_threshold cfg t) w
    dex_name token_in token_out amount_in
  = PriceMonitor.get_token_price cfg w dex_name token_in token_out amount_in.
Proof. reflexivity. Qed.

Lemma decimals_of_threshold (t : Q) (token : Token) :
  PriceMonitor.decimals_of (Config.with_min_profit_threshold cfg t) token
  = PriceMonitor.decimals_of cfg token.
Proof. reflexivity. Qed.

(** Of two runs of the candidate loop that differ in the threshold only, the
    one with the higher threshold raises exactly when the other does, and
    keeps no candidate the other drops. *)
Lemma build_opportunities_threshold (t_lo t_hi : Q) :
  (t_lo <= t_hi)%Q ->
  forall (token_in token_out : Token) (sell : Dex) (obtained : Q)
         (rs : list (Dex * (Q * Z * Z))) (acc_hi acc_lo : list Opportunity),
    incl acc_hi acc_lo ->
    (List.length acc_hi <= List.length acc_lo)%nat ->
    match PriceMonitor.build_opportunities
            (Config.with_min_profit_threshold cfg t_hi) token_in token_out
            sell obtained rs acc_hi,
          PriceMonitor.build_opportunities
            (Config.with_min_profit_threshold cfg t_lo) token_in token_out
            sell obtained rs acc_lo with
    | Ok hi, Ok lo => incl hi lo /\ (List.length hi <= List.length lo)%nat
    | Raise _, Raise _ => True
    | _, _ => False
    end.
Proof.
  intros Hle token_in token_out sell obtained rs.
  induction rs as [|[buy [[rp rout] rin]] rs IH]; intros acc_hi acc_lo Hincl Hlen.
  - simpl. auto.
  - cbn [PriceMonitor.build_opportunities].
    destruct (gt rp 0 && (0 <? rout)%Z); [|apply IH; assumption].
    cbn [Config.ARBITRAGE_CONFIG Config.with_min_profit_threshold
         Config.max_trade_amount Config.min_profit_threshold].
    rewrite !decimals_of_threshold.
    set (max_amount := Config.max_trade_amount (Config.ARBITRAGE_CONFIG cfg)).
    set (final :=
           F64.fl (inject_Z rout
                   / pow10 (PriceMonitor.decimals_of cfg token_in))).
    unfold bind_res.
    destruct (F64.div (F64.sub final max_amount) max_amount) as [ratio|e];
      [|exact I].
    destruct (gt (F64.sub final max_amount) (F64.fl t_hi)) eqn:Hhi.
    + assert (Hlo : gt (F64.sub final max_amount) (F64.fl t_lo) = true).
      { apply gt_true. apply gt_true in Hhi.
        eapply Qle_lt_trans; [apply fl_mono; exact Hle | exact Hhi]. }
      rewrite Hlo. apply IH.
      * apply incl_app; [apply incl_appl; exact Hincl | apply incl_appr, incl_refl].
      * rewrite !length_app. simpl. lia.
    + destruct (gt (F64.sub final max_amount) (F64.fl t_lo)); apply IH.
      * apply incl_appl. exact Hincl.
      * rewrite length_app. simpl. lia.
      * exact Hincl.
      * exact Hlen.
Qed.

Lemma check_body_threshold (t_lo t_hi : Q) (token_in token_out : Token) :
  (t_lo <= t_hi)%Q ->
  match PriceMonitor.check_pair_price_difference_body
          (Config.with_min_profit_threshold cfg t_hi) w token_in token_out,
        PriceMonitor.check_pair_price_difference_body
          (Config.with_min_profit_threshold cfg t_lo) w token_in token_out with
  | Ok hi, Ok lo => incl hi lo /\ (List.length hi <= List.length lo)%nat
  | Raise _, Raise _ => True
  | _, _ => False
  end.
Proof.
  intro Hle. unfold PriceMonitor.check_pair_price_difference_body.
  cbn [Config.ARBITRAGE_CONFIG Config.with_min_profit_threshold
       Config.max_trade_amount Config.DEX_ROUTERS].
  rewrite !decimals_of_threshold.
  change (@PriceMonitor.get_token_price W E
            (Config.with_min_profit_threshold cfg t_hi))
    with (@PriceMonitor.get_token_price W E cfg).
  change (@PriceMonitor.get_token_price W E
            (Config.with_min_profit_threshold cfg t_lo))
    with (@PriceMonitor.get_token_price W E cfg).
  match goal with
  | |- context [PriceMonitor.dex_prices_of ?l] =>
      destruct (PriceMonitor.dex_prices_of l) as [|dp dps] eqn:Hdp
  end.
  - simpl. split; [apply incl_refl | lia].
  - destruct (PriceMonitor.best_sell (dp :: dps)) as [[bp [bd|]] bo];
      [|simpl; split; [apply incl_refl | lia]].
    destruct (le bp 0 || (bo <=? 0)%Z); [simpl; split; [apply incl_refl | lia]|].
    unfold bind_res.
    match goal with
    | |- context [PriceMonitor.build_opportunities _ ?a ?b ?c ?d ?rs []] =>
        pose proof (@build_opportunities_threshold t_lo t_hi Hle a b c d rs [] []
                      (incl_refl _) (Nat.le_refl _)) as H
    end.
    cbv beta in H.
    match type of H with
    | match ?x with _ => _ end =>
        match goal with |- match match ?y with _ => _ end with _ => _ end =>
          change y with x end;
        destruct x as [hi|e1]
    end;
    match type of H with
    | match ?x with _ => _ end =>
        match goal with |- context [match ?y with Ok _ => _ | Raise _ => _ end] =>
          change y with x end;
        destruct x as [lo|e2]
    end; try contradiction; try exact I.
    destruct H as [Hi Hl]. split.
    + intros x Hx. apply sort_desc_In.
      apply (proj1 (sort_desc_In _ x hi)) in Hx. auto.
    + rewrite !sort_desc_length. exact Hl.
Qed.

(** C9.  For fixed quotes, the arbitrage evaluator run with a higher
    [min_profit_threshold] emits a sublist, as a set, of what it emits with
    a lower one, and no more opportunities. *)
Theorem C9_raising_the_threshold_admits_no_more (t_lo t_hi : Q)
    (token_in token_out : Token) :
  (t_lo <= t_hi)%Q ->
  let lo := PriceMonitor.check_pair_price_difference
              (Config.with_min_profit_threshold cfg t_lo) w token_in token_out in
  let hi := PriceMonitor.check_pair_price_difference
              (Config.with_min_profit_threshold cfg t_hi) w token_in token_out in
  incl hi lo /\ (List.length hi <= List.length lo)%nat.
Proof.
  intros Hle lo hi. subst lo hi. unfold PriceMonitor.check_pair_price_difference.
  pose proof (check_body_threshold token_in token_out Hle) as H.
  destruct (PriceMonitor.check_pair_price_difference_body
              (Config.with_min_profit_threshold cfg t_hi) w token_in token_out)
    as [hi|e1];
  destruct (PriceMonitor.check_pair_price_difference_body
              (Config.with_min_profit_threshold cfg t_lo) w token_in token_out)
    as [lo|e2]; try contradiction.
  - exact H.
  - split; [apply incl_refl | simpl; lia].
Qed.

End Threshold.

(** C9 on scenario A, where the one round trip that gains sells on the
    venue quoting 1.02 and buys back on the venue quoting 1.01, for a profit
    of 0.0302 MON: a threshold of 0.01 admits it, a threshold of 0.05 admits
    nothing. *)
Lemma C9_scenario_a :
  let lo := PriceMonitor.check_pair_price_difference
              (Config.with_min_profit_threshold Config.default (1 # 100))
              Examples.scenario_a "MON" "USDC" in
  let hi := PriceMonitor.check_pair_price_difference
              (Config.with_min_profit_threshold Config.default (5 # 100))
              Examples.scenario_a "MON" "USDC" in
  (incl hi lo /\ (List.length hi <= List.length lo)%nat)
  /\ map op_sell_dex lo = ["bean"] /\ map op_buy_dex lo = ["monda"]
  /\ hi = [].
Proof.
  cbv zeta. split.
  - apply (@C9_raising_the_threshold_admits_no_more Toy.t Toy.env
             Config.default Examples.scenario_a (1 # 100) (5 # 100)
             "MON" "USDC").
    unfold Qle. simpl. lia.
  - vm_compute. repeat split; reflexivity.
Defined.

(** ** Evaluation as a function of quotes and draws *)

Section Determinism.
Context {W : Type} {E : Env W}.
Variable cfg : Config.t.

Lemma draws_prefix (n : nat) (w1 w2 : W) :
  draws (S n) w1 = draws (S n) w2 -> draws n w1 = draws n w2.
Proof.
  revert w1 w2. induction n as [|n IH]; intros w1 w2; [reflexivity|].
  change (draws (S (S n)) w1)
    with (let (u, w') := random_random w1 in u :: draws (S n) w').
  change (draws (S (S n)) w2)
    with (let (u, w') := random_random w2 in u :: draws (S n) w').
  change (draws (S n) w1)
    with (let (u, w') := random_random w1 in u :: draws n w').
  change (draws (S n) w2)
    with (let (u, w') := random_random w2 in u :: draws n w').
  destruct (random_random w1) as [u1 w1'], (random_random w2) as [u2 w2'].
  intro H. injection H as -> H. f_equal. apply IH. exact H.
Qed.

(** The loop over the pairs gives the same list in two worlds whose random
    generators give the same values. *)
Lemma volume_boosting_pairs_draws (prices : PriceMap) (pairs : list string) :
  forall (acc : list Opportunity) (w1 w2 : W),
    draws (List.length pairs) w1 = draws (List.length pairs) w2 ->
    fst (PriceMonitor.volume_boosting_pairs cfg prices pairs acc w1)
    = fst (PriceMonitor.volume_boosting_pairs cfg prices pairs acc w2).
Proof.
  induction pairs as [|pair_str rest IH]; intros acc w1 w2 H; [reflexivity|].
  cbn [PriceMonitor.volume_boosting_pairs]. unfold bind.
  unfold PriceMonitor.volume_boosting_pair.
  assert (Hskip :
    fst (PriceMonitor.volume_boosting_pairs cfg prices rest acc w1)
    = fst (PriceMonitor.volume_boosting_pairs cfg prices rest acc w2)).
  { apply IH. apply draws_prefix. exact H. }
  destruct (split_on "-" pair_str) as [|token_in [|token_out [|x l]]];
    try exact Hskip.
  unfold bind, PriceMonitor.random_uniform, of_res.
  cbn [List.length draws] in H.
  destruct (random_random w1) as [u1 w1'], (random_random w2) as [u2 w2'].
  injection H as -> H.
  match goal with
  | |- context [PriceMonitor.evaluate_boosting ?c ?p ?a ?b ?t ?l] =>
      destruct (PriceMonitor.evaluate_boosting c p a b t l) as [found|e]
  end; [|reflexivity].
  apply IH. exact H.
Qed.

Lemma check_pair_price_difference_quotes (w1 w2 : W) (token_in token_out : Token) :
  (forall dex_name a b amount,
      PriceMonitor.get_token_price cfg w1 dex_name a b amount
      = PriceMonitor.get_token_price cfg w2 dex_name a b amount) ->
  PriceMonitor.check_pair_price_difference cfg w1 token_in token_out
  = PriceMonitor.check_pair_price_difference cfg w2 token_in token_out.
Proof.
  intro H.
  unfold PriceMonitor.check_pair_price_difference,
    PriceMonitor.check_pair_price_difference_body.
  rewrite (map_ext
             (fun dex_name =>
                (dex_name,
                 PriceMonitor.get_token_price cfg w1 dex_name token_in token_out
                   (Some (int_of (Config.max_trade_amount
                                    (Config.ARBITRAGE_CONFIG cfg)
                                  * pow10 (PriceMonitor.decimals_of cfg token_in))))))
             (fun dex_name =>
                (dex_name,
                 PriceMonitor.get_token_price cfg w2 dex_name token_in token_out
                   (Some (int_of (Config.max_trade_amount
                                    (Config.ARBITRAGE_CONFIG cfg)
                                  * pow10 (PriceMonitor.decimals_of cfg token_in)))))))
    by (intro d; rewrite H; reflexivity).
  match goal with
  | |- context [PriceMonitor.dex_prices_of ?l] =>
      destruct (PriceMonitor.dex_prices_of l) as [|dp dps]
  end; [reflexivity|].
  destruct (PriceMonitor.best_sell (dp :: dps)) as [[bp [bd|]] bo]; [|reflexivity].
  destruct (le bp 0 || (bo <=? 0)%Z); [reflexivity|].
  rewrite (map_ext
             (fun dex_name =>
                (dex_name,
                 PriceMonitor.get_token_price cfg w1 dex_name token_out token_in
                   (Some bo)))
             (fun dex_name =>
                (dex_name,
                 PriceMonitor.get_token_price cfg w2 dex_name token_out token_in
                   (Some bo))))
    by (intro d; rewrite H; reflexivity).
  reflexivity.
Qed.

(** C5, amended.  The arbitrage evaluator gives the same ordered list in two
    worlds that answer every quote alike.  The boosting evaluator gives the
    same ordered list on the same price map in two worlds whose random
    generators give the same values, one per pair evaluated. *)
Theorem C5_evaluation_is_a_function_of_quotes_and_draws :
  (forall (w1 w2 : W) (token_in token_out : Token),
      (forall dex_name a b amount,
          PriceMonitor.get_token_price cfg w1 dex_name a b amount
          = PriceMonitor.get_token_price cfg w2 dex_name a b amount) ->
      PriceMonitor.check_pair_price_difference cfg w1 token_in token_out
      = PriceMonitor.check_pair_price_difference cfg w2 token_in token_out)
  /\ (forall (trading_pairs : list string) (prices : PriceMap) (w1 w2 : W),
        draws (List.length trading_pairs) w1
        = draws (List.length trading_pairs) w2 ->
        fst (PriceMonitor.find_volume_boosting_opportunities cfg trading_pairs
               prices w1)
        = fst (PriceMonitor.find_volume_boosting_opportunities cfg trading_pairs
                 prices w2)).
Proof.
  split.
  - intros w1 w2 token_in token_out H.
    apply check_pair_price_difference_quotes. exact H.
  - intros pairs prices w1 w2 H.
    unfold PriceMonitor.find_volume_boosting_opportunities.
    destruct (negb (Config.enabled (Config.VOLUME_BOOSTING cfg)));
      [reflexivity|].
    destruct (negb (dict_mem String.eqb (Config.DEX_ROUTERS cfg)
                      (Config.target_dex (Config.VOLUME_BOOSTING cfg))));
      [reflexivity|].
    unfold bind.
    pose proof (volume_boosting_pairs_draws prices pairs [] w1 w2 H) as Hd.
    destruct (PriceMonitor.volume_boosting_pairs cfg prices pairs [] w1)
      as [[f1|e1] w1'],
      (PriceMonitor.volume_boosting_pairs cfg prices pairs [] w2)
      as [[f2|e2] w2']; simpl in Hd; try discriminate.
    + injection Hd as ->. reflexivity.
    + injection Hd as ->. reflexivity.
Qed.

End Determinism.

(** C5, as stated, fails for the boosting policy: on one price map, a
    second run draws another trade amount and gives another opportunity. *)
Lemma C5_boosting_reruns_differ :
  let prices := PriceMonitor.get_all_prices Config.default Examples.market in
  let first_run :=
    PriceMonitor.find_volume_boosting_opportunities Config.default
      ["MON-USDC"] prices Examples.market in
  let second_run :=
    PriceMonitor.find_volume_boosting_opportunities Config.default
      ["MON-USDC"] prices (snd first_run) in
  exists a b,
    fst first_run = Ok [a] /\ fst second_run = Ok [b]
    /\ (op_max_trade_amount a == 85 # 10)%Q
    /\ (op_max_trade_amount b == 775 # 100)%Q
    /\ a <> b.
Proof.
  cbv zeta. eexists. eexists.
  split; [vm_compute; reflexivity|].
  split; [vm_compute; reflexivity|].
  split; [vm_compute; reflexivity|].
  split; [vm_compute; reflexivity|].
  intro H. apply (f_equal op_max_trade_amount) in H. vm_compute in H.
  discriminate H.
Qed.

(** C5, amended, on a concrete market: two worlds with different clocks,
    balances and scripts, and the same coming random values. *)
Lemma C5_same_draws_same_opportunities :
  let prices := PriceMonitor.get_all_prices Config.default Examples.market in
  fst (PriceMonitor.find_volume_boosting_opportunities Config.default
         ["MON-USDC"] prices Examples.market)
  = fst (PriceMonitor.find_volume_boosting_opportunities Config.default
           ["MON-USDC"] prices
           (Examples.with_script
              (Examples.with_tokens Examples.market [("USDC", 5%Z)])
              [Examples.leg1_confirmed])).
Proof.
  cbv zeta.
  apply (proj2 (C5_evaluation_is_a_function_of_quotes_and_draws Config.default)).
  vm_compute. reflexivity.
Defined.

(** ** The loss tolerance of boosting mode *)

Section LossTolerance.
Context {W : Type} {E : Env W}.
Variable cfg : Config.t.

Let vb := Config.VOLUME_BOOSTING cfg.




End LossTolerance.


(** ** Computations *)

Section MonadFacts.
Variables S A B : Type.

Lemma bind_Ok (m : M S A) (k : A -> M S B) (s s' : S) (b : B) :
  bind m k s = (Ok b, s') ->
  exists a s1, m s = (Ok a, s1) /\ k a s1 = (Ok b, s').
Proof.
  unfold bind. destruct (m s) as [[a|e] s1]; intro H; [|discriminate].
  exists a, s1. auto.
Qed.

Lemma of_res_Ok (r : res A) (s s' : S) (a : A) :
  of_res r s = (Ok a, s') -> r = Ok a /\ s' = s.
Proof. unfold of_res. intro H. injection H as -> ->. auto. Qed.

End MonadFacts.

(** ** What reaches execution *)

Section ReachesExecution.
Context {W : Type} {E : Env W}.
Variable cfg : Config.t.

Let arb := Config.ARBITRAGE_CONFIG cfg.
Let vb := Config.VOLUME_BOOSTING cfg.

Lemma round_half_even_nonneg (x : Q) : (0 <= x)%Q -> (0 <= round_half_even x)%Z.
Proof.
  intro H. unfold round_half_even.
  assert (Hf : (0 <= Qfloor x)%Z).
  { change 0%Z with (Qfloor 0). apply Qfloor_resp_le. exact H. }
  destruct (x - inject_Z (Qfloor x) ?= 1 # 2)%Q; [destruct (Z.even (Qfloor x))| |];
    lia.
Qed.

Lemma round2_nonneg (x : Q) : (0 <= x)%Q -> (0 <= round2 x)%Q.
Proof.
  intro H. unfold round2.
  assert (H100 : (0 <= x * 100)%Q).
  { apply Qmult_le_0_compat; [exact H | discriminate]. }
  apply round_half_even_nonneg in H100.
  apply Qle_shift_div_l; [reflexivity|].
  rewrite Qmult_0_l. change 0%Q with (inject_Z 0). rewrite <- Zle_Qle. exact H100.
Qed.

Lemma uniform_nonneg (a b u : Q) :
  (0 <= a)%Q -> (0 <= b)%Q -> (0 <= u)%Q -> (u <= 1)%Q ->
  (0 <= a + (b - a) * u)%Q.
Proof.
  intros Ha Hb Hu Hu1.
  assert (Heq : (a + (b - a) * u == a * (1 - u) + b * u)%Q) by ring.
  rewrite Heq.
  assert (H1u : (0 <= 1 - u)%Q).
  { apply -> Qle_minus_iff. exact Hu1. }
  apply Qle_trans with (0 + 0)%Q; [discriminate|].
  apply Qplus_le_compat; apply Qmult_le_0_compat; assumption.
Qed.

(** The boosting evaluator adds at most one opportunity for a pair: one of
    the trade amount drawn, which is not zero, bought back on the target
    venue. *)
Lemma evaluate_boosting_adds (prices : PriceMap) (token_in token_out : Token)
    (trade_amount : Q) (acc l : list Opportunity) :
  PriceMonitor.evaluate_boosting cfg prices token_in token_out trade_amount acc
  = Ok l ->
  l = acc
  \/ exists op, l = acc ++ [op]
                /\ op_max_trade_amount op = trade_amount
                /\ ~ (trade_amount == 0)%Q
                /\ op_buy_dex op = Config.target_dex vb.
Proof.
  unfold PriceMonitor.evaluate_boosting. fold vb.
  destruct (dict_get pair_eqb prices (token_in, token_out)) as [forward|];
    [|intro H; injection H as <-; auto].
  destruct (PriceMonitor.best_forward forward) as [[sell|] p];
    [|intro H; injection H as <-; auto].
  destruct (negb (truthy sell)); [intro H; injection H as <-; auto|].
  destruct (dict_get pair_eqb prices (token_out, token_in)) as [reverse|];
    [|intro H; injection H as <-; auto].
  destruct (dict_get String.eqb reverse (Config.target_dex vb)) as [buy|];
    [|intro H; injection H as <-; auto].
  unfold bind_res.
  match goal with
  | |- context [F64.div ?a ?b] =>
      destruct (F64.div a b) as [ratio|e] eqn:Hdiv
  end; [|discriminate].
  apply F64_div_Ok in Hdiv. destruct Hdiv as [Hnz _].
  match goal with
  | |- context [if ?c then _ else _] => destruct c
  end; intro H; injection H as <-; [right | left; reflexivity].
  eexists. split; [reflexivity|]. cbn. auto.
Qed.

(** The arbitrage candidate loop adds opportunities of the configured trade
    amount only, which is not zero when one is added, bought back on a
    venue quoted. *)
Lemma build_opportunities_adds (token_in token_out : Token) (sell : Dex)
    (obtained : Q) (rs : list (Dex * (Q * Z * Z))) :
  forall (acc l : list Opportunity) (P : Opportunity -> Prop),
    (forall op,
        op_max_trade_amount op = Config.max_trade_amount arb ->
        ~ (Config.max_trade_amount arb == 0)%Q ->
        In (op_buy_dex op) (map fst rs) ->
        op_sell_dex op = sell ->
        P op) ->
    Forall P acc ->
    PriceMonitor.build_opportunities cfg token_in token_out sell obtained rs acc
    = Ok l ->
    Forall P l.
Proof.
  induction rs as [|[buy [[rp rout] rin]] rs IH]; intros acc l P HP Hacc.
  - simpl. intro H. injection H as <-. exact Hacc.
  - cbn [PriceMonitor.build_opportunities]. fold arb.
    assert (HP' : forall op,
               op_max_trade_amount op = Config.max_trade_amount arb ->
               ~ (Config.max_trade_amount arb == 0)%Q ->
               In (op_buy_dex op) (map fst rs) ->
               op_sell_dex op = sell -> P op).
    { intros op H1 H2 H3 H4. apply HP; auto. right. exact H3. }
    destruct (gt rp 0 && (0 <? rout)%Z); [|apply IH; assumption].
    unfold bind_res.
    match goal with
    | |- context [F64.div ?a ?b] =>
        destruct (F64.div a b) as [ratio|e] eqn:Hdiv
    end; [|discriminate].
    apply F64_div_Ok in Hdiv. destruct Hdiv as [Hnz _].
    match goal with
    | |- context [if ?c then _ else _] => destruct c
    end; [|apply IH; assumption].
    apply IH; [exact HP'|].
    apply Forall_app. split; [exact Hacc|]. constructor; [|constructor].
    apply HP; cbn; auto.
Qed.

Lemma check_pair_price_difference_Forall (w : W) (token_in token_out : Token)
    (P : Opportunity -> Prop) :
  (forall op,
      op_max_trade_amount op = Config.max_trade_amount arb ->
      ~ (Config.max_trade_amount arb == 0)%Q ->
      In (op_buy_dex op) (dict_keys (Config.DEX_ROUTERS cfg)) ->
      P op) ->
  Forall P (PriceMonitor.check_pair_price_difference cfg w token_in token_out).
Proof.
  intro HP. unfold PriceMonitor.check_pair_price_difference,
    PriceMonitor.check_pair_price_difference_body.
  match goal with
  | |- context [PriceMonitor.dex_prices_of ?l] =>
      destruct (PriceMonitor.dex_prices_of l) as [|dp dps]
  end; [constructor|].
  destruct (PriceMonitor.best_sell (dp :: dps)) as [[bp [bd|]] bo]; [|constructor].
  destruct (le bp 0 || (bo <=? 0)%Z); [constructor|].
  unfold bind_res.
  match goal with
  | |- context [PriceMonitor.build_opportunities ?c ?a ?b ?d ?o ?rs []] =>
      destruct (PriceMonitor.build_opportunities c a b d o rs []) as [l|e] eqn:Hb
  end; [|constructor].
  apply sort_desc_Forall.
  eapply build_opportunities_adds; [|constructor|exact Hb].
  intros op H1 H2 H3 _. apply HP; auto.
  rewrite map_map in H3. cbn [fst] in H3. rewrite map_id in H3. exact H3.
Qed.

Lemma find_volume_boosting_single_Forall (prices : PriceMap)
    (pair_str : string) (w : W) (opportunities : list Opportunity) :
  (0 <= Config.vb_min_trade_amount vb)%Q ->
  (0 <= Config.vb_max_trade_amount vb)%Q ->
  (0 <= fst (random_random w) <= 1)%Q ->
  fst (PriceMonitor.find_volume_boosting_opportunities cfg [pair_str] prices w)
  = Ok opportunities ->
  Forall (fun op => (0 < op_max_trade_amount op)%Q
                    /\ op_buy_dex op = Config.target_dex vb) opportunities.
Proof.
  intros Hmin Hmax [Hu0 Hu1].
  unfold PriceMonitor.find_volume_boosting_opportunities. fold vb.
  destruct (negb (Config.enabled vb));
    [intro H; injection H as <-; constructor|].
  destruct (negb (dict_mem String.eqb (Config.DEX_ROUTERS cfg)
                    (Config.target_dex vb)));
    [intro H; injection H as <-; constructor|].
  cbn [PriceMonitor.volume_boosting_pairs]. unfold bind.
  unfold PriceMonitor.volume_boosting_pair. fold vb.
  destruct (split_on "-" pair_str) as [|token_in [|token_out [|x l]]];
    try (intro H; injection H as <-; constructor).
  unfold bind, PriceMonitor.random_uniform, of_res.
  destruct (random_random w) as [u w']. cbn [fst] in Hu0, Hu1.
  match goal with
  | |- context [PriceMonitor.evaluate_boosting ?c ?p ?a ?b ?t ?l] =>
      destruct (PriceMonitor.evaluate_boosting c p a b t l) as [found|e] eqn:Hev
  end; [|discriminate].
  cbn. intro H. injection H as <-. apply sort_desc_Forall.
  apply evaluate_boosting_adds in Hev. fold vb in Hev.
  destruct Hev as [->|[op [-> [Hamount [Hnz Hbuy]]]]]; [constructor|].
  constructor; [|constructor]. split; [|exact Hbuy].
  rewrite Hamount.
  assert (Hge : (0 <= round2 (Config.vb_min_trade_amount vb
                              + (Config.vb_max_trade_amount vb
                                 - Config.vb_min_trade_amount vb) * u))%Q).
  { apply round2_nonneg. apply uniform_nonneg; assumption. }
  apply Qle_lt_or_eq in Hge. destruct Hge as [Hlt|Heq]; [exact Hlt|].
  exfalso. apply Hnz. symmetry. exact Heq.
Qed.

(** C2, amended.  With configured trade amounts that are not negative and a
    random value between 0 and 1, every opportunity the driver selects for
    execution has a trade amount above zero.  Its buy venue is the
    configured target venue in boosting mode, and one of the configured
    venues in arbitrage mode; the sell venue is not excluded. *)
Theorem C2_selected_trade_amount_is_positive (all_prices : PriceMap)
    (token_in token_out : Token) (s : Sys W) :
  (0 <= Config.max_trade_amount arb)%Q ->
  (0 <= Config.vb_min_trade_amount vb)%Q ->
  (0 <= Config.vb_max_trade_amount vb)%Q ->
  (0 <= fst (random_random (world s)) <= 1)%Q ->
  (forall op,
      fst (ArbitrageBot.select_volume_boosting cfg all_prices token_in
             token_out s) = Ok (Some op) ->
      (0 < op_max_trade_amount op)%Q
      /\ op_buy_dex op = Config.target_dex vb)
  /\ (forall op,
        fst (ArbitrageBot.select_arbitrage cfg token_in token_out s)
        = Ok (Some op) ->
        (0 < op_max_trade_amount op)%Q
        /\ In (op_buy_dex op) (dict_keys (Config.DEX_ROUTERS cfg))).
Proof.
  intros Harb Hmin Hmax Hu. split; intros op.
  - unfold ArbitrageBot.select_volume_boosting, bind, on_world, zoom.
    pose proof (@find_volume_boosting_single_Forall all_prices
                  (token_in ++ "-" ++ token_out)%string (world s)) as Hall.
    destruct (PriceMonitor.find_volume_boosting_opportunities cfg
                [(token_in ++ "-" ++ token_out)%string] all_prices (world s))
      as [[opps|e] w']; [|discriminate].
    specialize (Hall opps Hmin Hmax Hu eq_refl).
    destruct opps as [|best rest]; [discriminate|].
    destruct (ArbitrageBot.estimate_gas_cost
                (Config.vb_gas_limit (Config.VOLUME_BOOSTING cfg))
                (set_world w' s)) as [[g|e] s1]; [|discriminate].
    unfold of_res.
    destruct (ArbitrageBot.within_loss_tolerance cfg best g) as [[|]|e];
      try discriminate.
    cbn. intro H. injection H as <-. inversion Hall. assumption.
  - unfold ArbitrageBot.select_arbitrage, bind, gets.
    pose proof (@check_pair_price_difference_Forall (world s) token_in token_out
                  (fun op => (0 < op_max_trade_amount op)%Q
                             /\ In (op_buy_dex op)
                                  (dict_keys (Config.DEX_ROUTERS cfg)))) as Hall.
    assert (Hsorted :
      Forall (fun op => (0 < op_max_trade_amount op)%Q
                        /\ In (op_buy_dex op)
                             (dict_keys (Config.DEX_ROUTERS cfg)))
        (sort_desc op_expected_profit
           (PriceMonitor.check_pair_price_difference cfg (world s) token_in
              token_out))).
    { apply sort_desc_Forall. apply Hall. intros o Hamount Hnz Hin.
      split; [|exact Hin]. rewrite Hamount. fold arb in Harb.
      apply Qle_lt_or_eq in Harb. destruct Harb as [Hlt|Heq]; [exact Hlt|].
      exfalso. apply Hnz. symmetry. exact Heq. }
    destruct (sort_desc op_expected_profit
                (PriceMonitor.check_pair_price_difference cfg (world s)
                   token_in token_out)) as [|best rest]; [discriminate|].
    destruct (ArbitrageBot.estimate_gas_cost
                (Config.gas_limit (Config.ARBITRAGE_CONFIG cfg)) s)
      as [[g|e] s1]; [|discriminate].
    destruct (ArbitrageBot.above_min_profit cfg best g); [|discriminate].
    cbn. intro H. injection H as <-. inversion Hsorted. assumption.
Qed.

End ReachesExecution.

(** C2, as stated, fails: in boosting mode the target venue [monda] also
    quotes the best forward price, and the opportunity the driver selects
    and executes sells and buys back on [monda]. *)
Lemma C2_sells_and_buys_on_one_venue :
  let prices := PriceMonitor.get_all_prices Config.default Examples.market in
  let s := Toy.start (Examples.with_script Examples.market
                        [Examples.leg1_confirmed; Examples.leg2_confirmed]) in
  exists op,
    fst (ArbitrageBot.select_volume_boosting Config.default prices
           "MON" "USDC" s) = Ok (Some op)
    /\ op_sell_dex op = "monda" /\ op_buy_dex op = "monda"
    /\ map target
         (submitted (snd (ArbitrageBot.process_pair Config.default prices
                            ("MON", "USDC") s)))
       = ["monda"; "monda"].
Proof.
  cbv zeta. eexists. split; [vm_compute; reflexivity|].
  split; [reflexivity|]. split; [reflexivity|]. vm_compute. reflexivity.
Qed.

(** C2, amended, on a concrete market: the opportunity selected there has a
    trade amount above zero and is bought back on the target venue. *)
Lemma C2_selected_on_the_market :
  let prices := PriceMonitor.get_all_prices Config.default Examples.market in
  let s := Toy.start Examples.market in
  exists op,
    fst (ArbitrageBot.select_volume_boosting Config.default prices
           "MON" "USDC" s) = Ok (Some op)
    /\ (0 < op_max_trade_amount op)%Q
    /\ op_buy_dex op = "monda".
Proof.
  cbv zeta. eexists. split; [vm_compute; reflexivity|].
  apply (proj1 (@C2_selected_trade_amount_is_positive Toy.t Toy.env
                  Config.default
                  (PriceMonitor.get_all_prices Config.default Examples.market)
                  "MON" "USDC" (Toy.start Examples.market)
                  ltac:(unfold Qle; simpl; lia)
                  ltac:(unfold Qle; simpl; lia)
                  ltac:(unfold Qle; simpl; lia)
                  ltac:(split; unfold Qle; simpl; lia))).
  vm_compute. reflexivity.
Defined.

(** ** The executor leaves the books of the bot alone *)

Section KeepsBooks.
Context {W : Type} {E : Env W}.
Variable cfg : Config.t.

Lemma same_books_refl (s : Sys W) : same_books s s.
Proof. unfold same_books. auto. Qed.

Lemma same_books_trans (s1 s2 s3 : Sys W) :
  same_books s1 s2 -> same_books s2 s3 -> same_books s1 s3.
Proof.
  unfold same_books. intros [A1 [A2 [A3 [A4 A5]]]] [B1 [B2 [B3 [B4 B5]]]].
  repeat split; congruence.
Qed.

Lemma keeps_ret (A : Type) (a : A) : keeps_books (W := W) (ret a).
Proof. intro s. apply same_books_refl. Qed.

Lemma keeps_raise (A : Type) (e : string) : keeps_books (W := W) (A := A) (raise e).
Proof. intro s. apply same_books_refl. Qed.

Lemma keeps_gets (A : Type) (f : Sys W -> A) : keeps_books (gets f).
Proof. intro s. apply same_books_refl. Qed.

Lemma keeps_read (A : Type) (f : Sys W -> res A) : keeps_books (read f).
Proof. intro s. apply same_books_refl. Qed.

Lemma keeps_of_res (A : Type) (r : res A) : keeps_books (W := W) (of_res r).
Proof. intro s. apply same_books_refl. Qed.

Lemma keeps_now : keeps_books (W := W) now.
Proof. intro s. apply same_books_refl. Qed.

Lemma keeps_bind (A B : Type) (m : M (Sys W) A) (k : A -> M (Sys W) B) :
  keeps_books m -> (forall a, keeps_books (k a)) -> keeps_books (bind m k).
Proof.
  intros Hm Hk s. unfold bind. specialize (Hm s).
  destruct (m s) as [[a|e] s1]; cbn [snd] in *; [|exact Hm].
  eapply same_books_trans; [exact Hm | apply Hk].
Qed.

Lemma keeps_try (A : Type) (m : M (Sys W) A) (h : string -> M (Sys W) A) :
  keeps_books m -> (forall e, keeps_books (h e)) -> keeps_books (try_except m h).
Proof.
  intros Hm Hh s. unfold try_except. specialize (Hm s).
  destruct (m s) as [[a|e] s1]; cbn [snd] in *; [exact Hm|].
  eapply same_books_trans; [exact Hm | apply Hh].
Qed.

Lemma keeps_set_pre_tx (b : Q) :
  keeps_books (W := W) (modify (set_pre_tx_mon_balance b)).
Proof. intro s. unfold same_books. cbn. auto. Qed.

Lemma keeps_send (tx : transaction) : keeps_books (send tx).
Proof.
  intro s. unfold send. destruct (send_transaction tx (world s)) as [r w'].
  unfold same_books. cbn. auto.
Qed.

Ltac keeps_step :=
  first
    [ apply keeps_ret | apply keeps_raise | apply keeps_gets | apply keeps_read
    | apply keeps_of_res | apply keeps_now | apply keeps_set_pre_tx
    | apply keeps_send
    | apply keeps_bind; [|intros]
    | apply keeps_try; [|intros]
    | match goal with
      | |- keeps_books (let _ := _ in _) => cbv zeta
      | |- keeps_books (if ?c then _ else _) => destruct c
      | |- keeps_books (match ?x with _ => _ end) => destruct x
      end ].

Create HintDb books.

Ltac keeps := repeat keeps_step; auto with books.

Lemma keeps_get_native_balance : keeps_books (W := W) TransactionExecutor.get_native_balance.
Proof. unfold TransactionExecutor.get_native_balance. keeps. Qed.
#[local] Hint Resolve keeps_get_native_balance : books.

Lemma keeps_remember_mon_balance (token_out : Token) :
  keeps_books (W := W) (TransactionExecutor.remember_mon_balance token_out).
Proof. unfold TransactionExecutor.remember_mon_balance. keeps. Qed.
#[local] Hint Resolve keeps_remember_mon_balance : books.

Lemma keeps_get_token_balance (token : Token) :
  keeps_books (TransactionExecutor.get_token_balance cfg token).
Proof.
  unfold TransactionExecutor.get_token_balance.
  keeps.
Qed.
#[local] Hint Resolve keeps_get_token_balance : books.

Lemma keeps_get_weth_address (dex_name : Dex) :
  keeps_books (TransactionExecutor.get_weth_address cfg dex_name).
Proof. unfold TransactionExecutor.get_weth_address. keeps. Qed.
#[local] Hint Resolve keeps_get_weth_address : books.

Lemma keeps_get_pool_deployer (dex_name : Dex) :
  keeps_books (TransactionExecutor.get_pool_deployer cfg dex_name).
Proof. unfold TransactionExecutor.get_pool_deployer. keeps. Qed.
#[local] Hint Resolve keeps_get_pool_deployer : books.

Lemma keeps_approve_token (token : Token) (router_address : Addr) :
  keeps_books (TransactionExecutor.approve_token cfg token router_address).
Proof. unfold TransactionExecutor.approve_token. keeps. Qed.
#[local] Hint Resolve keeps_approve_token : books.

Lemma keeps_realized_output (token_out : Token) (token_out_decimals : Z) :
  keeps_books (TransactionExecutor.realized_output cfg token_out
                 token_out_decimals).
Proof.
  unfold TransactionExecutor.realized_output.
  keeps.
Qed.
#[local] Hint Resolve keeps_realized_output : books.

Lemma keeps_swap_uniswap_v2 (dex_name : Dex) (token_in token_out : Token)
    (a_in a_out : Addr) (amount_in min_amount_out dec deadline : Z)
    (is_vb : bool) :
  keeps_books (TransactionExecutor._swap_tokens_uniswap_v2 cfg dex_name
                 token_in token_out a_in a_out amount_in min_amount_out dec
                 deadline is_vb).
Proof.
  unfold TransactionExecutor._swap_tokens_uniswap_v2.
  keeps.
Qed.
#[local] Hint Resolve keeps_swap_uniswap_v2 : books.

Lemma keeps_swap_algebra (dex_name : Dex) (token_in token_out : Token)
    (a_in a_out : Addr) (amount_in min_amount_out dec deadline : Z)
    (is_vb : bool) :
  keeps_books (TransactionExecutor._swap_tokens_algebra cfg dex_name
                 token_in token_out a_in a_out amount_in min_amount_out dec
                 deadline is_vb).
Proof.
  unfold TransactionExecutor._swap_tokens_algebra.
  keeps.
Qed.
#[local] Hint Resolve keeps_swap_algebra : books.

Lemma keeps_resolve_token_in (weth : option Addr) (token_in : Token)
    (amount_in : Z) :
  keeps_books (TransactionExecutor.resolve_token_in cfg weth token_in amount_in).
Proof.
  unfold TransactionExecutor.resolve_token_in.
  keeps.
Qed.
#[local] Hint Resolve keeps_resolve_token_in : books.

Lemma keeps_resolve_token_out (weth : option Addr) (token_out : Token) :
  keeps_books (TransactionExecutor.resolve_token_out cfg weth token_out).
Proof. unfold TransactionExecutor.resolve_token_out. keeps. Qed.
#[local] Hint Resolve keeps_resolve_token_out : books.

Lemma keeps_swap_tokens (dex_name : Dex) (token_in token_out : Token)
    (amount_in min_amount_out : Z) (deadline : option Z) (is_vb : bool) :
  keeps_books (TransactionExecutor.swap_tokens cfg dex_name token_in token_out
                 amount_in min_amount_out deadline is_vb).
Proof.
  unfold TransactionExecutor.swap_tokens.
  keeps.
Qed.
#[local] Hint Resolve keeps_swap_tokens : books.

Lemma keeps_execute_legs (is_vb : bool) (token_in token_out token_middle : Token)
    (buy_dex sell_dex : Dex) (amount_in : Q) :
  keeps_books (ArbitrageBot.execute_legs cfg is_vb token_in token_out
                 token_middle buy_dex sell_dex amount_in).
Proof.
  unfold ArbitrageBot.execute_legs.
  keeps.
Qed.
#[local] Hint Resolve keeps_execute_legs : books.

End KeepsBooks.

(** ** The execution coordinator *)

Section Execution.
Context {W : Type} {E : Env W}.
Variable cfg : Config.t.

Let vb := Config.VOLUME_BOOSTING cfg.

(** Reading a balance changes nothing. *)
Lemma get_token_balance_reads (token : Token) (s : Sys W) :
  exists b, TransactionExecutor.get_token_balance cfg token s = (Ok b, s).
Proof.
  unfold TransactionExecutor.get_token_balance,
    TransactionExecutor.get_native_balance, gets, ret.
  destruct (String.eqb token "MON"); [eauto|].
  destruct (negb (str_in token (TransactionExecutor.tokens cfg))); eauto.
Qed.

(** The handler of the coordinator returns: it appends one record with
    status [failed], with the error text and the fields of the opportunity
    and no transaction hash, and counts one failed trade. *)
Lemma record_failure_returns (is_vb : bool) (token_in token_out : Token)
    (final : option Token) (buy_dex sell_dex : Dex) (amount_in : Q)
    (e : string) (s : Sys W) :
  exists failed s',
    ArbitrageBot.record_failure is_vb token_in token_out final buy_dex
      sell_dex amount_in e s = (Ok (false, [("error", VStr e)]), s')
    /\ trade_history s' = trade_history s ++ [failed]
    /\ dict_get String.eqb failed "status" = Some (VStr "failed")
    /\ dict_get String.eqb failed "error" = Some (VStr e)
    /\ dict_get String.eqb failed "token_in" = Some (VStr token_in)
    /\ dict_get String.eqb failed "buy_dex" = Some (VStr buy_dex)
    /\ dict_get String.eqb failed "sell_dex" = Some (VStr sell_dex)
    /\ dict_get String.eqb failed "amount" = Some (VFloat amount_in)
    /\ dict_get String.eqb failed "buy_tx_hash" = None
    /\ dict_get String.eqb failed "sell_tx_hash" = None
    /\ failed_trades (stats s') = (failed_trades (stats s) + 1)%Z
    /\ world s' = world s
    /\ submitted s' = submitted s
    /\ dict_get String.eqb failed "type"
       = Some (VStr (if is_vb then "volume_boosting" else "arbitrage"))
    /\ dict_get String.eqb failed "token_out"
       = Some (VStr (match final with Some n => n | None => token_out end))
    /\ successful_trades (stats s') = successful_trades (stats s).
Proof.
  unfold ArbitrageBot.record_failure, bind, now, gets, modify, ret.
  eexists. eexists. split; [reflexivity|]. cbn. repeat split; reflexivity.
Qed.

(** Settlement either returns the record of a successful trade, appended to
    the history, or raises with the books as they were. *)
Lemma settle_outcomes (is_vb : bool) (token_in token_out : Token)
    (buy_dex sell_dex : Dex) (amount_in : Q) (l : ArbitrageBot.legs_done)
    (s : Sys W) :
  match ArbitrageBot.settle cfg is_vb token_in token_out buy_dex sell_dex
          amount_in l s with
  | (Ok (ok, d), s') =>
      ok = true
      /\ dict_get String.eqb d "status" = Some (VStr "success")
      /\ dict_get String.eqb d "buy_tx_hash"
         = Some (of_opt_str (ArbitrageBot.buy_tx_hash l))
      /\ dict_get String.eqb d "sell_tx_hash"
         = Some (of_opt_str (ArbitrageBot.sell_tx_hash l))
      /\ trade_history s' = trade_history s ++ [d]
  | (Raise e, s') => same_books s s' /\ world s' = world s
                     /\ submitted s' = submitted s
  end.
Proof.
  unfold ArbitrageBot.settle, bind.
  destruct (get_token_balance_reads (ArbitrageBot.final_token_name l) s)
    as [final_balance ->].
  unfold of_res, read.
  match goal with
  | |- context [div ?a ?b] => destruct (div a b) as [ratio|e]
  end; [|split; [apply same_books_refl | auto]].
  destruct (gas_price (world s)) as [gp|e];
    [|split; [apply same_books_refl | auto]].
  destruct (from_wei gp 9) as [gwei|e];
    [|split; [apply same_books_refl | auto]].
  match goal with
  | |- context [from_wei ?a 18] => destruct (from_wei a 18) as [gas|e]
  end; [|split; [apply same_books_refl | auto]].
  match goal with
  | |- context [if ?c then modify _ else ret tt] => destruct c
  end;
    unfold modify, now, gets, ret, ArbitrageBot.record_success, bind, modify;
    cbn; repeat split; reflexivity.
Qed.

(** The coordinator never raises. *)
Lemma execute_returns (op : Opportunity) (s : Sys W) :
  exists r s', ArbitrageBot.execute_cross_dex_arbitrage cfg op s = (Ok r, s').
Proof.
  unfold ArbitrageBot.execute_cross_dex_arbitrage, bind, try_except.
  match goal with
  | |- context [ArbitrageBot.execute_legs ?x1 ?x2 ?x3 ?x4 ?x5 ?x6 ?x7 ?x8 s] =>
      destruct (ArbitrageBot.execute_legs x1 x2 x3 x4 x5 x6 x7 x8 s)
        as [[[early|l]|e] s1]
  end.
  - unfold ret. eauto.
  - match goal with
    | |- context [ArbitrageBot.settle ?x1 ?x2 ?x3 ?x4 ?x5 ?x6 ?x7 ?x8 s1] =>
        destruct (ArbitrageBot.settle x1 x2 x3 x4 x5 x6 x7 x8 s1) as [[r|e] s2]
    end; [eauto|].
    match goal with
    | |- context [ArbitrageBot.record_failure ?x1 ?x2 ?x3 ?x4 ?x5 ?x6 ?x7 e s2] =>
        destruct (record_failure_returns x1 x2 x3 x4 x5 x6 x7 e s2)
          as [failed [s3 [-> _]]]
    end.
    eauto.
  - match goal with
    | |- context [ArbitrageBot.record_failure ?x1 ?x2 ?x3 ?x4 ?x5 ?x6 ?x7 e s1] =>
        destruct (record_failure_returns x1 x2 x3 x4 x5 x6 x7 e s1)
          as [failed [s3 [-> _]]]
    end.
    unfold ret. eauto.
Qed.


(** A swap asked of the executor returns. *)
Lemma swap_tokens_returns (dex_name : Dex) (token_in token_out : Token)
    (amount_in min_amount_out : Z) (deadline : option Z) (is_vb : bool)
    (s : Sys W) :
  exists ok tx_hash amount_out s',
    TransactionExecutor.swap_tokens cfg dex_name token_in token_out amount_in
      min_amount_out deadline is_vb s = (Ok (ok, tx_hash, amount_out), s').
Proof.
  unfold TransactionExecutor.swap_tokens, try_except.
  match goal with
  | |- exists _ _ _ _, match ?x with _ => _ end = _ =>
      destruct x as [[[[ok h] out]|e] s']
  end; [eauto|].
  unfold ret, TransactionExecutor.swap_failed. eauto.
Qed.

(** The settlement raises exactly when one of its reads does, with the
    state as it was; otherwise it appends the record of a successful trade,
    with the mode and the hashes of the two legs, and counts it. *)
Lemma settle_cases (is_vb : bool) (token_in token_out : Token)
    (buy_dex sell_dex : Dex) (amount_in : Q) (l : ArbitrageBot.legs_done)
    (s : Sys W) :
  match settlement_reads cfg is_vb amount_in s with
  | Ok _ =>
      exists d s',
        ArbitrageBot.settle cfg is_vb token_in token_out buy_dex sell_dex
          amount_in l s = (Ok (true, d), s')
        /\ trade_history s' = trade_history s ++ [d]
        /\ dict_get String.eqb d "status" = Some (VStr "success")
        /\ dict_get String.eqb d "type"
           = Some (VStr (if is_vb then "volume_boosting" else "arbitrage"))
        /\ dict_get String.eqb d "buy_tx_hash"
           = Some (of_opt_str (ArbitrageBot.buy_tx_hash l))
        /\ dict_get String.eqb d "sell_tx_hash"
           = Some (of_opt_str (ArbitrageBot.sell_tx_hash l))
        /\ successful_trades (stats s')
           = (successful_trades (stats s) + 1)%Z
        /\ failed_trades (stats s') = failed_trades (stats s)
  | Raise e =>
      ArbitrageBot.settle cfg is_vb token_in token_out buy_dex sell_dex
        amount_in l s = (Raise e, s)
  end.
Proof.
  unfold settlement_reads, ArbitrageBot.settle, bind.
  destruct (get_token_balance_reads (ArbitrageBot.final_token_name l) s)
    as [final_balance ->].
  unfold of_res, read, div, bind_res. fold vb.
  destruct (Qeq_bool amount_in 0); [reflexivity|].
  destruct (gas_price (world s)) as [gp|e]; [|reflexivity].
  destruct (from_wei gp 9) as [gwei|e]; [|reflexivity].
  match goal with
  | |- context [from_wei ?a 18] => destruct (from_wei a 18) as [gas|e]
  end; [|reflexivity].
  match goal with
  | |- context [if ?c then modify _ else ret tt] => destruct c
  end;
    unfold modify, now, gets, ret, ArbitrageBot.record_success, bind, modify;
    eexists; eexists; (split; [reflexivity|]); cbn; repeat split; reflexivity.
Qed.

(** C1, amended.  The coordinator never raises.  Its first leg is a swap of
    the trade amount, converted in floats, asked with a minimum output of
    0; the swap returns.  When it reports failure the coordinator returns
    [(False, {profit: 0, profit_pct: 0})] and writes no record.  Otherwise
    the second leg sells what the first reports; when it reports failure
    the result is the same, no record is written and the hash of the first
    leg is recorded nowhere.  After two successful legs the settlement
    either goes through, and [(True, record)] is returned with the record,
    of status [success], appended to the history with the mode and the two
    hashes; or it raises when the trade amount is zero or the gas price
    cannot be read, and then one record of status [failed] is appended that
    holds the mode, the error text, the buy and sell venues, the amount and
    the input asset both as [token_in] and as [token_out], and no
    transaction hash, and [(False, {error: text})] is returned. *)
Theorem C1_execute_returns_and_records (op : Opportunity) (s : Sys W) :
  let is_volume_boosting :=
    Config.enabled vb && String.eqb (op_type op) "volume_boosting" in
  let mode := if is_volume_boosting then "volume_boosting" else "arbitrage" in
  let middle :=
    if is_volume_boosting then op_token_out op
    else match op_token_middle op with
         | Some m => m
         | None => op_token_out op
         end in
  let decimals token :=
    if String.eqb token "MON" then 18%Z
    else TransactionExecutor.get_token_decimals cfg token in
  let leg1 :=
    TransactionExecutor.swap_tokens cfg (op_sell_dex op) (op_token_in op)
      middle
      (int_of (F64.mul (op_max_trade_amount op)
                 (pow10 (decimals (op_token_in op)))))
      0 None is_volume_boosting in
  let leg2 token_middle_amount :=
    TransactionExecutor.swap_tokens cfg (op_buy_dex op) middle
      (op_token_in op)
      (int_of (F64.mul token_middle_amount (pow10 (decimals middle))))
      0 None is_volume_boosting in
  let run := ArbitrageBot.execute_cross_dex_arbitrage cfg op s in
  exists ok1 h1 a1 s1,
    leg1 s = (Ok (ok1, h1, a1), s1)
    /\ if negb ok1
       then run = (Ok ArbitrageBot.leg_failed, s1) /\ same_books s s1
       else
         exists ok2 h2 a2 s2,
           leg2 a1 s1 = (Ok (ok2, h2, a2), s2)
           /\ if negb ok2
              then run = (Ok ArbitrageBot.leg_failed, s2) /\ same_books s s2
              else
                match settlement_reads cfg is_volume_boosting
                        (op_max_trade_amount op) s2 with
                | Ok _ =>
                    exists d s3,
                      run = (Ok (true, d), s3)
                      /\ trade_history s3 = trade_history s ++ [d]
                      /\ dict_get String.eqb d "status"
                         = Some (VStr "success")
                      /\ dict_get String.eqb d "type" = Some (VStr mode)
                      /\ dict_get String.eqb d "buy_tx_hash"
                         = Some (of_opt_str h1)
                      /\ dict_get String.eqb d "sell_tx_hash"
                         = Some (of_opt_str h2)
                      /\ successful_trades (stats s3)
                         = (successful_trades (stats s) + 1)%Z
                      /\ failed_trades (stats s3) = failed_trades (stats s)
                | Raise e =>
                    exists failed s3,
                      run = (Ok (false, [("error", VStr e)]), s3)
                      /\ trade_history s3 = trade_history s ++ [failed]
                      /\ dict_get String.eqb failed "status"
                         = Some (VStr "failed")
                      /\ dict_get String.eqb failed "type"
                         = Some (VStr mode)
                      /\ dict_get String.eqb failed "error" = Some (VStr e)
                      /\ dict_get String.eqb failed "token_in"
                         = Some (VStr (op_token_in op))
                      /\ dict_get String.eqb failed "token_out"
                         = Some (VStr (op_token_in op))
                      /\ dict_get String.eqb failed "buy_dex"
                         = Some (VStr (op_buy_dex op))
                      /\ dict_get String.eqb failed "sell_dex"
                         = Some (VStr (op_sell_dex op))
                      /\ dict_get String.eqb failed "amount"
                         = Some (VFloat (op_max_trade_amount op))
                      /\ dict_get String.eqb failed "buy_tx_hash" = None
                      /\ dict_get String.eqb failed "sell_tx_hash" = None
                      /\ failed_trades (stats s3)
                         = (failed_trades (stats s) + 1)%Z
                      /\ successful_trades (stats s3)
                         = successful_trades (stats s)
                end.
Proof.
  intros is_vb mode middle decimals leg1 leg2 run.
  assert (Hmiddle :
    (if is_vb then op_token_out op
     else if negb is_vb
          then match op_token_middle op with
               | Some m => m
               | None => op_token_out op
               end
          else op_token_out op) = middle).
  { subst middle. destruct is_vb; reflexivity. }
  destruct (swap_tokens_returns (op_sell_dex op) (op_token_in op) middle
              (int_of (F64.mul (op_max_trade_amount op)
                         (pow10 (decimals (op_token_in op)))))
              0 None is_vb s) as [ok1 [h1 [a1 [s1 H1]]]].
  fold leg1 in H1. exists ok1, h1, a1, s1. split; [exact H1|].
  pose proof (keeps_swap_tokens cfg (op_sell_dex op) (op_token_in op) middle
                (int_of (F64.mul (op_max_trade_amount op)
                           (pow10 (decimals (op_token_in op)))))
                0 None is_vb s) as Hk1.
  fold leg1 in Hk1. rewrite H1 in Hk1. cbn [snd] in Hk1.
  destruct (get_token_balance_reads (op_token_in op) s) as [b Hb].
  assert (Hrun1 :
    run
    = match
        (if negb ok1 then ret (inl ArbitrageBot.leg_failed)
         else
           bind (leg2 a1)
             (fun r =>
                let '(sell_result, sell_tx_hash, token_out_amount) := r in
                if negb sell_result then ret (inl ArbitrageBot.leg_failed)
                else ret (inr {| ArbitrageBot.initial_balance := b;
                                 ArbitrageBot.buy_tx_hash := h1;
                                 ArbitrageBot.token_middle_amount := a1;
                                 ArbitrageBot.sell_tx_hash := sell_tx_hash;
                                 ArbitrageBot.token_out_amount :=
                                   token_out_amount;
                                 ArbitrageBot.final_token_name :=
                                   op_token_in op |})))
          s1
      with
      | (Ok (inl early), s') => (Ok early, s')
      | (Ok (inr l), s') =>
          try_except
            (ArbitrageBot.settle cfg is_vb (op_token_in op) (op_token_out op)
               (op_buy_dex op) (op_sell_dex op) (op_max_trade_amount op) l)
            (ArbitrageBot.record_failure is_vb (op_token_in op)
               (op_token_out op) (Some (ArbitrageBot.final_token_name l))
               (op_buy_dex op) (op_sell_dex op) (op_max_trade_amount op)) s'
      | (Raise e, s') =>
          match ArbitrageBot.record_failure is_vb (op_token_in op)
                  (op_token_out op) None (op_buy_dex op) (op_sell_dex op)
                  (op_max_trade_amount op) e s' with
          | (Ok r, s'') => (Ok r, s'')
          | (Raise e', s'') => (Raise e', s'')
          end
      end).
  { subst run.
    unfold ArbitrageBot.execute_cross_dex_arbitrage.
    unfold bind at 1. unfold try_except at 1.
    fold vb. fold is_vb. unfold ArbitrageBot.execute_legs.
    unfold bind at 1. rewrite Hb.
    rewrite Hmiddle. fold (decimals (op_token_in op)). fold leg1.
    unfold bind at 1. rewrite H1.
    fold (decimals middle). fold (leg2 a1).
    match goal with
    | |- match match ?x with _ => _ end with _ => _ end
         = match ?y with _ => _ end =>
        change x with y; destruct y as [[[early|l]|e] s']
    end.
    - reflexivity.
    - reflexivity.
    - unfold bind, ret.
      destruct (ArbitrageBot.record_failure is_vb (op_token_in op)
                  (op_token_out op) None (op_buy_dex op) (op_sell_dex op)
                  (op_max_trade_amount op) e s') as [[r|e'] s''];
        reflexivity. }
  rewrite Hrun1.
  destruct ok1; cbn [negb]; [|split; [reflexivity | exact Hk1]].
  destruct (swap_tokens_returns (op_buy_dex op) middle (op_token_in op)
              (int_of (F64.mul a1 (pow10 (decimals middle))))
              0 None is_vb s1) as [ok2 [h2 [a2 [s2 H2]]]].
  fold (leg2 a1) in H2. exists ok2, h2, a2, s2. split; [exact H2|].
  pose proof (keeps_swap_tokens cfg (op_buy_dex op) middle (op_token_in op)
                (int_of (F64.mul a1 (pow10 (decimals middle))))
                0 None is_vb s1) as Hk2.
  fold (leg2 a1) in Hk2. rewrite H2 in Hk2. cbn [snd] in Hk2.
  pose proof (same_books_trans Hk1 Hk2) as Hk.
  unfold bind. rewrite H2.
  destruct ok2; cbn [negb]; unfold ret;
    [|split; [reflexivity | exact Hk]].
  unfold try_except. cbn [ArbitrageBot.final_token_name].
  match goal with
  | |- context [ArbitrageBot.settle ?c ?x1 ?x2 ?x3 ?x4 ?x5 ?x6 ?l s2] =>
      pose proof (@settle_cases x1 x2 x3 x4 x5 x6 l s2) as Hsettle
  end.
  destruct Hk as [Hh [Hst _]].
  destruct (settlement_reads cfg is_vb (op_max_trade_amount op) s2) as [gas|e].
  - destruct Hsettle as [d [s3 [Hrun [Hhist [Hs [Ht [Hbuy [Hsell [Hsucc Hfail]]]]]]]]].
    rewrite Hrun. exists d, s3.
    cbn [ArbitrageBot.buy_tx_hash ArbitrageBot.sell_tx_hash] in Hbuy, Hsell.
    rewrite Hhist, Hh, Hsucc, Hfail, Hst. repeat split; auto.
  - rewrite Hsettle.
    destruct (record_failure_returns is_vb (op_token_in op) (op_token_out op)
                (Some (op_token_in op)) (op_buy_dex op) (op_sell_dex op)
                (op_max_trade_amount op) e s2)
      as [failed [s3 [Hrun [Hhist [F1 [F2 [F3 [F4 [F5 [F6 [F7 [F8 [F9
          [_ [_ [F10 [F11 Hsame]]]]]]]]]]]]]]]]].
    rewrite Hrun. exists failed, s3.
    rewrite Hhist, Hh, F9, Hsame, Hst. repeat split; auto.
Qed.

(** Waiting for the cooldown returns. *)
Lemma wait_for_cooldown_returns (min_interval : Q) (s : Sys W) :
  fst (ArbitrageBot.wait_for_cooldown min_interval s) = Ok tt.
Proof.
  unfold ArbitrageBot.wait_for_cooldown, bind, now, gets.
  match goal with
  | |- context [if ?c then _ else _] => destruct c
  end; reflexivity.
Qed.

(** C10.  When the driver has selected an opportunity for a pair, it waits
    for the cooldown and calls the coordinator, which returns whatever the
    legs do; the handling of the pair then returns with the last trade time
    set to the time at which the coordinator returned, the history saved
    and five seconds slept.  From then on, while the interval has not
    passed since that time, the cooldown gate sleeps for the remainder and
    a boosting cycle returns at once. *)
Theorem C10_last_trade_time_set_after_every_attempt
    (all_prices : PriceMap) (token_pair : Token * Token) (op : Opportunity)
    (s s1 : Sys W) :
  (if Config.enabled vb
   then ArbitrageBot.select_volume_boosting cfg all_prices (fst token_pair)
          (snd token_pair)
   else ArbitrageBot.select_arbitrage cfg (fst token_pair) (snd token_pair)) s
  = (Ok (Some op), s1) ->
  let min_interval :=
    if Config.enabled vb then Config.vb_trade_interval vb
    else Config.trade_interval (Config.ARBITRAGE_CONFIG cfg) in
  let s2 := snd (ArbitrageBot.wait_for_cooldown min_interval s1) in
  let after := snd (ArbitrageBot.process_pair cfg all_prices token_pair s) in
  exists r s3,
    ArbitrageBot.execute_cross_dex_arbitrage cfg op s2 = (Ok r, s3)
    /\ ArbitrageBot.process_pair cfg all_prices token_pair s
       = (Ok tt,
          snd (asyncio_sleep 5
                 (snd (ArbitrageBot.save_trade_history
                         (set_last_trade_time (time_time (world s3)) s3)))))
    /\ last_trade_time after = time_time (world s3)
    /\ (forall (s' : Sys W) (interval : Q),
          last_trade_time s' = last_trade_time after ->
          (time_time (world s') - last_trade_time after < interval)%Q ->
          ArbitrageBot.wait_for_cooldown interval s'
          = (Ok tt,
             set_world
               (sleep (interval
                       - (time_time (world s') - last_trade_time after))
                  (world s')) s'))
    /\ (forall s' : Sys W,
          Config.enabled vb = true ->
          last_trade_time s' = last_trade_time after ->
          (time_time (world s') - last_trade_time after
           < Config.vb_trade_interval vb)%Q ->
          ArbitrageBot.find_and_execute_arbitrage cfg s'
          = (ArbitrageBot.Returned, s')).
Proof.
  intros Hselect min_interval s2 after.
  destruct (execute_returns op s2) as [r [s3 Hex]].
  exists r, s3. split; [exact Hex|].
  assert (Hrun :
    ArbitrageBot.process_pair cfg all_prices token_pair s
    = (Ok tt,
       snd (asyncio_sleep 5
              (snd (ArbitrageBot.save_trade_history
                      (set_last_trade_time (time_time (world s3)) s3)))))).
  { unfold ArbitrageBot.process_pair, try_except. unfold bind at 1.
    fold vb. rewrite Hselect. fold min_interval.
    unfold bind at 1.
    pose proof (wait_for_cooldown_returns min_interval s1) as Hwait.
    fold s2.
    destruct (ArbitrageBot.wait_for_cooldown min_interval s1) as [rw sw] eqn:Hw.
    cbn [fst] in Hwait. subst rw. subst s2. cbn [snd] in Hex |- *.
    unfold bind at 1. unfold ArbitrageBot.execute_and_stamp.
    unfold bind at 1. rewrite Hex.
    unfold bind, now, gets, modify, ArbitrageBot.save_trade_history,
      asyncio_sleep, modify.
    reflexivity. }
  split; [exact Hrun|].
  assert (Hlast : last_trade_time after = time_time (world s3)).
  { subst after. rewrite Hrun. reflexivity. }
  split; [exact Hlast|]. rewrite Hlast. split.
  - intros s' interval Hlast' Hlt.
    unfold ArbitrageBot.wait_for_cooldown, bind, now, gets.
    rewrite Hlast'. apply lt_true in Hlt. rewrite Hlt.
    unfold asyncio_sleep, modify. reflexivity.
  - intros s' Hen Hlast' Hlt.
    unfold ArbitrageBot.find_and_execute_arbitrage. fold vb.
    rewrite Hen, Hlast'. apply lt_true in Hlt. rewrite Hlt. reflexivity.
Qed.

End Execution.

(** C10 on scenario D, where the driver selects the round trip of the pair
    and the second leg reverts: no record is written, the attempt ends at
    time 1004 and that is the last trade time when the handling of the pair
    returns, at time 1009; a cooldown of ten seconds asked then sleeps for
    five more. *)
Lemma C10_after_a_failed_attempt :
  let all_prices :=
    PriceMonitor.get_all_prices Config.default (world Examples.scenario_d) in
  let after :=
    snd (ArbitrageBot.process_pair Config.default all_prices ("MON", "USDC")
           Examples.scenario_d) in
  trade_history after = []
  /\ List.length (submitted after) = 2%nat
  /\ last_trade_time Examples.scenario_d = 0%Q
  /\ (last_trade_time after == 1004)%Q
  /\ (time_time (world after) == 1009)%Q
  /\ (time_time
        (world (snd (ArbitrageBot.wait_for_cooldown 10 after))) == 1014)%Q.
Proof.
  cbv zeta.
  assert (Hselect :
    exists op s1,
      ArbitrageBot.select_volume_boosting Config.default
        (PriceMonitor.get_all_prices Config.default
           (world Examples.scenario_d)) "MON" "USDC" Examples.scenario_d
      = (Ok (Some op), s1)).
  { eexists. eexists. vm_compute. reflexivity. }
  destruct Hselect as [op [s1 Hselect]].
  destruct (@C10_last_trade_time_set_after_every_attempt Toy.t Toy.env
              Config.default
              (PriceMonitor.get_all_prices Config.default
                 (world Examples.scenario_d))
              ("MON", "USDC") op Examples.scenario_d s1 Hselect)
    as [r [s3 [_ [_ [_ [Hwait _]]]]]].
  cbv zeta in Hwait.
  split; [vm_compute; reflexivity|]. split; [vm_compute; reflexivity|].
  split; [reflexivity|]. split; [vm_compute; reflexivity|].
  split; [vm_compute; reflexivity|].
  rewrite (Hwait _ 10%Q eq_refl); [vm_compute; reflexivity|].
  vm_compute. reflexivity.
Defined.

(** C1, as stated, fails on scenario D: the first leg is confirmed with hash
    [0xaaa1], the second is mined with hash [0xbbb2] and reverts; both were
    submitted, the coordinator returns [(False, {profit: 0, profit_pct: 0})],
    the history stays empty and no failed trade is counted. *)
Lemma C1_reverted_second_leg_leaves_no_record :
  let run :=
    ArbitrageBot.execute_cross_dex_arbitrage Config.default
      Examples.round_trip Examples.scenario_d in
  fst run = Ok (false, [("profit", VInt 0); ("profit_pct", VInt 0)])
  /\ map target (submitted (snd run)) = ["hakifi"; "monda"]
  /\ trade_history (snd run) = []
  /\ failed_trades (stats (snd run)) = 0%Z.
Proof. cbv zeta. vm_compute. repeat split; reflexivity. Qed.

(** C1, amended.  On scenario D the first leg reports success, the second
    failure, and the coordinator returns the result of a failed leg with the
    books as they were.  Where both legs are confirmed and the trade amount
    is zero the settlement raises on its division: one failed record is
    written, in which [token_out] holds the input asset. *)
Lemma C1_scenario_d :
  (exists s2,
      ArbitrageBot.execute_cross_dex_arbitrage Config.default
        Examples.round_trip Examples.scenario_d
      = (Ok ArbitrageBot.leg_failed, s2)
      /\ same_books Examples.scenario_d s2)
  /\ (exists failed s3,
        ArbitrageBot.execute_cross_dex_arbitrage Config.default
          Examples.empty_round_trip Examples.both_confirmed
        = (Ok (false, [("error", VStr "float division by zero")]), s3)
        /\ trade_history s3 = [failed]
        /\ dict_get String.eqb failed "status" = Some (VStr "failed")
        /\ dict_get String.eqb failed "type" = Some (VStr "volume_boosting")
        /\ dict_get String.eqb failed "token_out" = Some (VStr "MON")).
Proof.
  split.
  - destruct (@C1_execute_returns_and_records Toy.t Toy.env Config.default
                Examples.round_trip Examples.scenario_d)
      as [ok1 [h1 [a1 [s1 [H1 Hrest]]]]].
    vm_compute in H1. injection H1 as <- <- <- <-.
    cbn [negb] in Hrest. destruct Hrest as [ok2 [h2 [a2 [s2 [H2 Hrest]]]]].
    vm_compute in H2. injection H2 as <- <- <- <-.
    cbn [negb] in Hrest. destruct Hrest as [Hrun Hbooks].
    eexists. split; [exact Hrun | exact Hbooks].
  - destruct (@C1_execute_returns_and_records Toy.t Toy.env Config.default
                Examples.empty_round_trip Examples.both_confirmed)
      as [ok1 [h1 [a1 [s1 [H1 Hrest]]]]].
    vm_compute in H1. injection H1 as <- <- <- <-.
    cbn [negb] in Hrest. destruct Hrest as [ok2 [h2 [a2 [s2 [H2 Hrest]]]]].
    vm_compute in H2. injection H2 as <- <- <- <-.
    cbn [negb] in Hrest.
    match type of Hrest with
    | match ?x with _ => _ end =>
        assert (Hreads : x = Raise "float division by zero")
          by (vm_compute; reflexivity);
        rewrite Hreads in Hrest
    end.
    destruct Hrest as [failed [s3 [Hrun [Hhist [Hstatus [Htype [_ [_ [Hout _]]]]]]]]].
    exists failed, s3. split; [exact Hrun|]. split; [exact Hhist|].
    split; [exact Hstatus|]. split; [exact Htype | exact Hout].
Defined.

(** ** The minimum output submitted *)

Section MinimumOutput.
Context {W : Type} {E : Env W}.
Variable cfg : Config.t.

Let arb := Config.ARBITRAGE_CONFIG cfg.

(** Reading the output of a confirmed swap changes nothing. *)
Lemma realized_output_reads (token_out : Token) (dec : Z) (s : Sys W) :
  snd (TransactionExecutor.realized_output cfg token_out dec s) = s.
Proof.
  unfold TransactionExecutor.realized_output, bind, gets, read, raise, ret,
    TransactionExecutor.get_native_balance.
  destruct (String.eqb token_out "MON"); [reflexivity|].
  destruct (negb (str_in token_out (TransactionExecutor.tokens cfg)));
    [reflexivity|].
  destruct (balanceOf (world s) token_out); reflexivity.
Qed.

Lemma remember_mon_balance_runs (token_out : Token) (s : Sys W) :
  exists s0,
    TransactionExecutor.remember_mon_balance token_out s = (Ok tt, s0)
    /\ world s0 = world s /\ submitted s0 = submitted s.
Proof.
  unfold TransactionExecutor.remember_mon_balance.
  destruct (String.eqb token_out "MON").
  - unfold bind, TransactionExecutor.get_native_balance, gets, modify.
    eexists. split; [reflexivity|]. cbn. auto.
  - unfold ret. eexists. split; [reflexivity|]. auto.
Qed.

Lemma get_pool_deployer_reads (dex_name : Dex) (s : Sys W) :
  exists pool_deployer,
    TransactionExecutor.get_pool_deployer cfg dex_name s = (Ok pool_deployer, s).
Proof.
  unfold TransactionExecutor.get_pool_deployer, bind, gets, ret.
  destruct (dict_mem String.eqb (TransactionExecutor.routers cfg) dex_name
            && Config.is_algebra cfg dex_name); [|eauto].
  destruct (poolDeployer (world s) dex_name); eauto.
Qed.

End MinimumOutput.


(** ** What a confirmed swap reports *)

Section RealizedOutput.
Context {W : Type} {E : Env W}.
Variable cfg : Config.t.

(** For MON the output reported is the balance now less the balance kept
    before the transaction. *)
Lemma realized_output_of_mon (dec : Z) (s : Sys W) (final_balance : Q) :
  TransactionExecutor.get_native_balance s = (Ok final_balance, s) ->
  TransactionExecutor.realized_output cfg "MON" dec s
  = (Ok (final_balance - pre_tx_mon_balance s)%Q, s).
Proof.
  intro H. unfold TransactionExecutor.realized_output, bind, gets, ret.
  cbn [String.eqb Ascii.eqb Bool.eqb]. rewrite H. reflexivity.
Qed.

(** For a token the output reported is the balance now, whatever the
    balance before the transaction. *)
Lemma realized_output_of_a_token (token_out : Token) (dec : Z) (balance : N)
    (s : Sys W) :
  String.eqb token_out "MON" = false ->
  str_in token_out (TransactionExecutor.tokens cfg) = true ->
  balanceOf (world s) token_out = Ok balance ->
  TransactionExecutor.realized_output cfg token_out dec s
  = (Ok (inject_Z (Z.of_N balance) / pow10 dec)%Q, s).
Proof.
  intros Hmon Hin Hbal.
  unfold TransactionExecutor.realized_output. rewrite Hmon, Hin.
  cbn [negb]. unfold bind, read, ret. cbv beta. rewrite Hbal. reflexivity.
Qed.

End RealizedOutput.

(** C3 fails on the code for a token.  The account holds 5 USDC and sells
    1 MON; the sale is confirmed and pays out 3 USDC, so that the balance
    goes from 5 to 8 USDC.  [swap_tokens] reports 8, the balance, and not 3,
    the change of the balance. *)
Lemma C3_token_output_is_the_balance :
  let s := Examples.holding_usdc in
  let run :=
    TransactionExecutor.swap_tokens Config.default "hakifi" "MON" "USDC"
      Toy.one_mon 0 None true s in
  exists amount,
    fst run = Ok (true, Some "0xccc3", amount)
    /\ balanceOf (world s) "USDC" = Ok 5000000%N
    /\ balanceOf (world (snd run)) "USDC" = Ok 8000000%N
    /\ (amount == 8)%Q
    /\ ~ (amount == 3)%Q.
Proof.
  cbv zeta. eexists.
  split; [vm_compute; reflexivity|].
  split; [vm_compute; reflexivity|].
  split; [vm_compute; reflexivity|].
  split; [vm_compute; reflexivity|].
  intro H. vm_compute in H. discriminate H.
Qed.

(** ** The volume counter never goes down *)

Section VolumeCounter.
Context {W : Type} {E : Env W}.
Variable cfg : Config.t.

Let arb := Config.ARBITRAGE_CONFIG cfg.
Let vb := Config.VOLUME_BOOSTING cfg.

Lemma pow10_pos (e : Z) : (0 < pow10 e)%Q.
Proof. unfold pow10. apply Qpower_0_lt. reflexivity. Qed.

(** A token balance in token units is not negative. *)
Lemma token_amount_nonneg (b : N) (dec : Z) :
  (0 <= inject_Z (Z.of_N b) / pow10 dec)%Q.
Proof.
  unfold Qdiv. apply Qmult_le_0_compat.
  - unfold Qle. cbn. lia.
  - apply Qinv_le_0_compat, Qlt_le_weak, pow10_pos.
Qed.





































End VolumeCounter.

(** ** The volume ceiling *)

Section Ceiling.
Context {W : Type} {E : Env W}.
Variable cfg : Config.t.

Let vb := Config.VOLUME_BOOSTING cfg.









End Ceiling.



(** ** Order of the opportunities *)

Section SortOrder.
Variable A : Type.
Variable key : A -> Q.

Lemma insert_desc_sorted (x : A) (l : list A) :
  StronglySorted (fun a b => (key b <= key a)%Q) l ->
  StronglySorted (fun a b => (key b <= key a)%Q) (insert_desc key x l).
Proof.
  induction l as [|y l IH]; intro H; cbn [insert_desc].
  - constructor; constructor.
  - inversion H as [|? ? Hl Hy]; subst.
    destruct (gt (key y) (key x)) eqn:Hgt.
    + apply gt_true in Hgt. constructor; [apply IH; exact Hl|].
      apply (Permutation_Forall (Permutation_sym (insert_desc_perm key x l))).
      constructor; [apply Qlt_le_weak; exact Hgt | exact Hy].
    + apply gt_false in Hgt. constructor; [exact H|].
      constructor; [exact Hgt|].
      eapply Forall_impl; [|exact Hy]. cbv beta. intros z Hz.
      eapply Qle_trans; eassumption.
Qed.

Lemma sort_desc_sorted (l : list A) :
  StronglySorted (fun a b => (key b <= key a)%Q) (sort_desc key l).
Proof.
  induction l as [|x l IH]; cbn [sort_desc]; [constructor|].
  apply insert_desc_sorted. exact IH.
Qed.

End SortOrder.

(** ** The arbitrage evaluator *)

Section ArbitrageEvaluator.
Context {W : Type} {E : Env W}.
Variable cfg : Config.t.
Variable w : W.

Let arb := Config.ARBITRAGE_CONFIG cfg.

Lemma In_dict_set_string (V : Type) (d : dict string V) (k k' : string)
    (v v' : V) :
  In (k', v') (dict_set String.eqb d k v) ->
  In (k', v') d \/ (k' = k /\ v' = v).
Proof.
  induction d as [|[k0 v0] d IH]; cbn [dict_set].
  - intros [H|[]]. injection H as <- <-. right. auto.
  - destruct (String.eqb k k0) eqn:Hk.
    + apply String.eqb_eq in Hk. subst k0.
      intros [H|H]; [injection H as <- <-; right; auto | left; right; exact H].
    + intros [H|H]; [left; left; exact H|].
      destruct (IH H) as [H1|H1]; [left; right; exact H1 | right; exact H1].
Qed.

Lemma dict_set_keeps_key (V : Type) (d : dict string V) (k k' : string)
    (v : V) :
  In k' (dict_keys d) -> In k' (dict_keys (dict_set String.eqb d k v)).
Proof.
  unfold dict_keys. induction d as [|[k0 v0] d IH]; cbn [dict_set map].
  - intros [].
  - destruct (String.eqb k k0); cbn [map fst]; intros [H|H];
      solve [left; exact H | right; auto].
Qed.

Lemma dict_set_has_key (V : Type) (d : dict string V) (k : string) (v : V) :
  In k (dict_keys (dict_set String.eqb d k v)).
Proof.
  unfold dict_keys. induction d as [|[k0 v0] d IH]; cbn [dict_set map].
  - left. reflexivity.
  - destruct (String.eqb k k0) eqn:Hk; cbn [map fst].
    + apply String.eqb_eq in Hk. left. symmetry. exact Hk.
    + right. exact IH.
Qed.

(** What [dex_prices_of] holds after the quotes [f] of some venues: the
    valid quotes, and each venue of valid quote. *)
Lemma dex_prices_fold (f : Dex -> Q * Z * Z) (ds : list Dex) :
  forall acc : dict Dex (Q * Z),
    (forall k v, In (k, v) acc ->
                 v = (price (f k), amount_out (f k))
                 /\ gt (price (f k)) 0 = true) ->
    let final :=
      fold_left
        (fun dex_prices (r : Dex * (Q * Z * Z)) =>
           if gt (fst (fst (snd r))) 0
           then dict_set String.eqb dex_prices (fst r)
                  (fst (fst (snd r)), snd (fst (snd r)))
           else dex_prices)
        (map (fun d => (d, f d)) ds) acc in
    (forall k v, In (k, v) final ->
                 v = (price (f k), amount_out (f k))
                 /\ gt (price (f k)) 0 = true)
    /\ (forall k, In k (dict_keys final) -> In k (dict_keys acc) \/ In k ds)
    /\ (forall k, In k (dict_keys acc) -> In k (dict_keys final))
    /\ (forall k, In k ds -> gt (price (f k)) 0 = true ->
                  In k (dict_keys final)).
Proof.
  induction ds as [|d ds IH]; intros acc Hacc; cbn [map fold_left].
  - cbv zeta. split; [exact Hacc|]. split; [auto|]. split; [auto | intros k []].
  - cbn [fst snd].
    destruct (gt (fst (fst (f d))) 0) eqn:Hgt.
    + specialize (IH (dict_set String.eqb acc d
                        (fst (fst (f d)), snd (fst (f d))))).
      cbv zeta in IH. destruct IH as [I1 [I0 [I2 I3]]].
      { intros k v Hin. apply In_dict_set_string in Hin.
        destruct Hin as [Hin|[-> ->]]; [apply Hacc; exact Hin|].
        split; [reflexivity | exact Hgt]. }
      cbv zeta. split; [exact I1|]. split; [|split].
      * intros k Hk. destruct (I0 k Hk) as [H|H]; [|right; right; exact H].
        unfold dict_keys in H. apply in_map_iff in H.
        destruct H as [[k' v'] [Hk' Hin]]. cbn [fst] in Hk'. subst k'.
        apply In_dict_set_string in Hin.
        destruct Hin as [Hin|[-> _]]; [|right; left; reflexivity].
        left. unfold dict_keys. apply in_map_iff. exists (k, v'). auto.
      * intros k Hk. apply I2. apply dict_set_keeps_key. exact Hk.
      * intros k [<-|Hk] Hp; [apply I2, dict_set_has_key | apply I3; assumption].
    + specialize (IH acc Hacc). cbv zeta in IH.
      destruct IH as [I1 [I0 [I2 I3]]].
      cbv zeta. split; [exact I1|]. split; [|split; [exact I2|]].
      * intros k Hk. destruct (I0 k Hk) as [H|H]; [left | right; right]; exact H.
      * intros k [<-|Hk] Hp; [|apply I3; assumption].
        unfold price in Hp. rewrite Hp in Hgt. discriminate.
Qed.

(** [best_sell] gives a price no entry exceeds, which is the price of the
    entry it names. *)
Lemma best_sell_fold (dp : dict Dex (Q * Z)) :
  forall acc : Q * option Dex * Z,
    let final :=
      fold_left
        (fun best (kv : Dex * (Q * Z)) =>
           if gt (fst (snd kv)) (fst (fst best))
           then (fst (snd kv), Some (fst kv), snd (snd kv))
           else best)
        dp acc in
    (fst (fst acc) <= fst (fst final))%Q
    /\ (forall k p o, In (k, (p, o)) dp -> (p <= fst (fst final))%Q)
    /\ (final = acc
        \/ exists k, In (k, (fst (fst final), snd final)) dp
                     /\ snd (fst final) = Some k).
Proof.
  induction dp as [|[k [p o]] dp IH]; intro acc; cbn [fold_left].
  - cbv zeta. split; [apply Qle_refl|]. split; [intros ? ? ? []|]. left.
    reflexivity.
  - cbn [fst snd]. destruct (gt p (fst (fst acc))) eqn:Hgt.
    + specialize (IH (p, Some k, o)). cbv zeta in IH.
      destruct IH as [I1 [I2 I3]]. cbn [fst snd] in I1.
      apply gt_true in Hgt. cbv zeta. split.
      * eapply Qle_trans; [apply Qlt_le_weak; exact Hgt | exact I1].
      * split.
        -- intros k' p' o' [H|H]; [injection H as <- <- <-; exact I1|].
           eapply I2. exact H.
        -- right. destruct I3 as [->|[k' [Hin Hk']]].
           ++ exists k. cbn [fst snd]. split; [left; reflexivity | reflexivity].
           ++ exists k'. split; [right; exact Hin | exact Hk'].
    + specialize (IH acc). cbv zeta in IH. destruct IH as [I1 [I2 I3]].
      apply gt_false in Hgt. cbv zeta. split; [exact I1|]. split.
      * intros k' p' o' [H|H]; [injection H as <- <- <-|eapply I2; exact H].
        eapply Qle_trans; [exact Hgt | exact I1].
      * destruct I3 as [->|[k' [Hin Hk']]]; [left; reflexivity|].
        right. exists k'. split; [right; exact Hin | exact Hk'].
Qed.

(** What the candidate loop emits. *)
Lemma build_opportunities_emits (token_in token_out : Token) (sell : Dex)
    (obtained : Q) (rs : list (Dex * (Q * Z * Z))) :
  forall (acc l : list Opportunity) (P : Opportunity -> Prop),
    (forall op,
        op_type op = "simple" ->
        op_token_in op = token_in ->
        op_token_out op = token_out ->
        op_token_middle op = Some token_out ->
        op_sell_dex op = sell ->
        op_token_out_amount op = obtained ->
        op_max_trade_amount op = Config.max_trade_amount arb ->
        op_expected_profit op
        = F64.sub (op_final_token_in op) (Config.max_trade_amount arb) ->
        (F64.fl (Config.min_profit_threshold arb) < op_expected_profit op)%Q ->
        P op) ->
    Forall P acc ->
    PriceMonitor.build_opportunities cfg token_in token_out sell obtained rs acc
    = Ok l ->
    Forall P l.
Proof.
  induction rs as [|[buy [[rp rout] rin]] rs IH]; intros acc l P HP Hacc.
  - simpl. intro H. injection H as <-. exact Hacc.
  - cbn [PriceMonitor.build_opportunities]. fold arb.
    destruct (gt rp 0 && (0 <? rout)%Z); [|apply IH; assumption].
    unfold bind_res.
    match goal with
    | |- context [F64.div ?a ?b] => destruct (F64.div a b) as [ratio|e]
    end; [|discriminate].
    match goal with
    | |- context [if ?c then _ else _] => destruct c eqn:Hc
    end; [|apply IH; assumption].
    apply IH; [exact HP|].
    apply Forall_app. split; [exact Hacc|]. constructor; [|constructor].
    apply gt_true in Hc. apply HP; cbn; auto.
Qed.

(** What [check_pair_price_difference] emits. *)
Lemma check_pair_price_difference_emits (token_in token_out : Token)
    (P : Opportunity -> Prop) :
  (forall op,
      op_type op = "simple" ->
      op_token_in op = token_in ->
      op_token_out op = token_out ->
      op_token_middle op = Some token_out ->
      op_max_trade_amount op = Config.max_trade_amount arb ->
      op_expected_profit op
      = F64.sub (op_final_token_in op) (Config.max_trade_amount arb) ->
      (F64.fl (Config.min_profit_threshold arb) < op_expected_profit op)%Q ->
      P op) ->
  Forall P (PriceMonitor.check_pair_price_difference cfg w token_in token_out).
Proof.
  intro HP. unfold PriceMonitor.check_pair_price_difference,
    PriceMonitor.check_pair_price_difference_body.
  match goal with
  | |- context [PriceMonitor.dex_prices_of ?l] =>
      destruct (PriceMonitor.dex_prices_of l) as [|dp dps]
  end; [constructor|].
  destruct (PriceMonitor.best_sell (dp :: dps)) as [[bp [bd|]] bo];
    [|constructor].
  destruct (le bp 0 || (bo <=? 0)%Z); [constructor|].
  unfold bind_res.
  match goal with
  | |- context [PriceMonitor.build_opportunities ?c ?a ?b ?d ?o ?rs []] =>
      destruct (PriceMonitor.build_opportunities c a b d o rs []) as [l|e] eqn:Hb
  end; [|constructor].
  apply sort_desc_Forall.
  eapply build_opportunities_emits; [|constructor|exact Hb].
  intros; apply HP; assumption.
Qed.

(** X1.  What [check_pair_price_difference] returns is in the order of
    decreasing expected profit.  Each opportunity is of type [simple] for
    the pair asked, with the output asset as its middle asset and the
    configured trade amount; its expected profit is the amount bought back
    less the trade amount, and exceeds the minimum profit threshold.  All
    opportunities sell on one venue, for one amount. *)
Theorem X1_arbitrage_opportunities_sorted_and_profitable
    (token_in token_out : Token) :
  let found := PriceMonitor.check_pair_price_difference cfg w token_in
                 token_out in
  StronglySorted
    (fun a b => (op_expected_profit b <= op_expected_profit a)%Q) found
  /\ Forall
       (fun op =>
          (F64.fl (Config.min_profit_threshold arb) < op_expected_profit op)%Q
          /\ op_expected_profit op
             = F64.sub (op_final_token_in op) (Config.max_trade_amount arb)
          /\ op_max_trade_amount op = Config.max_trade_amount arb
          /\ op_type op = "simple"
          /\ op_token_in op = token_in
          /\ op_token_out op = token_out
          /\ op_token_middle op = Some token_out)
       found
  /\ (forall a b,
        In a found -> In b found ->
        op_sell_dex a = op_sell_dex b
        /\ op_token_out_amount a = op_token_out_amount b).
Proof.
  cbv zeta. unfold PriceMonitor.check_pair_price_difference,
    PriceMonitor.check_pair_price_difference_body.
  match goal with
  | |- context [PriceMonitor.dex_prices_of ?l] =>
      destruct (PriceMonitor.dex_prices_of l) as [|dp dps]
  end; [split; [constructor | split; [constructor | intros ? ? []]]|].
  destruct (PriceMonitor.best_sell (dp :: dps)) as [[bp [bd|]] bo];
    [|split; [constructor | split; [constructor | intros ? ? []]]].
  destruct (le bp 0 || (bo <=? 0)%Z);
    [split; [constructor | split; [constructor | intros ? ? []]]|].
  unfold bind_res.
  match goal with
  | |- context [PriceMonitor.build_opportunities ?c ?a ?b ?d ?o ?rs []] =>
      destruct (PriceMonitor.build_opportunities c a b d o rs []) as [l|e] eqn:Hb
  end; [|split; [constructor | split; [constructor | intros ? ? []]]].
  split; [apply sort_desc_sorted|]. split.
  - apply sort_desc_Forall.
    eapply build_opportunities_emits; [|constructor|exact Hb].
    cbv beta. intros; repeat split; assumption.
  - intros a b Ha Hb'.
    apply (proj1 (sort_desc_In _ _ _)) in Ha.
    apply (proj1 (sort_desc_In _ _ _)) in Hb'.
    match type of Hb with
    | PriceMonitor.build_opportunities _ _ _ ?d ?o _ _ = _ =>
        assert (Hall : Forall (fun op => op_sell_dex op = d
                                         /\ op_token_out_amount op = o) l)
    end.
    { eapply build_opportunities_emits; [|constructor|exact Hb].
      cbv beta. intros; split; assumption. }
    rewrite Forall_forall in Hall.
    destruct (Hall a Ha) as [-> ->]. destruct (Hall b Hb') as [-> ->].
    split; reflexivity.
Qed.

(** X2.  An opportunity of [check_pair_price_difference] sells on a venue
    whose forward quote is valid and no lower than the quote of any
    configured venue, and carries the amount that venue quotes. *)
Theorem X2_arbitrage_sells_at_the_best_price (token_in token_out : Token)
    (op : Opportunity) (dex_name : Dex) :
  In op (PriceMonitor.check_pair_price_difference cfg w token_in token_out) ->
  In dex_name (dict_keys (Config.DEX_ROUTERS cfg)) ->
  let amount_in_wei :=
    int_of (Config.max_trade_amount arb
            * pow10 (PriceMonitor.decimals_of cfg token_in)) in
  let quote d :=
    PriceMonitor.get_token_price cfg w d token_in token_out
      (Some amount_in_wei) in
  In (op_sell_dex op) (dict_keys (Config.DEX_ROUTERS cfg))
  /\ (0 < price (quote (op_sell_dex op)))%Q
  /\ (price (quote dex_name) <= price (quote (op_sell_dex op)))%Q
  /\ op_token_out_amount op
     = (inject_Z (amount_out (quote (op_sell_dex op)))
        / pow10 (PriceMonitor.decimals_of cfg token_out))%Q.
Proof.
  intros Hop Hdex. cbv zeta.
  unfold PriceMonitor.check_pair_price_difference,
    PriceMonitor.check_pair_price_difference_body in Hop.
  fold arb in Hop.
  set (quote := fun d =>
         PriceMonitor.get_token_price cfg w d token_in token_out
           (Some (int_of (Config.max_trade_amount arb
                          * pow10 (PriceMonitor.decimals_of cfg token_in))))).
  change (In (op_sell_dex op) (dict_keys (Config.DEX_ROUTERS cfg))
          /\ (0 < price (quote (op_sell_dex op)))%Q
          /\ (price (quote dex_name) <= price (quote (op_sell_dex op)))%Q
          /\ op_token_out_amount op
             = (inject_Z (amount_out (quote (op_sell_dex op)))
                / pow10 (PriceMonitor.decimals_of cfg token_out))%Q).
  pose proof (@dex_prices_fold quote (dict_keys (Config.DEX_ROUTERS cfg)) [])
    as Hfold.
  cbv zeta in Hfold.
  destruct Hfold as [Hentries [Hfrom [_ Hkeys]]]; [intros ? ? []|].
  change (fold_left _ (map (fun d => (d, quote d))
                         (dict_keys (Config.DEX_ROUTERS cfg))) [])
    with (PriceMonitor.dex_prices_of
            (map (fun d => (d, quote d)) (dict_keys (Config.DEX_ROUTERS cfg))))
    in Hentries, Hfrom, Hkeys.
  change (map (fun dex_name0 : Dex =>
                 (dex_name0,
                  PriceMonitor.get_token_price cfg w dex_name0 token_in
                    token_out
                    (Some (int_of (Config.max_trade_amount arb
                                   * pow10 (PriceMonitor.decimals_of cfg
                                              token_in))))))
            (dict_keys (Config.DEX_ROUTERS cfg)))
    with (map (fun d => (d, quote d)) (dict_keys (Config.DEX_ROUTERS cfg)))
    in Hop.
  set (dps := PriceMonitor.dex_prices_of
                (map (fun d => (d, quote d))
                   (dict_keys (Config.DEX_ROUTERS cfg)))) in *.
  pose proof (@best_sell_fold dps ((-1)%Q, None, 0%Z)) as Hbest.
  cbv zeta in Hbest.
  change (fold_left _ dps ((-1)%Q, None, 0%Z))
    with (PriceMonitor.best_sell dps) in Hbest.
  destruct dps as [|dp dps'] eqn:Hdps; [destruct Hop|].
  destruct (PriceMonitor.best_sell (dp :: dps')) as [[bp [bd|]] bo];
    [|destruct Hop].
  cbn [fst snd] in Hbest. destruct Hbest as [_ [Hmax Hwho]].
  destruct (le bp 0 || (bo <=? 0)%Z) eqn:Hpos; [destruct Hop|].
  apply orb_false_elim in Hpos. destruct Hpos as [Hbp _].
  assert (Hbp' : (0 < bp)%Q).
  { unfold le in Hbp. apply Qnot_le_lt. intro Hle.
    apply Qle_bool_iff in Hle. rewrite Hle in Hbp. discriminate. }
  unfold bind_res in Hop.
  match type of Hop with
  | context [PriceMonitor.build_opportunities ?c ?a ?b ?d ?o ?rs []] =>
      destruct (PriceMonitor.build_opportunities c a b d o rs []) as [l|e] eqn:Hb
  end; [|destruct Hop].
  apply (proj1 (sort_desc_In _ _ _)) in Hop.
  match type of Hb with
  | PriceMonitor.build_opportunities _ _ _ ?d ?o _ _ = _ =>
      assert (Hall : Forall (fun op => op_sell_dex op = d
                                       /\ op_token_out_amount op = o) l)
  end.
  { eapply build_opportunities_emits; [|constructor|exact Hb].
    cbv beta. intros; split; assumption. }
  rewrite Forall_forall in Hall. destruct (Hall op Hop) as [Hsell Hamount].
  destruct Hwho as [Hwho|[k [Hin Hk]]]; [discriminate Hwho|].
  injection Hk as <-.
  assert (Hbd : In bd (dict_keys (Config.DEX_ROUTERS cfg))).
  { destruct (Hfrom bd) as [[]|H]; [|exact H].
    unfold dict_keys. apply in_map_iff. exists (bd, (bp, bo)). auto. }
  destruct (Hentries _ _ Hin) as [Hv Hgt]. injection Hv as -> ->.
  rewrite Hsell, Hamount.
  split; [exact Hbd|]. split; [exact Hbp'|]. split; [|reflexivity].
  destruct (gt (price (quote dex_name)) 0) eqn:Hq.
  - specialize (Hkeys dex_name Hdex Hq). unfold dict_keys in Hkeys.
    apply in_map_iff in Hkeys. destruct Hkeys as [[k [p o]] [Hk Hin']].
    cbn [fst] in Hk. subst k.
    destruct (Hentries _ _ Hin') as [Hv _]. injection Hv as -> ->.
    eapply Hmax. exact Hin'.
  - apply gt_false in Hq. eapply Qle_trans; [exact Hq|].
    apply Qlt_le_weak. exact Hbp'.
Qed.

End ArbitrageEvaluator.

(** ** The boosting evaluator *)

Section BoostingEvaluator.
Context {W : Type} {E : Env W}.
Variable cfg : Config.t.

Let vb := Config.VOLUME_BOOSTING cfg.

(** [best_forward] names an entry of price above zero that no entry
    exceeds, or no venue when no price is above zero. *)
Lemma best_forward_fold (forward : dict Dex Q) :
  forall acc : option Dex * Q,
    let final :=
      fold_left
        (fun best (kv : Dex * Q) =>
           if gt (snd kv) (snd best) then (Some (fst kv), snd kv) else best)
        forward acc in
    (snd acc <= snd final)%Q
    /\ (forall d p, In (d, p) forward -> (p <= snd final)%Q)
    /\ (final = acc
        \/ exists d, fst final = Some d /\ In (d, snd final) forward).
Proof.
  induction forward as [|[d p] forward IH]; intro acc; cbn [fold_left].
  - cbv zeta. split; [apply Qle_refl|]. split; [intros ? ? []|]. left.
    reflexivity.
  - cbn [fst snd]. destruct (gt p (snd acc)) eqn:Hgt.
    + specialize (IH (Some d, p)). cbv zeta in IH.
      destruct IH as [I1 [I2 I3]]. cbn [fst snd] in I1.
      apply gt_true in Hgt. cbv zeta. split.
      * eapply Qle_trans; [apply Qlt_le_weak; exact Hgt | exact I1].
      * split.
        -- intros d' p' [H|H]; [injection H as <- <-; exact I1|].
           eapply I2. exact H.
        -- right. destruct I3 as [->|[d' [Hd' Hin]]].
           ++ exists d. cbn [fst snd]. split; [reflexivity | left; reflexivity].
           ++ exists d'. split; [exact Hd' | right; exact Hin].
    + specialize (IH acc). cbv zeta in IH. destruct IH as [I1 [I2 I3]].
      apply gt_false in Hgt. cbv zeta. split; [exact I1|]. split.
      * intros d' p' [H|H]; [injection H as <- <-|eapply I2; exact H].
        eapply Qle_trans; [exact Hgt | exact I1].
      * destruct I3 as [->|[d' [Hd' Hin]]]; [left; reflexivity|].
        right. exists d'. split; [exact Hd' | right; exact Hin].
Qed.

Lemma best_forward_best (forward : dict Dex Q) (d : Dex) (p : Q) :
  PriceMonitor.best_forward forward = (Some d, p) ->
  In (d, p) forward
  /\ (forall d' p', In (d', p') forward -> (p' <= p)%Q).
Proof.
  intro H. pose proof (@best_forward_fold forward (None, 0%Q)) as Hf.
  cbv zeta in Hf.
  change (fold_left _ forward (None, 0%Q))
    with (PriceMonitor.best_forward forward) in Hf.
  rewrite H in Hf. cbn [fst snd] in Hf. destruct Hf as [_ [Hmax Hwho]].
  split; [|exact Hmax].
  destruct Hwho as [Hwho|[d' [Hd' Hin]]]; [discriminate Hwho|].
  injection Hd' as <-. exact Hin.
Qed.

(** What the evaluation of one pair emits, once its trade amount is
    drawn. *)
Lemma evaluate_boosting_emits (prices : PriceMap) (token_in token_out : Token)
    (trade_amount : Q) (acc l : list Opportunity) (P : Opportunity -> Prop) :
  (forall op forward sell_price,
      op_type op = "volume_boosting" ->
      op_token_in op = token_in ->
      op_token_out op = token_out ->
      op_buy_dex op = Config.target_dex vb ->
      op_max_trade_amount op = trade_amount ->
      ~ (trade_amount == 0)%Q ->
      dict_get pair_eqb prices (token_in, token_out) = Some forward ->
      In (op_sell_dex op, sell_price) forward ->
      (forall d p, In (d, p) forward -> (p <= sell_price)%Q) ->
      op_token_out_amount op = F64.mul trade_amount sell_price ->
      op_expected_profit op = F64.sub (op_final_token_in op) trade_amount ->
      (- F64.fl (Config.loss_tolerance vb)
       <= op_expected_profit_percentage op)%Q ->
      P op) ->
  Forall P acc ->
  PriceMonitor.evaluate_boosting cfg prices token_in token_out trade_amount acc
  = Ok l ->
  Forall P l /\ (List.length l <= S (List.length acc))%nat.
Proof.
  intros HP Hacc. unfold PriceMonitor.evaluate_boosting. fold vb.
  destruct (dict_get pair_eqb prices (token_in, token_out)) as [forward|] eqn:Hf;
    [|intro H; injection H as <-; auto].
  destruct (PriceMonitor.best_forward forward) as [[sell|] p] eqn:Hbest;
    [|intro H; injection H as <-; auto].
  destruct (negb (truthy sell)); [intro H; injection H as <-; auto|].
  destruct (dict_get pair_eqb prices (token_out, token_in)) as [reverse|];
    [|intro H; injection H as <-; auto].
  destruct (dict_get String.eqb reverse (Config.target_dex vb)) as [buy|];
    [|intro H; injection H as <-; auto].
  unfold bind_res.
  match goal with
  | |- context [F64.div ?a ?b] =>
      destruct (F64.div a b) as [ratio|e] eqn:Hdiv
  end; [|discriminate].
  apply F64_div_Ok in Hdiv. destruct Hdiv as [Hnz _].
  match goal with
  | |- context [if ?c then _ else _] => destruct c eqn:Hge
  end; intro H; injection H as <-; [|auto].
  apply best_forward_best in Hbest. destruct Hbest as [Hin Hmax].
  apply ge_true in Hge. split.
  - apply Forall_app. split; [exact Hacc|]. constructor; [|constructor].
    eapply HP; cbn; eauto.
  - rewrite length_app. cbn. lia.
Qed.

Lemma draws_Forall_tail (U : Q -> Prop) (n : nat) (w : W) :
  Forall U (draws (S n) w) -> Forall U (draws n w).
Proof.
  revert w. induction n as [|n IH]; intros w H; [constructor|].
  cbn [draws] in *. destruct (random_random w) as [u w'].
  inversion H as [|? ? Hu Hrest]; subst. constructor; [exact Hu|].
  apply IH. exact Hrest.
Qed.

(** What the loop over the pairs emits: for every pair at most one
    opportunity, of a trade amount drawn for it. *)
Lemma volume_boosting_pairs_emits (prices : PriceMap) (U : Q -> Prop)
    (P : Opportunity -> Prop) :
  (forall op u forward sell_price,
      U u ->
      let trade_amount :=
        round2 (Config.vb_min_trade_amount vb
                + (Config.vb_max_trade_amount vb
                   - Config.vb_min_trade_amount vb) * u)%Q in
      op_type op = "volume_boosting" ->
      op_buy_dex op = Config.target_dex vb ->
      op_max_trade_amount op = trade_amount ->
      ~ (trade_amount == 0)%Q ->
      dict_get pair_eqb prices (op_token_in op, op_token_out op)
      = Some forward ->
      In (op_sell_dex op, sell_price) forward ->
      (forall d p, In (d, p) forward -> (p <= sell_price)%Q) ->
      op_token_out_amount op = F64.mul trade_amount sell_price ->
      op_expected_profit op = F64.sub (op_final_token_in op) trade_amount ->
      (- F64.fl (Config.loss_tolerance vb)
       <= op_expected_profit_percentage op)%Q ->
      P op) ->
  forall (trading_pairs : list string) (acc l : list Opportunity) (w : W),
    Forall U (draws (List.length trading_pairs) w) ->
    Forall P acc ->
    fst (PriceMonitor.volume_boosting_pairs cfg prices trading_pairs acc w)
    = Ok l ->
    Forall P l
    /\ (List.length l <= List.length acc + List.length trading_pairs)%nat.
Proof.
  intro HP.
  induction trading_pairs as [|pair_str rest IH]; intros acc l w HU Hacc.
  - cbn. intro H. injection H as <-. split; [exact Hacc | lia].
  - cbn [PriceMonitor.volume_boosting_pairs]. unfold bind.
    unfold PriceMonitor.volume_boosting_pair. fold vb.
    assert (Hskip :
      fst (PriceMonitor.volume_boosting_pairs cfg prices rest acc w) = Ok l ->
      Forall P l
      /\ (List.length l <= List.length acc + List.length (pair_str :: rest))%nat).
    { intro H. apply IH in H; [|apply draws_Forall_tail; exact HU|exact Hacc].
      destruct H as [H1 H2]. split; [exact H1|]. cbn [List.length]. lia. }
    destruct (split_on "-" pair_str) as [|token_in [|token_out [|x xs]]];
      try exact Hskip.
    clear Hskip.
    unfold bind, PriceMonitor.random_uniform, of_res.
    cbn [List.length draws] in HU.
    destruct (random_random w) as [u w'].
    inversion HU as [|? ? Hu Hrest]; subst.
    match goal with
    | |- context [PriceMonitor.evaluate_boosting ?c ?p ?a ?b ?t ?k] =>
        destruct (PriceMonitor.evaluate_boosting c p a b t k) as [found|e] eqn:Hev
    end; [|discriminate].
    eapply evaluate_boosting_emits in Hev; [|clear Hev|exact Hacc].
    + destruct Hev as [Hfound Hlen]. intro H.
      apply IH in H; [|exact Hrest|exact Hfound].
      destruct H as [H1 H2]. split; [exact H1|]. cbn [List.length]. lia.
    + fold vb. intros op forward sell_price H1 H2 H3 H4 H5 H6 H7 H8 H9 H10 H11 H12.
      eapply (HP op u forward sell_price Hu); subst; eauto.
Qed.

(** X3.  When [find_volume_boosting_opportunities] returns, the list is in
    the order of decreasing expected profit percentage and is no longer than
    the list of pairs.  Each opportunity is of type [volume_boosting], buys
    back on the target venue, sells on a venue of the price map whose
    forward price no venue of the map exceeds, for the trade amount times
    that price, and its expected profit percentage is at least minus the
    loss tolerance.  With the mode disabled, or a target venue that is not
    configured, the list is empty and no random value is drawn. *)
Theorem X3_boosting_opportunities_sorted_and_tolerated
    (trading_pairs : list string) (prices : PriceMap) (w : W) :
  let run :=
    PriceMonitor.find_volume_boosting_opportunities cfg trading_pairs prices
      w in
  match fst run with
  | Ok found =>
      StronglySorted
        (fun a b => (op_expected_profit_percentage b
                     <= op_expected_profit_percentage a)%Q) found
      /\ (List.length found <= List.length trading_pairs)%nat
      /\ Forall
           (fun op =>
              op_type op = "volume_boosting"
              /\ op_buy_dex op = Config.target_dex vb
              /\ (- F64.fl (Config.loss_tolerance vb)
                  <= op_expected_profit_percentage op)%Q
              /\ op_expected_profit op
                 = F64.sub (op_final_token_in op) (op_max_trade_amount op)
              /\ exists forward sell_price,
                  dict_get pair_eqb prices (op_token_in op, op_token_out op)
                  = Some forward
                  /\ In (op_sell_dex op, sell_price) forward
                  /\ (forall d p, In (d, p) forward -> (p <= sell_price)%Q)
                  /\ op_token_out_amount op
                     = F64.mul (op_max_trade_amount op) sell_price)
           found
  | Raise _ => True
  end
  /\ (Config.enabled vb = false
      \/ dict_mem String.eqb (Config.DEX_ROUTERS cfg) (Config.target_dex vb)
         = false ->
      run = (Ok [], w)).
Proof.
  cbv zeta. unfold PriceMonitor.find_volume_boosting_opportunities. fold vb.
  split.
  - destruct (negb (Config.enabled vb));
      [cbn; split; [constructor | split; [lia | constructor]]|].
    destruct (negb (dict_mem String.eqb (Config.DEX_ROUTERS cfg)
                      (Config.target_dex vb)));
      [cbn; split; [constructor | split; [lia | constructor]]|].
    unfold bind.
    destruct (PriceMonitor.volume_boosting_pairs cfg prices trading_pairs [] w)
      as [[found|e] w'] eqn:Hrun; [|exact I].
    cbn [fst ret].
    pose proof (f_equal fst Hrun) as Hfst. cbn [fst] in Hfst.
    eapply (@volume_boosting_pairs_emits prices (fun _ => True)) in Hfst.
    + destruct Hfst as [Hall Hlen]. split; [apply sort_desc_sorted|].
      split; [rewrite sort_desc_length; exact Hlen|].
      apply sort_desc_Forall. exact Hall.
    + cbv zeta beta. intros op u forward sell_price _ H1 H2 H3 H4 H5 H6 H7 H8 H9 H10.
      rewrite H3. repeat split; try assumption.
      exists forward, sell_price. repeat split; assumption.
    + clear. generalize (List.length trading_pairs). intro n. revert w.
      induction n as [|n IH]; intro w; cbn [draws]; [constructor|].
      destruct (random_random w) as [u w']. constructor; [exact I | apply IH].
    + constructor.
  - intros [H|H]; rewrite H; [reflexivity|].
    destruct (negb (Config.enabled vb)); reflexivity.
Qed.

End BoostingEvaluator.

(** ** The trade amount drawn *)

Section TradeAmount.
Context {W : Type} {E : Env W}.
Variable cfg : Config.t.

Let vb := Config.VOLUME_BOOSTING cfg.

Lemma round2_mono (x y : Q) : (x <= y)%Q -> (round2 x <= round2 y)%Q.
Proof.
  intro H. unfold round2, Qdiv. apply Qmult_le_compat_r; [|discriminate].
  rewrite <- Zle_Qle. apply round_half_even_mono.
  apply Qmult_le_compat_r; [exact H | discriminate].
Qed.

Lemma uniform_between (a b u : Q) :
  (a <= b)%Q -> (0 <= u)%Q -> (u <= 1)%Q ->
  (a <= a + (b - a) * u)%Q /\ (a + (b - a) * u <= b)%Q.
Proof.
  intros Hab Hu0 Hu1.
  assert (Hd : (0 <= b - a)%Q) by (apply -> Qle_minus_iff; exact Hab).
  split.
  - apply Qle_trans with (a + 0)%Q; [rewrite Qplus_0_r; apply Qle_refl|].
    apply Qplus_le_compat; [apply Qle_refl|].
    apply Qmult_le_0_compat; assumption.
  - assert (Heq : (b == a + (b - a) * 1)%Q) by ring.
    rewrite Heq at 2. apply Qplus_le_compat; [apply Qle_refl|].
    rewrite (Qmult_comm (b - a) u), (Qmult_comm (b - a) 1).
    apply Qmult_le_compat_r; assumption.
Qed.

(** The loop over the pairs returns when no amount drawn is zero. *)
Lemma volume_boosting_pairs_returns (prices : PriceMap)
    (trading_pairs : list string) :
  forall (acc : list Opportunity) (w : W),
    Forall (fun u =>
              ~ (round2 (Config.vb_min_trade_amount vb
                         + (Config.vb_max_trade_amount vb
                            - Config.vb_min_trade_amount vb) * u) == 0)%Q)
      (draws (List.length trading_pairs) w) ->
    exists l,
      fst (PriceMonitor.volume_boosting_pairs cfg prices trading_pairs acc w)
      = Ok l.
Proof.
  induction trading_pairs as [|pair_str rest IH]; intros acc w HU.
  - cbn. eauto.
  - cbn [PriceMonitor.volume_boosting_pairs]. unfold bind.
    unfold PriceMonitor.volume_boosting_pair. fold vb.
    assert (Hskip :
      exists l,
        fst (PriceMonitor.volume_boosting_pairs cfg prices rest acc w) = Ok l).
    { apply IH. apply draws_Forall_tail. exact HU. }
    destruct (split_on "-" pair_str) as [|token_in [|token_out [|x xs]]];
      try exact Hskip.
    clear Hskip.
    unfold bind, PriceMonitor.random_uniform, of_res.
    cbn [List.length draws] in HU.
    destruct (random_random w) as [u w'].
    inversion HU as [|? ? Hu Hrest]; subst.
    match goal with
    | |- context [PriceMonitor.evaluate_boosting ?c ?p ?a ?b ?t ?k] =>
        destruct (PriceMonitor.evaluate_boosting c p a b t k) as [found|e] eqn:Hev
    end; [apply IH; exact Hrest|].
    exfalso. revert Hev. unfold PriceMonitor.evaluate_boosting. fold vb.
    repeat match goal with
           | |- context [match ?x with _ => _ end] =>
               lazymatch x with
               | F64.div _ _ => fail
               | _ => destruct x; try discriminate
               end
           end.
    unfold bind_res.
    match goal with
    | |- context [F64.div ?a ?b] =>
        rewrite (F64_div_nonzero a Hu)
    end.
    match goal with
    | |- context [if ?c then _ else _] => destruct c; discriminate
    end.
Qed.

(** X4.  With a minimum trade amount that rounds to more than zero and is
    at most the maximum, and random values between 0 and 1,
    [find_volume_boosting_opportunities] returns (it has no [try], and a
    trade amount of zero would raise): every opportunity has a trade amount
    between the two configured bounds, each rounded to two decimals. *)
Theorem X4_boosting_trade_amount_within_bounds (trading_pairs : list string)
    (prices : PriceMap) (w : W) :
  (0 < round2 (Config.vb_min_trade_amount vb))%Q ->
  (Config.vb_min_trade_amount vb <= Config.vb_max_trade_amount vb)%Q ->
  Forall (fun u => 0 <= u <= 1)%Q (draws (List.length trading_pairs) w) ->
  exists found,
    fst (PriceMonitor.find_volume_boosting_opportunities cfg trading_pairs
           prices w) = Ok found
    /\ Forall
         (fun op =>
            (round2 (Config.vb_min_trade_amount vb) <= op_max_trade_amount op)%Q
            /\ (op_max_trade_amount op
                <= round2 (Config.vb_max_trade_amount vb))%Q)
         found.
Proof.
  intros Hpos Hle HU.
  assert (Hbounds : forall u, (0 <= u <= 1)%Q ->
            (round2 (Config.vb_min_trade_amount vb)
             <= round2 (Config.vb_min_trade_amount vb
                        + (Config.vb_max_trade_amount vb
                           - Config.vb_min_trade_amount vb) * u))%Q
            /\ (round2 (Config.vb_min_trade_amount vb
                        + (Config.vb_max_trade_amount vb
                           - Config.vb_min_trade_amount vb) * u)
                <= round2 (Config.vb_max_trade_amount vb))%Q).
  { intros u [Hu0 Hu1].
    destruct (uniform_between Hle Hu0 Hu1) as [H1 H2].
    split; apply round2_mono; assumption. }
  unfold PriceMonitor.find_volume_boosting_opportunities. fold vb.
  destruct (negb (Config.enabled vb)); [exists []; split; [reflexivity|constructor]|].
  destruct (negb (dict_mem String.eqb (Config.DEX_ROUTERS cfg)
                    (Config.target_dex vb)));
    [exists []; split; [reflexivity|constructor]|].
  unfold bind.
  destruct (@volume_boosting_pairs_returns prices trading_pairs [] w)
    as [l Hl].
  { eapply Forall_impl; [|exact HU]. cbv beta. intros u Hu Hz.
    destruct (Hbounds u Hu) as [H1 _]. rewrite Hz in H1.
    apply (Qlt_irrefl 0). eapply Qlt_le_trans; eassumption. }
  pose proof Hl as Hl'.
  eapply (@volume_boosting_pairs_emits _ _ cfg prices (fun u => 0 <= u <= 1)%Q)
    in Hl'; [| |exact HU|constructor].
  - destruct Hl' as [Hall _].
    destruct (PriceMonitor.volume_boosting_pairs cfg prices trading_pairs [] w)
      as [[found|e] w']; cbn [fst] in Hl; [|discriminate].
    injection Hl as ->. exists (sort_desc op_expected_profit_percentage l).
    split; [reflexivity|]. apply sort_desc_Forall. exact Hall.
  - fold vb. cbv zeta beta. intros op u forward sell_price Hu _ _ H3 _ _ _ _ _ _ _.
    rewrite H3. apply Hbounds. exact Hu.
Qed.

End TradeAmount.

(** ** The other evaluators of price_monitor.py *)

Section OtherEvaluators.
Context {W : Type} {E : Env W}.
Variable cfg : Config.t.
Variable w : W.

Let arb := Config.ARBITRAGE_CONFIG cfg.

(** X5.  On the price map of [get_all_prices], [get_price_from_cache] gives
    the price stored for the pair on the venue; when none is stored and one
    is stored for the reverse pair, its reciprocal; and 0 when neither is
    stored.  The price given is never negative, and is 0 only when neither
    direction is stored. *)
Theorem X5_price_from_cache (token_in token_out : Token) (dex_name : Dex) :
  let prices := PriceMonitor.get_all_prices cfg w in
  let stored (a b : Token) : option Q :=
    match dict_get pair_eqb prices (a, b) with
    | Some pair_prices => dict_get String.eqb pair_prices dex_name
    | None => None
    end in
  let cached :=
    PriceMonitorMore.get_price_from_cache prices token_in token_out dex_name in
  match stored token_in token_out, stored token_out token_in with
  | Some p, _ => cached = p /\ (0 < cached)%Q
  | None, Some p => (cached * p == 1)%Q /\ (0 < cached)%Q
  | None, None => cached = 0%Q
  end.
Proof.
  cbv zeta. unfold PriceMonitorMore.get_price_from_cache.
  assert (Hpos : forall a b p,
            match dict_get pair_eqb (PriceMonitor.get_all_prices cfg w) (a, b)
            with
            | Some pair_prices => dict_get String.eqb pair_prices dex_name
            | None => None
            end = Some p -> (0 < p)%Q).
  { intros a b p.
    destruct (dict_get pair_eqb (PriceMonitor.get_all_prices cfg w) (a, b))
      as [pp|] eqn:Hpp; [|discriminate].
    apply get_all_prices_entry in Hpp. destruct Hpp as [_ ->].
    intro H. apply pair_prices_of_valid in H. apply H. }
  pose proof (Hpos token_in token_out) as Hd.
  pose proof (Hpos token_out token_in) as Hr. clear Hpos.
  destruct (match dict_get pair_eqb (PriceMonitor.get_all_prices cfg w)
                    (token_in, token_out) with
            | Some pair_prices => dict_get String.eqb pair_prices dex_name
            | None => None
            end) as [p|] eqn:Hs.
  - split; [reflexivity | apply Hd; exact Hs].
  - clear Hd Hs.
    destruct (match dict_get pair_eqb (PriceMonitor.get_all_prices cfg w)
                      (token_out, token_in) with
              | Some pair_prices => dict_get String.eqb pair_prices dex_name
              | None => None
              end) as [p|] eqn:Hs; [|reflexivity].
    specialize (Hr p Hs).
    assert (Hgt : gt p 0 = true) by (apply gt_true; exact Hr).
    rewrite Hgt. split.
    + unfold Qdiv. rewrite Qmult_1_l, Qmult_comm. apply Qmult_inv_r.
      intro Hz. rewrite Hz in Hr. discriminate Hr.
    + unfold Qdiv. rewrite Qmult_1_l. apply Qinv_lt_0_compat. exact Hr.
Qed.

(** X6.  What [find_arbitrage_opportunities] returns is in the order of
    decreasing expected profit, and holds, once each, the opportunities of
    [check_pair_price_difference] for every configured pair and for its
    reverse; each of them exceeds the minimum profit threshold. *)
Theorem X6_all_arbitrage_opportunities_sorted :
  let found := PriceMonitorMore.find_arbitrage_opportunities cfg w in
  StronglySorted
    (fun a b => (op_expected_profit b <= op_expected_profit a)%Q) found
  /\ Permutation found
       (flat_map
          (fun token_pair : Token * Token =>
             PriceMonitor.check_pair_price_difference cfg w (fst token_pair)
               (snd token_pair)
             ++ PriceMonitor.check_pair_price_difference cfg w
                  (snd token_pair) (fst token_pair))
          (Config.TOKEN_PAIRS cfg))
  /\ Forall
       (fun op => (F64.fl (Config.min_profit_threshold arb) < op_expected_profit op)%Q)
       found.
Proof.
  cbv zeta. unfold PriceMonitorMore.find_arbitrage_opportunities.
  assert (Hflat :
    List.concat
      (flat_map
         (fun token_pair : Token * Token =>
            [ PriceMonitor.check_pair_price_difference cfg w (fst token_pair)
                (snd token_pair);
              PriceMonitor.check_pair_price_difference cfg w (snd token_pair)
                (fst token_pair) ])
         (Config.TOKEN_PAIRS cfg))
    = flat_map
        (fun token_pair : Token * Token =>
           PriceMonitor.check_pair_price_difference cfg w (fst token_pair)
             (snd token_pair)
           ++ PriceMonitor.check_pair_price_difference cfg w
                (snd token_pair) (fst token_pair))
        (Config.TOKEN_PAIRS cfg)).
  { induction (Config.TOKEN_PAIRS cfg) as [|p l IH]; [reflexivity|].
    cbn [flat_map List.concat app]. rewrite IH, app_assoc. reflexivity. }
  rewrite Hflat.
  split; [apply sort_desc_sorted|]. split; [apply sort_desc_perm|].
  apply sort_desc_Forall. apply Forall_flat_map. apply Forall_forall.
  intros p _. apply Forall_app.
  split; apply check_pair_price_difference_emits; intros; assumption.
Qed.

(** X7.  [find_triangular_arbitrage] reports an opportunity only for a path
    of three tokens.  What it reports names the venue, carries the
    configured trade amount, and has a ratio that is the product of three
    quotes of the venue, each above zero; its profit percentage is that
    ratio less 1, times 100, and exceeds the price difference threshold, and
    its profit amount is the trade amount times the ratio, less the trade
    amount. *)
Theorem X7_triangular_opportunity (dex_name : Dex) (tokens : list Token) :
  match PriceMonitorMore.find_triangular_arbitrage cfg w dex_name tokens with
  | Some t =>
      exists token0 token1 token2 amount0 amount1 amount2,
        tokens = [token0; token1; token2]
        /\ let p01 := price (PriceMonitor.get_token_price cfg w dex_name token0
                               token1 (Some amount0)) in
           let p12 := price (PriceMonitor.get_token_price cfg w dex_name token1
                               token2 (Some amount1)) in
           let p20 := price (PriceMonitor.get_token_price cfg w dex_name token2
                               token0 (Some amount2)) in
           (0 < p01)%Q /\ (0 < p12)%Q /\ (0 < p20)%Q
           /\ PriceMonitorMore.tri_triangular_ratio t = (p01 * p12 * p20)%Q
           /\ PriceMonitorMore.tri_profit_percent t
              = ((PriceMonitorMore.tri_triangular_ratio t - 1) * 100)%Q
           /\ (Config.price_diff_threshold arb
               < PriceMonitorMore.tri_profit_percent t)%Q
           /\ PriceMonitorMore.tri_profit_amount t
              = (Config.max_trade_amount arb
                 * PriceMonitorMore.tri_triangular_ratio t
                 - Config.max_trade_amount arb)%Q
           /\ PriceMonitorMore.tri_max_trade_amount t
              = Config.max_trade_amount arb
           /\ PriceMonitorMore.tri_dex t = dex_name
  | None => True
  end
  /\ (List.length tokens <> 3%nat ->
      PriceMonitorMore.find_triangular_arbitrage cfg w dex_name tokens = None).
Proof.
  split.
  - unfold PriceMonitorMore.find_triangular_arbitrage. fold arb.
    destruct tokens as [|t0 [|t1 [|t2 [|t3 l]]]]; try exact I.
    cbv zeta.
    match goal with
    | |- context [gt ?p 0] => destruct (gt p 0) eqn:H01
    end; [|exact I].
    match goal with
    | |- match (if gt ?p 0 then _ else _) with _ => _ end =>
        destruct (gt p 0) eqn:H12
    end; [|exact I].
    match goal with
    | |- context [if ?a || ?b || le ?p 0 then _ else _] =>
        destruct (a || b || le p 0) eqn:Hle
    end; [exact I|].
    match goal with
    | |- context [if gt ?pp ?th then _ else _] => destruct (gt pp th) eqn:Hth
    end; [|exact I].
    apply gt_true in H01, H12, Hth.
    apply orb_false_elim in Hle. destruct Hle as [_ H20].
    unfold le in H20.
    do 6 eexists. split; [reflexivity|]. cbv zeta. cbn.
    split; [exact H01|]. split; [exact H12|]. split.
    { apply Qnot_le_lt. intro Hc. apply Qle_bool_iff in Hc.
      rewrite Hc in H20. discriminate. }
    repeat split; try reflexivity. exact Hth.
  - intro Hlen. unfold PriceMonitorMore.find_triangular_arbitrage.
    destruct tokens as [|t0 [|t1 [|t2 [|t3 l]]]]; try reflexivity.
    exfalso. apply Hlen. reflexivity.
Qed.

End OtherEvaluators.

(** ** Relations the computations respect *)

Section StepFacts.
Context {W : Type} {E : Env W}.
Variable R : Sys W -> Sys W -> Prop.
Hypothesis R_refl : forall s, R s s.
Hypothesis R_trans : forall s1 s2 s3, R s1 s2 -> R s2 s3 -> R s1 s3.

Lemma respects_ret (A : Type) (a : A) : respects R (ret a).
Proof. intro s. apply R_refl. Qed.

Lemma respects_raise (A : Type) (e : string) : respects R (A := A) (raise e).
Proof. intro s. apply R_refl. Qed.

Lemma respects_gets (A : Type) (f : Sys W -> A) : respects R (gets f).
Proof. intro s. apply R_refl. Qed.

Lemma respects_read (A : Type) (f : Sys W -> res A) : respects R (read f).
Proof. intro s. apply R_refl. Qed.

Lemma respects_of_res (A : Type) (r : res A) : respects R (of_res r).
Proof. intro s. apply R_refl. Qed.

Lemma respects_now : respects R now.
Proof. intro s. apply R_refl. Qed.

Lemma respects_modify (f : Sys W -> Sys W) :
  (forall s, R s (f s)) -> respects R (modify f).
Proof. intros H s. apply H. Qed.

Lemma respects_bind (A B : Type) (m : M (Sys W) A) (k : A -> M (Sys W) B) :
  respects R m -> (forall a, respects R (k a)) -> respects R (bind m k).
Proof.
  intros Hm Hk s. unfold bind. specialize (Hm s).
  destruct (m s) as [[a|e] s1]; cbn [snd] in *; [|exact Hm].
  eapply R_trans; [exact Hm | apply Hk].
Qed.

Lemma respects_try (A : Type) (m : M (Sys W) A) (h : string -> M (Sys W) A) :
  respects R m -> (forall e, respects R (h e)) -> respects R (try_except m h).
Proof.
  intros Hm Hh s. unfold try_except. specialize (Hm s).
  destruct (m s) as [[a|e] s1]; cbn [snd] in *; [exact Hm|].
  eapply R_trans; [exact Hm | apply Hh].
Qed.

Lemma respects_for_each (A : Type) (l : list A) (body : A -> M (Sys W) unit) :
  (forall a, respects R (body a)) -> respects R (for_each l body).
Proof.
  intro H. induction l as [|a l IH]; cbn [for_each]; [apply respects_ret|].
  apply respects_bind; [apply H | intros _; exact IH].
Qed.

(** *** The driver, given what its steps respect *)

Variable cfg : Config.t.

Hypothesis R_world : forall s w', R s (set_world w' s).
Hypothesis R_stamp : forall s t, R s (set_last_trade_time t s).
Hypothesis R_save : forall s, R s (snd (ArbitrageBot.save_trade_history s)).
Hypothesis R_execute :
  forall op, respects R (ArbitrageBot.execute_cross_dex_arbitrage cfg op).

Lemma respects_sleep (d : Q) : respects R (asyncio_sleep d).
Proof. intro s. apply R_world. Qed.

Lemma respects_on_world (A : Type) (m : M W A) : respects R (on_world m).
Proof.
  intro s. unfold on_world, zoom. destruct (m (world s)) as [r w'].
  apply R_world.
Qed.

Lemma respects_estimate_gas_cost (gas_limit : Z) :
  respects R (ArbitrageBot.estimate_gas_cost gas_limit).
Proof.
  unfold ArbitrageBot.estimate_gas_cost.
  apply respects_bind; [apply respects_read | intro; apply respects_of_res].
Qed.

Lemma respects_select_volume_boosting (all_prices : PriceMap)
    (token_in token_out : Token) :
  respects R
    (ArbitrageBot.select_volume_boosting cfg all_prices token_in token_out).
Proof.
  unfold ArbitrageBot.select_volume_boosting. cbv zeta.
  apply respects_bind; [apply respects_on_world|].
  intros [|best rest]; [apply respects_ret|].
  apply respects_bind; [apply respects_estimate_gas_cost|]. intro gas.
  apply respects_bind; [apply respects_of_res|].
  intros [|]; apply respects_ret.
Qed.

Lemma respects_select_arbitrage (token_in token_out : Token) :
  respects R (ArbitrageBot.select_arbitrage cfg token_in token_out).
Proof.
  unfold ArbitrageBot.select_arbitrage.
  apply respects_bind; [apply respects_gets|]. intro w. cbv zeta.
  destruct (sort_desc op_expected_profit
              (PriceMonitor.check_pair_price_difference cfg w token_in
                 token_out)) as [|best rest]; [apply respects_ret|].
  apply respects_bind; [apply respects_estimate_gas_cost|]. intro gas.
  destruct (ArbitrageBot.above_min_profit cfg best gas); apply respects_ret.
Qed.

Lemma respects_wait_for_cooldown (min_interval : Q) :
  respects R (ArbitrageBot.wait_for_cooldown min_interval).
Proof.
  unfold ArbitrageBot.wait_for_cooldown.
  apply respects_bind; [apply respects_now|]. intro t.
  apply respects_bind; [apply respects_gets|]. intro last.
  destruct (lt (t - last) min_interval);
    [apply respects_sleep | apply respects_ret].
Qed.

Lemma respects_execute_and_stamp (op : Opportunity) :
  respects R (ArbitrageBot.execute_and_stamp cfg op).
Proof.
  unfold ArbitrageBot.execute_and_stamp.
  apply respects_bind; [apply R_execute|]. intros _.
  apply respects_bind; [apply respects_now|]. intro t.
  apply respects_modify. intro s. apply R_stamp.
Qed.

Lemma respects_process_pair (all_prices : PriceMap)
    (token_pair : Token * Token) :
  respects R (ArbitrageBot.process_pair cfg all_prices token_pair).
Proof.
  unfold ArbitrageBot.process_pair. cbv zeta.
  apply respects_try; [|intro; apply respects_ret].
  apply respects_bind.
  - destruct (Config.enabled (Config.VOLUME_BOOSTING cfg));
      [apply respects_select_volume_boosting | apply respects_select_arbitrage].
  - intros [best|]; [|apply respects_ret].
    apply respects_bind; [apply respects_wait_for_cooldown|]. intros _.
    apply respects_bind; [apply respects_execute_and_stamp|]. intros _.
    apply respects_bind; [intro s; apply R_save|]. intros _.
    apply respects_sleep.
Qed.

Lemma respects_trade_cycle : respects R (ArbitrageBot.trade_cycle cfg).
Proof.
  unfold ArbitrageBot.trade_cycle.
  apply respects_bind; [apply respects_gets|]. intro w. cbv zeta.
  apply respects_for_each. intro p. apply respects_process_pair.
Qed.

Lemma respects_cycle (s : Sys W) :
  R s (snd (ArbitrageBot.find_and_execute_arbitrage cfg s)).
Proof.
  unfold ArbitrageBot.find_and_execute_arbitrage. cbv zeta.
  repeat match goal with
         | |- context [if ?c then _ else _] => destruct c
         end; cbn [snd].
  - apply R_refl.
  - apply R_save.
  - apply respects_trade_cycle.
Qed.

Lemma respects_run (fuel : nat) (s : Sys W) :
  R s (snd (ArbitrageBot.run cfg fuel s)).
Proof.
  revert s. induction fuel as [|n IH]; intro s; cbn [ArbitrageBot.run];
    [apply R_refl|].
  pose proof (respects_cycle s) as Hc.
  destruct (ArbitrageBot.find_and_execute_arbitrage cfg s) as [[|code] s1];
    cbn [snd] in *.
  - eapply R_trans; [exact Hc|].
    eapply R_trans; [|apply IH].
    eapply R_trans; [apply R_save | apply respects_sleep].
  - eapply R_trans; [exact Hc | apply R_save].
Qed.

End StepFacts.

Ltac respects_step Hr Ht :=
  lazymatch goal with
  | |- respects _ (ret _) => apply respects_ret; exact Hr
  | |- respects _ (raise _) => apply respects_raise; exact Hr
  | |- respects _ (gets _) => apply respects_gets; exact Hr
  | |- respects _ (read _) => apply respects_read; exact Hr
  | |- respects _ (of_res _) => apply respects_of_res; exact Hr
  | |- respects _ now => apply respects_now; exact Hr
  | |- respects _ (bind _ _) => apply respects_bind; [exact Ht | | intros]
  | |- respects _ (try_except _ _) => apply respects_try; [exact Ht | | intros]
  | |- respects _ (let _ := _ in _) => cbv zeta
  | |- respects _ (if ?c then _ else _) => destruct c
  | |- respects _ (match ?x with _ => _ end) => destruct x
  end.


(** ** The minimum output of every transaction submitted *)

Section SubmittedFloors.
Context {W : Type} {E : Env W}.
Variable cfg : Config.t.

Let arb := Config.ARBITRAGE_CONFIG cfg.












(** *** Along an execution *)


















End SubmittedFloors.


(** ** The statistics and the history *)

Section Statistics.
Context {W : Type} {E : Env W}.
Variable cfg : Config.t.

Lemma keeps_counted_refl (s : Sys W) : keeps_counted s s.
Proof. intro H. exact H. Qed.

Lemma keeps_counted_trans (s1 s2 s3 : Sys W) :
  keeps_counted s1 s2 -> keeps_counted s2 s3 -> keeps_counted s1 s3.
Proof. intros H1 H2 H. apply H2, H1, H. Qed.

Lemma keeps_counted_same (s s' : Sys W) :
  trade_history s' = trade_history s ->
  total_trades (stats s') = total_trades (stats s) ->
  successful_trades (stats s') = successful_trades (stats s) ->
  failed_trades (stats s') = failed_trades (stats s) ->
  total_profit (stats s') = total_profit (stats s) ->
  keeps_counted s s'.
Proof.
  intros Hh H1 H2 H3 H4 [Hc Hr]. unfold counted in *.
  rewrite Hh, H1, H2, H3, H4. split; assumption.
Qed.

Lemma keeps_counted_of_books (A : Type) (m : M (Sys W) A) :
  keeps_books m -> respects keeps_counted m.
Proof.
  intros H s. destruct (H s) as [Hh [Hs _]].
  apply keeps_counted_same; try rewrite Hs; auto.
Qed.

Lemma profit_sum_app (h : list record) (trade : record) :
  profit_sum (h ++ [trade])
  = if ArbitrageBotMore.is_success trade then
      match ArbitrageBotMore.num_of (ArbitrageBotMore.profit_of trade) with
      | Ok profit => (profit_sum h + profit)%Q
      | Raise _ => profit_sum h
      end
    else profit_sum h.
Proof. unfold profit_sum. rewrite fold_left_app. reflexivity. Qed.

(** Appending the record of a success and counting it. *)
Lemma keeps_counted_success (s s' : Sys W) (trade : record) (profit : Q) :
  ArbitrageBotMore.is_success trade = true ->
  ArbitrageBotMore.num_of (ArbitrageBotMore.profit_of trade) = Ok profit ->
  trade_history s' = trade_history s ++ [trade] ->
  total_trades (stats s') = (total_trades (stats s) + 1)%Z ->
  successful_trades (stats s') = (successful_trades (stats s) + 1)%Z ->
  failed_trades (stats s') = failed_trades (stats s) ->
  total_profit (stats s') = (total_profit (stats s) + profit)%Q ->
  keeps_counted s s'.
Proof.
  intros Hok Hnum Hh H1 H2 H3 H4 [[C1 [C2 [C3 C4]]] Hr]. unfold counted.
  rewrite Hh, H1, H2, H3, H4, !filter_app, !length_app, profit_sum_app.
  cbn [filter]. rewrite Hok, Hnum. cbn [negb List.length].
  rewrite C1, C2, C3, C4.
  repeat split; try reflexivity; try lia.
  apply Forall_app. split; [exact Hr|]. constructor; [|constructor].
  intros _. exists profit. exact Hnum.
Qed.

(** Appending the record of a failure and counting it. *)
Lemma keeps_counted_failure (s s' : Sys W) (trade : record) :
  ArbitrageBotMore.is_success trade = false ->
  trade_history s' = trade_history s ++ [trade] ->
  total_trades (stats s') = (total_trades (stats s) + 1)%Z ->
  successful_trades (stats s') = successful_trades (stats s) ->
  failed_trades (stats s') = (failed_trades (stats s) + 1)%Z ->
  total_profit (stats s') = total_profit (stats s) ->
  keeps_counted s s'.
Proof.
  intros Hok Hh H1 H2 H3 H4 [[C1 [C2 [C3 C4]]] Hr]. unfold counted.
  rewrite Hh, H1, H2, H3, H4, !filter_app, !length_app, profit_sum_app.
  cbn [filter]. rewrite Hok. cbn [negb List.length].
  rewrite C1, C2, C3, C4.
  repeat split; try reflexivity; try lia.
  apply Forall_app. split; [exact Hr|]. constructor; [|constructor].
  rewrite Hok. discriminate.
Qed.

Lemma record_failure_keeps_counted (is_vb : bool) (token_in token_out : Token)
    (final : option Token) (buy_dex sell_dex : Dex) (amount_in : Q)
    (e : string) :
  respects keeps_counted
    (ArbitrageBot.record_failure (W := W) is_vb token_in token_out final
       buy_dex sell_dex amount_in e).
Proof.
  intro s. eapply keeps_counted_failure; cycle 1; cbn; reflexivity.
Qed.

Lemma settle_keeps_counted (is_vb : bool) (token_in token_out : Token)
    (buy_dex sell_dex : Dex) (amount_in : Q) (l : ArbitrageBot.legs_done) :
  respects keeps_counted
    (ArbitrageBot.settle cfg is_vb token_in token_out buy_dex sell_dex
       amount_in l).
Proof.
  unfold ArbitrageBot.settle.
  apply respects_bind; [exact keeps_counted_trans | |intro final_balance].
  { apply keeps_counted_of_books. apply keeps_get_token_balance. }
  cbv zeta.
  apply respects_bind; [exact keeps_counted_trans | |intro ratio].
  { apply respects_of_res. exact keeps_counted_refl. }
  apply respects_bind; [exact keeps_counted_trans | |intro gp].
  { apply respects_read. exact keeps_counted_refl. }
  apply respects_bind; [exact keeps_counted_trans | |intro gwei].
  { apply respects_of_res. exact keeps_counted_refl. }
  apply respects_bind; [exact keeps_counted_trans | |intro gas].
  { apply respects_of_res. exact keeps_counted_refl. }
  apply respects_bind; [exact keeps_counted_trans | |intros _].
  { match goal with
    | |- respects _ (if ?c then _ else _) => destruct c
    end; [|apply respects_ret; exact keeps_counted_refl].
    intro s. apply keeps_counted_same; reflexivity. }
  apply respects_bind; [exact keeps_counted_trans | |intro t].
  { apply respects_now. exact keeps_counted_refl. }
  apply respects_bind; [exact keeps_counted_trans | |intros _].
  { intro s. eapply keeps_counted_success; cycle 2; cbn; reflexivity. }
  apply respects_ret. exact keeps_counted_refl.
Qed.

Lemma execute_keeps_counted (op : Opportunity) :
  respects keeps_counted (ArbitrageBot.execute_cross_dex_arbitrage cfg op).
Proof.
  unfold ArbitrageBot.execute_cross_dex_arbitrage. cbv zeta.
  apply respects_bind; [exact keeps_counted_trans | |intros [early|l]].
  - apply respects_try; [exact keeps_counted_trans | |intro e].
    + apply keeps_counted_of_books. apply keeps_execute_legs.
    + apply respects_bind; [exact keeps_counted_trans | |intro r].
      * apply record_failure_keeps_counted.
      * apply respects_ret. exact keeps_counted_refl.
  - apply respects_ret. exact keeps_counted_refl.
  - apply respects_try; [exact keeps_counted_trans | |intro e].
    + apply settle_keeps_counted.
    + apply record_failure_keeps_counted.
Qed.

(** X8.  The statistics stay those of the history.  When, before an
    execution, the handling of a pair or any number of cycles, one trade is
    counted for each record of the history, a success for each record of
    status [success] and a failure for each other one, the total profit is
    the sum of the profits of the successes, and each success has a number
    for its profit, then the same holds afterwards. *)
Theorem X8_statistics_follow_the_history (s : Sys W) :
  counted s ->
  readable (trade_history s) ->
  (forall op,
      let s' := snd (ArbitrageBot.execute_cross_dex_arbitrage cfg op s) in
      counted s' /\ readable (trade_history s'))
  /\ (forall all_prices token_pair,
        let s' := snd (ArbitrageBot.process_pair cfg all_prices token_pair s) in
        counted s' /\ readable (trade_history s'))
  /\ (forall fuel,
        let s' := snd (ArbitrageBot.run cfg fuel s) in
        counted s' /\ readable (trade_history s')).
Proof.
  intros Hc Hr.
  assert (Hworld : forall (s0 : Sys W) w', keeps_counted s0 (set_world w' s0))
    by (intros; apply keeps_counted_same; reflexivity).
  assert (Hstamp : forall (s0 : Sys W) t,
             keeps_counted s0 (set_last_trade_time t s0))
    by (intros; apply keeps_counted_same; reflexivity).
  assert (Hsave : forall s0 : Sys W,
             keeps_counted s0 (snd (ArbitrageBot.save_trade_history s0)))
    by (intros; apply keeps_counted_same; reflexivity).
  split; [|split].
  - intro op. cbv zeta. apply (@execute_keeps_counted op s).
    split; assumption.
  - intros all_prices token_pair. cbv zeta.
    pose proof (@respects_process_pair W E keeps_counted keeps_counted_refl
                  keeps_counted_trans cfg Hworld Hstamp Hsave
                  execute_keeps_counted all_prices token_pair s) as H.
    apply H. split; assumption.
  - intro fuel. cbv zeta.
    pose proof (@respects_run W E keeps_counted keeps_counted_refl
                  keeps_counted_trans cfg Hworld Hstamp Hsave
                  execute_keeps_counted fuel s) as H.
    apply H. split; assumption.
Qed.

(** Counting one trade whose profit, if it is a success, is a number. *)
Lemma count_trade_readable (trade : record) (s : Sys W) :
  (ArbitrageBotMore.is_success trade = true ->
   exists profit,
     ArbitrageBotMore.num_of (ArbitrageBotMore.profit_of trade) = Ok profit) ->
  exists s',
    ArbitrageBotMore.count_trade trade s = (Ok tt, s')
    /\ trade_history s' = trade_history s
    /\ world s' = world s
    /\ total_trades (stats s') = (total_trades (stats s) + 1)%Z
    /\ successful_trades (stats s')
       = (successful_trades (stats s)
          + if ArbitrageBotMore.is_success trade then 1 else 0)%Z
    /\ failed_trades (stats s')
       = (failed_trades (stats s)
          + if ArbitrageBotMore.is_success trade then 0 else 1)%Z
    /\ total_profit (stats s')
       = if ArbitrageBotMore.is_success trade then
           match ArbitrageBotMore.num_of (ArbitrageBotMore.profit_of trade)
           with
           | Ok profit => (total_profit (stats s) + profit)%Q
           | Raise _ => total_profit (stats s)
           end
         else total_profit (stats s).
Proof.
  intro Hone. unfold ArbitrageBotMore.count_trade, bind, modify, of_res.
  destruct (ArbitrageBotMore.is_success trade) eqn:Hok.
  - destruct (Hone eq_refl) as [profit Hp]. rewrite Hp.
    eexists. split; [reflexivity|]. cbn. repeat split; lia.
  - eexists. split; [reflexivity|]. cbn. repeat split; lia.
Qed.

(** Counting the trades of a readable history. *)
Lemma count_trades_readable (trades : list record) :
  readable trades ->
  forall s : Sys W,
  exists s',
    for_each trades (ArbitrageBotMore.count_trade (W := W)) s = (Ok tt, s')
    /\ trade_history s' = trade_history s
    /\ world s' = world s
    /\ total_trades (stats s')
       = (total_trades (stats s) + Z.of_nat (List.length trades))%Z
    /\ successful_trades (stats s')
       = (successful_trades (stats s)
          + Z.of_nat (List.length (filter ArbitrageBotMore.is_success trades)))%Z
    /\ failed_trades (stats s')
       = (failed_trades (stats s)
          + Z.of_nat (List.length
                        (filter (fun trade =>
                                   negb (ArbitrageBotMore.is_success trade))
                           trades)))%Z
    /\ total_profit (stats s')
       = fold_left
           (fun acc trade =>
              if ArbitrageBotMore.is_success trade then
                match ArbitrageBotMore.num_of (ArbitrageBotMore.profit_of trade)
                with
                | Ok profit => (acc + profit)%Q
                | Raise _ => acc
                end
              else acc)
           trades (total_profit (stats s)).
Proof.
  induction trades as [|trade trades IH]; intros Hr s.
  - exists s. cbn. repeat split; lia.
  - inversion Hr as [|? ? Hone Hrest]; subst.
    destruct (@count_trade_readable trade s Hone)
      as [s1 [Hrun1 [Hh1 [Hw1 [A1 [A2 [A3 A4]]]]]]].
    destruct (IH Hrest s1) as [s' [Hrun [Hh [Hw [B1 [B2 [B3 B4]]]]]]].
    exists s'. cbn [for_each]. unfold bind. rewrite Hrun1, Hrun.
    cbn [filter fold_left List.length].
    rewrite Hh, Hh1, Hw, Hw1, B1, B2, B3, B4, A1, A2, A3, A4.
    destruct (ArbitrageBotMore.is_success trade);
      cbn [negb List.length]; repeat split; try reflexivity; lia.
Qed.

Lemma count_trades_keep_history (trades : list record) (s : Sys W) :
  trade_history (snd (for_each trades (ArbitrageBotMore.count_trade (W := W)) s))
  = trade_history s.
Proof.
  apply (@respects_for_each W
           (fun a b : Sys W => trade_history b = trade_history a)
           (fun _ => eq_refl)
           (fun a b c H1 H2 => eq_trans H2 H1) record trades).
  intros trade s1. unfold ArbitrageBotMore.count_trade, bind, modify, of_res.
  destruct (ArbitrageBotMore.is_success trade); [|reflexivity].
  destruct (ArbitrageBotMore.num_of (ArbitrageBotMore.profit_of trade));
    reflexivity.
Qed.

(** Loading a readable history into the state [__init__] starts from. *)
Lemma load_readable (trades : list record) (s : Sys W) :
  no_trades s ->
  readable trades ->
  exists s',
    ArbitrageBotMore._load_trade_history (Some (Ok trades)) s = (Ok tt, s')
    /\ trade_history s' = trades
    /\ world s' = world s
    /\ counted s'.
Proof.
  intros [Hh [H1 [H2 [H3 H4]]]] Hr.
  unfold ArbitrageBotMore._load_trade_history, try_except, bind, of_res, modify.
  destruct (count_trades_readable Hr (set_trade_history trades s))
    as [s' [Hrun [Hh' [Hw [C1 [C2 [C3 C4]]]]]]].
  rewrite Hrun. exists s'. cbn in Hh', Hw, C1, C2, C3, C4.
  split; [reflexivity|]. split; [exact Hh'|]. split; [exact Hw|].
  unfold counted. rewrite Hh', C1, C2, C3, C4, H1, H2, H3, H4.
  repeat split; reflexivity.
Qed.

(** X9.  [_load_trade_history] never raises.  Without a file, and with a
    file that cannot be read, it leaves the state as it is.  With a file
    holding a list of records, the history becomes that list; when each
    record of status [success] has a number for its profit and the
    statistics started from zero, the statistics are then those of the
    history. *)
Theorem X9_load_trade_history (file : option (res (list record)))
    (s : Sys W) :
  no_trades s ->
  let run := ArbitrageBotMore._load_trade_history file s in
  fst run = Ok tt
  /\ match file with
     | None => snd run = s
     | Some (Raise _) => snd run = s
     | Some (Ok trades) =>
         trade_history (snd run) = trades
         /\ (readable trades -> counted (snd run))
     end.
Proof.
  intros Hno. cbv zeta.
  destruct file as [[trades|e]|]; [|split; reflexivity|split; reflexivity].
  pose proof (count_trades_keep_history trades (set_trade_history trades s))
    as Hkeep.
  unfold ArbitrageBotMore._load_trade_history, try_except, bind, of_res, modify.
  destruct (for_each trades (ArbitrageBotMore.count_trade (W := W))
              (set_trade_history trades s)) as [[[]|e] s2] eqn:Hrun;
    cbn [fst snd ret] in *.
  - split; [reflexivity|]. split; [exact Hkeep|].
    intro Hr. destruct (load_readable Hno Hr) as [s' [Hload [_ [_ Hc]]]].
    unfold ArbitrageBotMore._load_trade_history, try_except, bind, of_res,
      modify in Hload.
    rewrite Hrun in Hload. injection Hload as <-. exact Hc.
  - split; [reflexivity|]. split; [exact Hkeep|].
    intro Hr. destruct (load_readable Hno Hr) as [s' [Hload _]].
    unfold ArbitrageBotMore._load_trade_history, try_except, bind, of_res,
      modify in Hload.
    rewrite Hrun in Hload. cbn in Hload.
    destruct (count_trades_readable Hr (set_trade_history trades s))
      as [s3 [Hrun3 _]].
    rewrite Hrun in Hrun3. discriminate Hrun3.
Qed.

(** X10.  A restart keeps the books.  When the statistics are those of the
    history and each success has a number for its profit, loading what
    [save_trade_history] wrote into the state [__init__] starts from gives
    the same history, the same counts of trades, successes and failures,
    and the same total profit. *)
Theorem X10_restart_restores_the_statistics (s s0 : Sys W) :
  counted s ->
  readable (trade_history s) ->
  no_trades s0 ->
  let written :=
    trade_history_file (snd (ArbitrageBot.save_trade_history s)) in
  let s' := snd (ArbitrageBotMore._load_trade_history (Some (Ok written)) s0) in
  trade_history s' = trade_history s
  /\ total_trades (stats s') = total_trades (stats s)
  /\ successful_trades (stats s') = successful_trades (stats s)
  /\ failed_trades (stats s') = failed_trades (stats s)
  /\ total_profit (stats s') = total_profit (stats s).
Proof.
  intros [C1 [C2 [C3 C4]]] Hr Hno. cbv zeta. cbn [ArbitrageBot.save_trade_history].
  change (trade_history_file (snd (ArbitrageBot.save_trade_history s)))
    with (trade_history s).
  destruct (load_readable Hno Hr) as [s' [-> [Hh [_ [D1 [D2 [D3 D4]]]]]]].
  cbn [snd]. rewrite Hh in D1, D2, D3, D4.
  rewrite Hh, D1, D2, D3, D4, C1, C2, C3, C4. repeat split; reflexivity.
Qed.

End Statistics.

(** ** Arbitrage mode *)

Section ArbitrageMode.
Context {W : Type} {E : Env W}.
Variable cfg : Config.t.

Let vb := Config.VOLUME_BOOSTING cfg.

Hypothesis disabled : Config.enabled vb = false.

Lemma same_volume_refl (s : Sys W) : same_volume s s.
Proof. reflexivity. Qed.

Lemma same_volume_trans (s1 s2 s3 : Sys W) :
  same_volume s1 s2 -> same_volume s2 s3 -> same_volume s1 s3.
Proof. unfold same_volume. intros H1 H2. rewrite H2. exact H1. Qed.

Lemma same_volume_of_books (A : Type) (m : M (Sys W) A) :
  keeps_books m -> respects same_volume m.
Proof. intros H s. destruct (H s) as [_ [_ [Hv _]]]. exact Hv. Qed.

Lemma record_failure_same_volume (is_vb : bool) (token_in token_out : Token)
    (final : option Token) (buy_dex sell_dex : Dex) (amount_in : Q)
    (e : string) :
  respects same_volume
    (ArbitrageBot.record_failure (W := W) is_vb token_in token_out final
       buy_dex sell_dex amount_in e).
Proof. intro s. reflexivity. Qed.

(** Outside boosting mode the settlement leaves the counter alone. *)
Lemma settle_same_volume (token_in token_out : Token) (buy_dex sell_dex : Dex)
    (amount_in : Q) (l : ArbitrageBot.legs_done) :
  respects same_volume
    (ArbitrageBot.settle cfg false token_in token_out buy_dex sell_dex
       amount_in l).
Proof.
  unfold ArbitrageBot.settle. cbn [andb].
  repeat respects_step same_volume_refl same_volume_trans;
    try (apply same_volume_of_books; apply keeps_get_token_balance);
    intro s; reflexivity.
Qed.

Lemma execute_same_volume (op : Opportunity) :
  respects same_volume (ArbitrageBot.execute_cross_dex_arbitrage cfg op).
Proof.
  unfold ArbitrageBot.execute_cross_dex_arbitrage. fold vb.
  rewrite disabled. cbn [andb negb]. cbv zeta.
  apply respects_bind; [exact same_volume_trans | |intros [early|l]].
  - apply respects_try; [exact same_volume_trans | |intro e].
    + apply same_volume_of_books. apply keeps_execute_legs.
    + apply respects_bind; [exact same_volume_trans | |intro r].
      * apply record_failure_same_volume.
      * apply respects_ret. exact same_volume_refl.
  - apply respects_ret. exact same_volume_refl.
  - apply respects_try; [exact same_volume_trans | |intro e].
    + apply settle_same_volume.
    + apply record_failure_same_volume.
Qed.

(** X11.  With boosting mode disabled the process never exits by itself and
    the volume counter never changes, however many cycles run. *)
Theorem X11_arbitrage_mode_runs_on (fuel : nat) (s : Sys W) :
  fst (ArbitrageBot.run cfg fuel s) = ArbitrageBot.Running
  /\ total_volume_usdc (snd (ArbitrageBot.run cfg fuel s))
     = total_volume_usdc s.
Proof.
  split.
  - revert s. induction fuel as [|n IH]; intro s; [reflexivity|].
    cbn [ArbitrageBot.run]. unfold ArbitrageBot.find_and_execute_arbitrage.
    fold vb. rewrite disabled. cbn [andb]. apply IH.
  - apply (@respects_run W E same_volume same_volume_refl same_volume_trans
             cfg); try (intros; reflexivity).
    exact execute_same_volume.
Qed.

End ArbitrageMode.

(** ** The cooldown *)

Section Cooldown.
Context {W : Type} {E : Env W}.

(** X12.  Where sleeping for [d] seconds moves the clock on by [d],
    [wait_for_cooldown] returns with at least the minimum interval passed
    since the last trade, and leaves the last trade time as it is. *)
Theorem X12_cooldown_has_passed (min_interval : Q) (s : Sys W) :
  (forall d w, time_time (sleep d w) = (time_time w + d)%Q) ->
  let run := ArbitrageBot.wait_for_cooldown min_interval s in
  fst run = Ok tt
  /\ last_trade_time (snd run) = last_trade_time s
  /\ (min_interval
      <= time_time (world (snd run)) - last_trade_time (snd run))%Q.
Proof.
  intro Hclock. cbv zeta.
  unfold ArbitrageBot.wait_for_cooldown, bind, now, gets, asyncio_sleep,
    modify, ret.
  destruct (lt (time_time (world s) - last_trade_time s) min_interval) eqn:Hlt;
    cbn [fst snd].
  - split; [reflexivity|]. split; [reflexivity|]. cbn. rewrite Hclock.
    assert (Heq : (time_time (world s)
                   + (min_interval - (time_time (world s) - last_trade_time s))
                   - last_trade_time s == min_interval)%Q) by ring.
    rewrite Heq. apply Qle_refl.
  - split; [reflexivity|]. split; [reflexivity|].
    apply lt_false in Hlt. exact Hlt.
Qed.

End Cooldown.

(** ** The pairs the driver handles *)

Section Liquidity.
Context {W : Type} {E : Env W}.
Variable cfg : Config.t.
Variable w : W.

Let arb := Config.ARBITRAGE_CONFIG cfg.
Let vb := Config.VOLUME_BOOSTING cfg.

Lemma flat_map_singletons (A B : Type) (b : B) (f : A -> bool) (l : list A) :
  flat_map (fun a => if f a then [b] else []) l
  = repeat b (List.length (filter f l)).
Proof.
  induction l as [|a l IH]; [reflexivity|].
  cbn [flat_map filter]. destruct (f a); cbn [app List.length repeat];
    rewrite IH; reflexivity.
Qed.

(** X13.  [check_and_save_liquidity] goes through the configured pairs in
    their order and lists a pair, when both its addresses are known, once
    for every active venue whose quote for the test amount is above zero: a
    pair that two venues quote is listed twice, next to itself.  So it
    lists configured pairs only, each quoted by an active venue, and with no
    active venue it lists nothing. *)
Theorem X13_pairs_listed_once_per_quoting_venue :
  let test_amount_wei :=
    int_of ((if Config.enabled vb then Config.vb_max_trade_amount vb
             else Config.max_trade_amount arb) * pow10 18) in
  let quotes (token_in token_out : Token) (dex_name : Dex) : bool :=
    gt (price (PriceMonitor.get_token_price cfg w dex_name token_in token_out
                 (Some test_amount_wei))) 0 in
  let address_of (first_dex : Dex) (token : Token) : option Addr :=
    if String.eqb token "MON"
    then PriceMonitor.get_weth_address cfg w first_dex
    else Config.token_address cfg token in
  let listed := ArbitrageBot.check_and_save_liquidity cfg w in
  (forall first_dex rest,
      ArbitrageBot.active_dexes cfg = first_dex :: rest ->
      listed
      = flat_map
          (fun p : Token * Token =>
             if truthy_opt (address_of first_dex (fst p))
                && truthy_opt (address_of first_dex (snd p))
             then repeat p
                    (List.length
                       (filter (quotes (fst p) (snd p))
                          (ArbitrageBot.active_dexes cfg)))
             else [])
          (Config.TOKEN_PAIRS cfg))
  /\ (forall token_in token_out,
        ArbitrageBot.liquid_on cfg w token_in token_out test_amount_wei
        = repeat (token_in, token_out)
            (List.length (filter (quotes token_in token_out)
                            (ArbitrageBot.active_dexes cfg))))
  /\ (forall p, In p listed ->
                In p (Config.TOKEN_PAIRS cfg)
                /\ exists dex_name,
                    In dex_name (ArbitrageBot.active_dexes cfg)
                    /\ quotes (fst p) (snd p) dex_name = true)
  /\ (ArbitrageBot.active_dexes cfg = [] -> listed = []).
Proof.
  cbv zeta.
  assert (Hrep : forall token_in token_out amount,
    ArbitrageBot.liquid_on cfg w token_in token_out amount
    = repeat (token_in, token_out)
        (List.length
           (filter
              (fun dex_name =>
                 gt (price (PriceMonitor.get_token_price cfg w dex_name
                              token_in token_out (Some amount))) 0)
              (ArbitrageBot.active_dexes cfg)))).
  { intros. unfold ArbitrageBot.liquid_on. cbv zeta.
    apply (flat_map_singletons (token_in, token_out)
             (fun dex_name =>
                gt (price (PriceMonitor.get_token_price cfg w dex_name
                             token_in token_out (Some amount))) 0)). }
  split.
  { intros first_dex rest Hact.
    unfold ArbitrageBot.check_and_save_liquidity. fold vb arb. cbv zeta.
    rewrite Hact. apply flat_map_ext. intros [token_in token_out].
    cbn [fst snd]. rewrite Hrep, Hact.
    repeat match goal with
           | |- context [truthy_opt ?a] => destruct (truthy_opt a)
           end; reflexivity. }
  split; [intros; apply Hrep|]. split.
  - intros p Hin. unfold ArbitrageBot.check_and_save_liquidity in Hin.
    fold vb arb in Hin. cbv zeta in Hin.
    destruct (ArbitrageBot.active_dexes cfg) as [|first_dex rest] eqn:Hact;
      [destruct Hin|].
    apply in_flat_map in Hin. destruct Hin as [[tin tout] [Hpair Hin]].
    cbn [fst snd] in Hin.
    match type of Hin with
    | In _ (if ?c then _ else _) => destruct c; [destruct Hin|]
    end.
    rewrite Hrep in Hin. try rewrite Hact in Hin.
    pose proof (repeat_spec _ _ _ Hin) as Hp. subst p. cbn [fst snd].
    split; [exact Hpair|].
    match type of Hin with
    | In _ (repeat _ (List.length (filter ?f ?l))) =>
        destruct (filter f l) as [|d ds] eqn:Hf; [destruct Hin|];
        assert (Hd : In d (filter f l)) by (rewrite Hf; left; reflexivity);
        apply filter_In in Hd; destruct Hd as [Hd1 Hd2]
    end.
    exists d. split; assumption.
  - intro Hact. unfold ArbitrageBot.check_and_save_liquidity. cbv zeta.
    rewrite Hact. reflexivity.
Qed.

End Liquidity.

(** X13 on the market near the ceiling, where [hakifi] and [monda] quote the
    pair MON-USDC and the three other venues do not: the pair is listed
    twice. *)
Lemma X13_pair_listed_twice :
  let w := world Examples.near_the_ceiling in
  let quotes (dex_name : Dex) : bool :=
    gt (price (PriceMonitor.get_token_price Config.default w dex_name "MON"
                 "USDC" (Some (10 * Toy.one_mon)%Z))) 0 in
  ArbitrageBot.active_dexes Config.default
  = ["hakifi"; "bean"; "monda"; "octo"; "madness"]
  /\ filter quotes (ArbitrageBot.active_dexes Config.default)
     = ["hakifi"; "monda"]
  /\ ArbitrageBot.check_and_save_liquidity Config.default w
     = [("MON", "USDC"); ("MON", "USDC")].
Proof.
  cbv zeta.
  split; [vm_compute; reflexivity|]. split; [vm_compute; reflexivity|].
  rewrite (proj1 (@X13_pairs_listed_once_per_quoting_venue Toy.t Toy.env
                    Config.default (world Examples.near_the_ceiling))
             "hakifi" ["bean"; "monda"; "octo"; "madness"]);
    vm_compute; reflexivity.
Defined.

(** ** What the executor submits *)

Section Executor.
Context {W : Type} {E : Env W}.
Variable cfg : Config.t.

Let arb := Config.ARBITRAGE_CONFIG cfg.

(** [approve_token] returns, having submitted nothing or one approval. *)
Lemma approve_token_runs (token : Token) (router_address : Addr) (s : Sys W) :
  exists ok s' txs,
    TransactionExecutor.approve_token cfg token router_address s = (Ok ok, s')
    /\ submitted s' = submitted s ++ txs
    /\ approval_or_nothing token router_address txs
    /\ (txs = [] -> world s' = world s).
Proof.
  unfold TransactionExecutor.approve_token, try_except, bind, read, ret.
  destruct (String.eqb token "MON").
  { exists true, s, []. rewrite app_nil_r. repeat split; auto. left; auto. }
  destruct (negb (str_in token (TransactionExecutor.tokens cfg))).
  { exists false, s, []. rewrite app_nil_r. repeat split; auto. left; auto. }
  destruct (allowance (world s) token router_address) as [a|e].
  2:{ exists false, s, []. rewrite app_nil_r. repeat split; auto. left; auto. }
  destruct (0 <? a)%Z.
  { exists true, s, []. rewrite app_nil_r. repeat split; auto. left; auto. }
  destruct (gas_price (world s)) as [fee|e].
  2:{ exists false, s, []. rewrite app_nil_r. repeat split; auto. left; auto. }
  unfold send.
  match goal with
  | |- context [send_transaction ?tx (world s)] =>
      destruct (send_transaction tx (world s)) as [[receipt|e] w'];
      [exists (snd receipt =? 1)%Z | exists false];
      eexists; exists [tx]
  end.
  - split; [reflexivity|]. split; [reflexivity|]. split; [|discriminate].
    right. eexists. split; [reflexivity|]. repeat split.
  - split; [reflexivity|]. split; [reflexivity|]. split; [|discriminate].
    right. eexists. split; [reflexivity|]. repeat split.
Qed.

(** X14.  [approve_token] never raises.  For MON, for a token with no
    contract loaded and for a token whose allowance is above zero it submits
    nothing and leaves the world as it is, reporting success in the first
    and the last case.  Otherwise it submits at most one transaction: an
    approval of [2**256 - 1] to the token contract for the router. *)
Theorem X14_approve_token (token : Token) (router_address : Addr) (s : Sys W) :
  let run := TransactionExecutor.approve_token cfg token router_address s in
  (exists ok, fst run = Ok ok)
  /\ (exists txs,
        submitted (snd run) = submitted s ++ txs
        /\ approval_or_nothing token router_address txs)
  /\ (String.eqb token "MON" = true -> run = (Ok true, s))
  /\ (String.eqb token "MON" = false ->
      str_in token (TransactionExecutor.tokens cfg) = false ->
      run = (Ok false, s))
  /\ (forall a,
        String.eqb token "MON" = false ->
        str_in token (TransactionExecutor.tokens cfg) = true ->
        allowance (world s) token router_address = Ok a ->
        (0 < a)%Z ->
        run = (Ok true, s)).
Proof.
  cbv zeta.
  destruct (approve_token_runs token router_address s)
    as [ok [s' [txs [Hrun [Hsub [Hshape _]]]]]].
  split; [exists ok; rewrite Hrun; reflexivity|].
  split; [exists txs; rewrite Hrun; auto|].
  unfold TransactionExecutor.approve_token, try_except, bind, read, ret.
  split; [intros ->; reflexivity|].
  split; [intros -> ->; reflexivity|].
  intros a Hm Ht Ha Hpos. rewrite Hm, Ht. cbn [negb]. rewrite Ha.
  apply Z.ltb_lt in Hpos. rewrite Hpos. reflexivity.
Qed.

Lemma swap_failed_shape (dex_name : Dex) (token_in : Token) (amount_in : Z) :
  swap_or_nothing dex_name token_in amount_in []
    (Ok TransactionExecutor.swap_failed).
Proof.
  exists false, None, 0%Q. split; [reflexivity|].
  split; [left; auto|]. split; [discriminate | reflexivity].
Qed.

(** A swap on a constant-product venue returns, having submitted nothing
    or one swap. *)
Lemma swap_uniswap_v2_runs (dex_name : Dex) (token_in token_out : Token)
    (a_in a_out : Addr) (amount_in min_amount_out dec deadline : Z)
    (is_vb : bool) (s : Sys W) :
  exists r s' txs,
    TransactionExecutor._swap_tokens_uniswap_v2 cfg dex_name token_in
      token_out a_in a_out amount_in min_amount_out dec deadline is_vb s
    = (Ok r, s')
    /\ submitted s' = submitted s ++ txs
    /\ swap_or_nothing dex_name token_in amount_in txs (Ok r).
Proof.
  unfold TransactionExecutor._swap_tokens_uniswap_v2, try_except, bind.
  destruct (remember_mon_balance_runs token_out s) as [s0 [Hrun [Hw Hs]]].
  rewrite Hrun. unfold read, gets.
  destruct (gas_price (world s0)) as [gp|e].
  2:{ exists TransactionExecutor.swap_failed, s0, [].
      rewrite app_nil_r. split; [reflexivity|]. split; [exact Hs|].
      apply swap_failed_shape. }
  unfold send.
  match goal with
  | |- context [send_transaction ?tx (world s0)] =>
      destruct (send_transaction tx (world s0)) as [[receipt|e] w'] eqn:Hsend;
      assert (Hswap : is_swap dex_name token_in amount_in tx)
  end.
  1,3: unfold is_swap;
       destruct (String.eqb token_in "MON") eqn:Hin;
       destruct (String.eqb token_out "MON") eqn:Hout;
       cbn [andb negb];
       (split; [reflexivity|]); (split; [eexists; reflexivity|]);
       (split; [auto|]); intro Hc; try discriminate Hc; reflexivity.
  - destruct (snd receipt =? 1)%Z.
    + match goal with
      | |- context [TransactionExecutor.realized_output ?c ?t ?d ?st] =>
          pose proof (realized_output_reads c t d st) as Hr;
          destruct (TransactionExecutor.realized_output c t d st)
            as [[q|e] s2]
      end; cbn [snd] in Hr; subst s2; unfold ret;
        eexists; eexists; eexists; (split; [reflexivity|]);
        (split; [cbn; rewrite Hs; reflexivity|]).
      * exists true, (Some (fst receipt)), q. split; [reflexivity|].
        split; [right; eexists; split; [reflexivity | exact Hswap]|].
        split; [eauto | discriminate].
      * exists false, None, 0%Q. split; [reflexivity|].
        split; [right; eexists; split; [reflexivity | exact Hswap]|].
        split; [discriminate | reflexivity].
    + unfold ret. eexists; eexists; eexists. split; [reflexivity|].
      split; [cbn; rewrite Hs; reflexivity|].
      exists false, (Some (fst receipt)), 0%Q. split; [reflexivity|].
      split; [right; eexists; split; [reflexivity | exact Hswap]|].
      split; [discriminate | reflexivity].
  - unfold ret. eexists; eexists; eexists. split; [reflexivity|].
    split; [cbn; rewrite Hs; reflexivity|].
    exists false, None, 0%Q. split; [reflexivity|].
    split; [right; eexists; split; [reflexivity | exact Hswap]|].
    split; [discriminate | reflexivity].
Qed.

(** A swap on an Algebra venue returns, having submitted nothing or one
    swap. *)
Lemma swap_algebra_runs (dex_name : Dex) (token_in token_out : Token)
    (a_in a_out : Addr) (amount_in min_amount_out dec deadline : Z)
    (is_vb : bool) (s : Sys W) :
  exists r s' txs,
    TransactionExecutor._swap_tokens_algebra cfg dex_name token_in
      token_out a_in a_out amount_in min_amount_out dec deadline is_vb s
    = (Ok r, s')
    /\ submitted s' = submitted s ++ txs
    /\ swap_or_nothing dex_name token_in amount_in txs (Ok r).
Proof.
  unfold TransactionExecutor._swap_tokens_algebra, try_except, bind.
  destruct (get_pool_deployer_reads cfg dex_name s) as [pd ->].
  unfold gets, read.
  destruct (gas_price (world s)) as [gp|e].
  2:{ exists TransactionExecutor.swap_failed, s, [].
      rewrite app_nil_r. split; [reflexivity|]. split; [reflexivity|].
      apply swap_failed_shape. }
  unfold send.
  match goal with
  | |- context [send_transaction ?tx (world s)] =>
      destruct (send_transaction tx (world s)) as [[receipt|e] w'] eqn:Hsend;
      assert (Hswap : is_swap dex_name token_in amount_in tx)
  end.
  1,3: unfold is_swap; cbn [target min_output fn value];
       (split; [reflexivity|]); (split; [eexists; reflexivity|]);
       destruct (String.eqb token_in "MON");
       (split; [auto|]); intro Hc; try discriminate Hc; reflexivity.
  - destruct (snd receipt =? 1)%Z.
    + match goal with
      | |- context [TransactionExecutor.realized_output ?c ?t ?d ?st] =>
          pose proof (realized_output_reads c t d st) as Hr;
          destruct (TransactionExecutor.realized_output c t d st)
            as [[q|e] s2]
      end; cbn [snd] in Hr; subst s2; unfold ret;
        eexists; eexists; eexists; (split; [reflexivity|]);
        (split; [cbn; reflexivity|]).
      * exists true, (Some (fst receipt)), q. split; [reflexivity|].
        split; [right; eexists; split; [reflexivity | exact Hswap]|].
        split; [eauto | discriminate].
      * exists false, None, 0%Q. split; [reflexivity|].
        split; [right; eexists; split; [reflexivity | exact Hswap]|].
        split; [discriminate | reflexivity].
    + unfold ret. eexists; eexists; eexists. split; [reflexivity|].
      split; [cbn; reflexivity|].
      exists false, (Some (fst receipt)), 0%Q. split; [reflexivity|].
      split; [right; eexists; split; [reflexivity | exact Hswap]|].
      split; [discriminate | reflexivity].
  - unfold ret. eexists; eexists; eexists. split; [reflexivity|].
    split; [cbn; reflexivity|].
    exists false, None, 0%Q. split; [reflexivity|].
    split; [right; eexists; split; [reflexivity | exact Hswap]|].
    split; [discriminate | reflexivity].
Qed.

Lemma get_weth_address_reads (dex_name : Dex) (s : Sys W) :
  exists r, TransactionExecutor.get_weth_address cfg dex_name s = (r, s).
Proof.
  unfold TransactionExecutor.get_weth_address, bind, of_res, gets, ret.
  destruct (truthy (Config.WRAPPED_MON cfg)).
  - destruct (to_checksum_address (Config.WRAPPED_MON cfg)); eauto.
  - destruct (dict_mem String.eqb (TransactionExecutor.routers cfg) dex_name);
      [|eauto].
    destruct (if Config.is_algebra cfg dex_name
              then WNativeToken (world s) dex_name
              else WETH (world s) dex_name); eauto.
Qed.

Lemma resolve_token_in_reads (weth : option Addr) (token_in : Token)
    (amount_in : Z) (s : Sys W) :
  exists r,
    TransactionExecutor.resolve_token_in cfg weth token_in amount_in s = (r, s).
Proof.
  unfold TransactionExecutor.resolve_token_in, bind, of_res, read, raise, ret,
    TransactionExecutor.get_native_balance, gets.
  destruct (String.eqb token_in "MON").
  - destruct (from_wei amount_in 18); [|eauto].
    match goal with |- context [if ?c then _ else _] => destruct c end; eauto.
  - destruct (Config.token_address cfg token_in) as [a|]; [|eauto].
    destruct (negb (truthy a)); [eauto|].
    destruct (to_checksum_address a); [|eauto].
    destruct (negb (str_in token_in (TransactionExecutor.tokens cfg)));
      [eauto|].
    destruct (balanceOf (world s) token_in); [|eauto].
    match goal with |- context [if ?c then _ else _] => destruct c end; eauto.
Qed.

Lemma resolve_token_out_reads (weth : option Addr) (token_out : Token)
    (s : Sys W) :
  exists r, TransactionExecutor.resolve_token_out cfg weth token_out s = (r, s).
Proof.
  unfold TransactionExecutor.resolve_token_out, bind, of_res, ret.
  destruct (String.eqb token_out "MON").
  - destruct weth; eauto.
  - destruct (Config.token_address cfg token_out) as [a|]; [|eauto].
    destruct (negb (truthy a)); [eauto|].
    destruct (to_checksum_address a); eauto.
Qed.

(** X15.  [swap_tokens] never raises.  It submits at most one approval, of
    [2**256 - 1] of the input token for the router of the venue and only
    when the input is not MON, and after it at most one swap, on the venue,
    with a minimum output, carrying the amount as its value only when MON is
    sold.  It reports success only with a swap submitted and its hash, and
    with a failure it reports an amount of zero. *)
Theorem X15_swap_tokens_submissions (dex_name : Dex)
    (token_in token_out : Token) (amount_in min_amount_out : Z)
    (deadline : option Z) (is_vb : bool) (s : Sys W) :
  let run :=
    TransactionExecutor.swap_tokens cfg dex_name token_in token_out amount_in
      min_amount_out deadline is_vb s in
  exists ok tx_hash amount_out approvals swaps,
    fst run = Ok (ok, tx_hash, amount_out)
    /\ submitted (snd run) = submitted s ++ approvals ++ swaps
    /\ (approvals = []
        \/ exists tx router_address,
            approvals = [tx]
            /\ dict_get String.eqb (TransactionExecutor.routers cfg) dex_name
               = Some router_address
            /\ is_approval token_in router_address tx
            /\ String.eqb token_in "MON" = false)
    /\ (swaps = []
        \/ exists tx, swaps = [tx] /\ is_swap dex_name token_in amount_in tx)
    /\ (ok = true -> exists tx h, swaps = [tx] /\ tx_hash = Some h)
    /\ (ok = false -> (amount_out == 0)%Q).
Proof.
  cbv zeta.
  assert (Hfail : forall s1 : Sys W,
            submitted s1 = submitted s ->
            exists ok tx_hash amount_out approvals swaps,
              fst (Ok TransactionExecutor.swap_failed, s1)
              = Ok (ok, tx_hash, amount_out)
              /\ submitted (snd (Ok TransactionExecutor.swap_failed, s1))
                 = submitted s ++ approvals ++ swaps
              /\ (approvals = []
                  \/ exists tx router_address,
                      approvals = [tx]
                      /\ dict_get String.eqb (TransactionExecutor.routers cfg)
                           dex_name = Some router_address
                      /\ is_approval token_in router_address tx
                      /\ String.eqb token_in "MON" = false)
              /\ (swaps = []
                  \/ exists tx, swaps = [tx]
                                /\ is_swap dex_name token_in amount_in tx)
              /\ (ok = true -> exists tx h, swaps = [tx] /\ tx_hash = Some h)
              /\ (ok = false -> (amount_out == 0)%Q)).
  { intros s1 Hs1. exists false, None, 0%Q, [], [].
    cbn [fst snd app]. rewrite app_nil_r.
    repeat split; auto; try discriminate; try reflexivity. }
  unfold TransactionExecutor.swap_tokens, try_except, bind.
  destruct (dict_get String.eqb (TransactionExecutor.routers cfg) dex_name)
    as [router_address|] eqn:Hrouter; [|apply Hfail; reflexivity].
  unfold now, gets.
  destruct (get_weth_address_reads dex_name s) as [[weth|e] ->];
    [|apply Hfail; reflexivity].
  match goal with
  | |- context [if ?c then ret _ else _] => destruct c
  end; [apply Hfail; reflexivity|].
  destruct (remember_mon_balance_runs token_out s) as [s0 [-> [Hw0 Hs0]]].
  destruct (resolve_token_in_reads weth token_in amount_in s0)
    as [[[a_in|]|e] ->]; try (apply Hfail; exact Hs0).
  destruct (resolve_token_out_reads weth token_out s0)
    as [[[[a_out dec]|]|e] ->]; try (apply Hfail; exact Hs0).
  assert (Happrove :
    exists approved s1 approvals,
      (if negb (String.eqb token_in "MON")
       then TransactionExecutor.approve_token cfg token_in router_address
       else ret true) s0 = (Ok approved, s1)
      /\ submitted s1 = submitted s ++ approvals
      /\ (approvals = []
          \/ exists tx router_address0,
              approvals = [tx]
              /\ Some router_address = Some router_address0
              /\ is_approval token_in router_address0 tx
              /\ String.eqb token_in "MON" = false)).
  { destruct (String.eqb token_in "MON") eqn:Hin; cbn [negb].
    - exists true, s0, []. rewrite app_nil_r. auto.
    - destruct (approve_token_runs token_in router_address s0)
        as [ok [s1 [txs [Hrun [Hsub [Hshape _]]]]]].
      exists ok, s1, txs. split; [exact Hrun|]. rewrite Hsub, Hs0.
      split; [reflexivity|].
      destruct Hshape as [->|[tx [-> Htx]]]; [left; reflexivity|].
      right. exists tx, router_address. auto. }
  destruct Happrove as [approved [s1 [approvals [-> [Hs1 Happ]]]]].
  destruct approved; cbn [negb].
  2:{ exists false, None, 0%Q, approvals, []. cbn [fst snd].
      rewrite app_nil_r. repeat split; auto; try discriminate; try reflexivity. }
  assert (Hswap :
    exists r s2 swaps,
      (if String.eqb (Config.dex_type cfg dex_name) "algebra"
       then TransactionExecutor._swap_tokens_algebra cfg dex_name token_in
              token_out a_in a_out amount_in min_amount_out dec
              (match deadline with
               | Some d => d
               | None => int_of (time_time (world s) + 300)
               end) is_vb
       else TransactionExecutor._swap_tokens_uniswap_v2 cfg dex_name token_in
              token_out a_in a_out amount_in min_amount_out dec
              (match deadline with
               | Some d => d
               | None => int_of (time_time (world s) + 300)
               end) is_vb) s1 = (Ok r, s2)
      /\ submitted s2 = submitted s1 ++ swaps
      /\ swap_or_nothing dex_name token_in amount_in swaps (Ok r)).
  { destruct (String.eqb (Config.dex_type cfg dex_name) "algebra");
      [apply swap_algebra_runs | apply swap_uniswap_v2_runs]. }
  destruct Hswap as [r [s2 [swaps [Hrun [Hs2 Hshape]]]]].
  cbv zeta. rewrite Hrun. cbn [fst snd].
  destruct Hshape as [ok [h [a [Hr [Hsw [Hok Hzero]]]]]].
  injection Hr as ->.
  exists ok, h, a, approvals, swaps.
  split; [reflexivity|]. split; [rewrite Hs2, Hs1, app_assoc; reflexivity|].
  split; [exact Happ|]. split.
  - destruct Hsw as [[-> _]|Hsw]; [left; reflexivity | right; exact Hsw].
  - split; [|exact Hzero].
    intro Hk. destruct (Hok Hk) as [h' ->].
    destruct Hsw as [[_ [Hf _]]|[tx [-> _]]]; [congruence|].
    exists tx, h'. auto.
Qed.

(** X16.  A swap of a token the wallet holds too little of is refused before
    anything is submitted: [swap_tokens] returns [(False, None, 0)] and the
    chain is as it was. *)
Theorem X16_swap_refused_without_the_balance (dex_name : Dex)
    (token_in token_out : Token) (amount_in min_amount_out : Z)
    (deadline : option Z) (is_vb : bool) (s : Sys W) (held : N) :
  String.eqb token_in "MON" = false ->
  balanceOf (world s) token_in = Ok held ->
  (Z.of_N held < amount_in)%Z ->
  let run :=
    TransactionExecutor.swap_tokens cfg dex_name token_in token_out amount_in
      min_amount_out deadline is_vb s in
  fst run = Ok TransactionExecutor.swap_failed
  /\ submitted (snd run) = submitted s
  /\ world (snd run) = world s.
Proof.
  intros Hin Hheld Hlow. cbv zeta.
  unfold TransactionExecutor.swap_tokens, try_except, bind.
  destruct (dict_get String.eqb (TransactionExecutor.routers cfg) dex_name)
    as [router_address|]; [|auto].
  unfold now, gets.
  destruct (get_weth_address_reads dex_name s) as [[weth|e] ->]; [|auto].
  match goal with
  | |- context [if ?c then ret _ else _] => destruct c
  end; [auto|].
  destruct (remember_mon_balance_runs token_out s) as [s0 [-> [Hw0 Hs0]]].
  unfold TransactionExecutor.resolve_token_in, bind, of_res, read, raise, ret.
  rewrite Hin.
  destruct (Config.token_address cfg token_in) as [a|]; [|auto].
  destruct (negb (truthy a)); [auto|].
  destruct (to_checksum_address a); [|auto].
  destruct (negb (str_in token_in (TransactionExecutor.tokens cfg))); [auto|].
  rewrite Hw0, Hheld.
  apply Z.ltb_lt in Hlow. rewrite Hlow. auto.
Qed.

(** A balance in MON read from the chain is not negative. *)
Lemma from_wei_nonneg (n e : Z) :
  match from_wei n e with
  | Ok q => (0 <= q)%Q
  | Raise _ => True
  end.
Proof.
  unfold from_wei. destruct (n =? 0)%Z; [apply Qle_refl|].
  destruct ((n <? 0)%Z || (2 ^ 256 - 1 <? n)%Z) eqn:Hrange; [exact I|].
  apply orb_false_iff in Hrange. destruct Hrange as [Hneg _].
  apply Z.ltb_ge in Hneg. unfold Qdiv. apply Qmult_le_0_compat.
  - unfold Qle. simpl. lia.
  - apply Qlt_le_weak, Qinv_lt_0_compat, pow10_pos.
Qed.

(** X18.  [get_token_balance] never raises and changes nothing.  The
    balance it gives is never negative; it is 0 for a token with no
    contract loaded and whenever the read of the balance fails, and for a
    token with a contract the balance held over [10 ** decimals]. *)
Theorem X18_balances_are_never_negative (token : Token) (s : Sys W) :
  let run := TransactionExecutor.get_token_balance cfg token s in
  snd run = s
  /\ exists balance,
      fst run = Ok balance
      /\ (0 <= balance)%Q
      /\ (String.eqb token "MON" = false ->
          str_in token (TransactionExecutor.tokens cfg) = false ->
          balance = 0%Q)
      /\ (forall e,
            (if String.eqb token "MON"
             then get_balance (world s) = Raise e
             else balanceOf (world s) token = Raise e) ->
            balance = 0%Q)
      /\ (forall held,
            String.eqb token "MON" = false ->
            str_in token (TransactionExecutor.tokens cfg) = true ->
            balanceOf (world s) token = Ok held ->
            balance
            = (inject_Z (Z.of_N held)
               / pow10 (TransactionExecutor.get_token_decimals cfg token))%Q).
Proof.
  cbv zeta. unfold TransactionExecutor.get_token_balance.
  destruct (String.eqb token "MON") eqn:Hmon.
  - unfold TransactionExecutor.get_native_balance, gets. cbn [fst snd].
    split; [reflexivity|]. eexists. split; [reflexivity|].
    split; [|split; [discriminate|split; [|discriminate]]].
    + destruct (get_balance (world s)) as [n|e]; cbn; [|apply Qle_refl].
      pose proof (from_wei_nonneg n 18) as H.
      destruct (from_wei n 18); [exact H | apply Qle_refl].
    + intros e He. rewrite He. reflexivity.
  - destruct (str_in token (TransactionExecutor.tokens cfg)) eqn:Hloaded;
      cbn [negb]; unfold ret, gets; cbn [fst snd];
      (split; [reflexivity|]); eexists; (split; [reflexivity|]).
    + split.
      * destruct (balanceOf (world s) token);
          [apply token_amount_nonneg | apply Qle_refl].
      * split; [discriminate|]. split.
        -- intros e He. rewrite He. reflexivity.
        -- intros held _ _ Hheld. rewrite Hheld. reflexivity.
    + split; [apply Qle_refl|]. split; [reflexivity|].
      split; [reflexivity | discriminate].
Qed.

End Executor.

(** ** The decimals of a token *)

Section Decimals.
Variable cfg : Config.t.

Let arb := Config.ARBITRAGE_CONFIG cfg.

(** The decimals table after the tokens [l] were entered into [acc]. *)
Lemma token_decimals_fold (l : list (Token * option Addr))
    (acc : dict Token Z) (token : Token) :
  dict_get String.eqb
    (fold_left
       (fun d (kv : Token * option Addr) =>
          let token_name := fst kv in
          if String.eqb token_name "MON" then d
          else dict_set String.eqb d token_name
                 (if str_in token_name ["USDC"; "USDT"] then 6 else 18)%Z)
       l acc) token
  = if String.eqb token "MON" then dict_get String.eqb acc token
    else if str_in token (map fst l)
         then Some (if str_in token ["USDC"; "USDT"] then 6 else 18)%Z
         else dict_get String.eqb acc token.
Proof.
  revert acc. induction l as [|[k a] l IH]; intro acc; cbn [fold_left].
  - cbn. destruct (String.eqb token "MON"); reflexivity.
  - rewrite IH. cbv zeta. cbn [fst map].
    change (str_in token (k :: map fst l))
      with (String.eqb token k || str_in token (map fst l)).
    destruct (String.eqb token "MON") eqn:Hmon.
    + destruct (String.eqb k "MON") eqn:Hk; [reflexivity|].
      apply (dict_get_set_other String.eqb String.eqb_eq).
      apply String.eqb_eq in Hmon. subst token.
      intro Hc. subst k. discriminate Hk.
    + destruct (str_in token (map fst l)) eqn:Hl;
        [rewrite orb_true_r; reflexivity|].
      rewrite orb_false_r.
      destruct (String.eqb token k) eqn:Htk.
      * apply String.eqb_eq in Htk. subst k. rewrite Hmon.
        apply (dict_get_set_same String.eqb String.eqb_eq).
      * destruct (String.eqb k "MON"); [reflexivity|].
        apply (dict_get_set_other String.eqb String.eqb_eq).
        intro Hc. subst k. rewrite String.eqb_refl in Htk. discriminate Htk.
Qed.

(** X17.  The decimals of a token.  The price monitor takes the configured
    precision for MON, 6 for a configured USDC or USDT and 18 for every
    other name; the executor takes 6 for USDC and USDT whether configured
    or not.  The two agree on every token but a USDC or USDT that is not
    configured. *)
Theorem X17_token_decimals (token : Token) :
  let configured := str_in token (map fst (Config.TOKENS cfg)) in
  let stable := str_in token ["USDC"; "USDT"] in
  PriceMonitor.decimals_of cfg token
  = (if String.eqb token "MON" then Config.mon_decimals arb
     else if configured && stable then 6 else 18)%Z
  /\ TransactionExecutor.get_token_decimals cfg token
     = (if String.eqb token "MON" then Config.mon_decimals arb
        else if stable then 6 else 18)%Z
  /\ (PriceMonitor.decimals_of cfg token
      = TransactionExecutor.get_token_decimals cfg token
      <-> (stable = true -> configured = true)).
Proof.
  cbv zeta.
  unfold PriceMonitor.decimals_of, TransactionExecutor.get_token_decimals,
    TransactionExecutor.token_decimals, PriceMonitor.token_decimals.
  rewrite token_decimals_fold. cbn [dict_get].
  destruct (String.eqb token "MON") eqn:Hmon.
  - apply String.eqb_eq in Hmon. subst token. cbn.
    split; [reflexivity|]. split; [reflexivity|].
    split; [discriminate | reflexivity].
  - destruct (str_in token (map fst (Config.TOKENS cfg)));
      destruct (str_in token ["USDC"; "USDT"]); cbn [andb];
      (split; [reflexivity|]); (split; [reflexivity|]);
      split; try reflexivity; try discriminate; auto.
    intro H. specialize (H eq_refl). discriminate H.
Qed.

End Decimals.

(** ** The properties on the examples *)

(** X2 on scenario A with a threshold of 0.01 MON: the one opportunity
    sells on [bean], whose quote of 1.02 is no lower than that of
    [hakifi]. *)
Lemma X2_scenario_a_sells_on_bean :
  let cfg := Config.with_min_profit_threshold Config.default (1 # 100) in
  let quote d :=
    PriceMonitor.get_token_price cfg Examples.scenario_a d "MON" "USDC"
      (Some (10 ^ 18)%Z) in
  exists op,
    PriceMonitor.check_pair_price_difference cfg Examples.scenario_a "MON"
      "USDC" = [op]
    /\ op_sell_dex op = "bean"
    /\ (price (quote "hakifi") <= price (quote (op_sell_dex op)))%Q.
Proof.
  cbv zeta. eexists. split; [vm_compute; reflexivity|].
  split; [reflexivity|].
  match goal with
  | |- (_ <= price (PriceMonitor.get_token_price ?c _ (op_sell_dex ?o) _ _ _))%Q =>
      destruct (@X2_arbitrage_sells_at_the_best_price Toy.t Toy.env c
                  Examples.scenario_a "MON" "USDC" o "hakifi")
        as [_ [_ [H _]]]
  end.
  - vm_compute. left. reflexivity.
  - vm_compute. left. reflexivity.
  - exact H.
Defined.

(** X4 on the default configuration, with bounds of 7 and 10 and a first
    random value of 1/2: the one opportunity of [market] trades between 7
    and 10. *)
Lemma X4_market_trades_between_the_bounds :
  let prices := PriceMonitor.get_all_prices Config.default Examples.market in
  exists found,
    fst (PriceMonitor.find_volume_boosting_opportunities Config.default
           ["MON-USDC"] prices Examples.market) = Ok found
    /\ List.length found = 1%nat
    /\ Forall (fun op => (7 <= op_max_trade_amount op)%Q
                         /\ (op_max_trade_amount op <= 10)%Q) found.
Proof.
  cbv zeta.
  destruct (@X4_boosting_trade_amount_within_bounds Toy.t Toy.env
              Config.default ["MON-USDC"]
              (PriceMonitor.get_all_prices Config.default Examples.market)
              Examples.market)
    as [found [Hrun Hbounds]].
  - vm_compute. reflexivity.
  - vm_compute. intro H. discriminate H.
  - vm_compute. constructor; [|constructor].
    split; intro H; discriminate H.
  - exists found. split; [exact Hrun|]. split.
    + assert (Hone :
        match fst (PriceMonitor.find_volume_boosting_opportunities
                     Config.default ["MON-USDC"]
                     (PriceMonitor.get_all_prices Config.default
                        Examples.market)
                     Examples.market) with
        | Ok l => List.length l
        | Raise _ => 0%nat
        end = 1%nat) by (vm_compute; reflexivity).
      rewrite Hrun in Hone. exact Hone.
    + eapply Forall_impl; [|exact Hbounds].
      intros op [Hlo Hhi]. split.
      * eapply Qle_trans; [|exact Hlo]. vm_compute. intro H. discriminate H.
      * eapply Qle_trans; [exact Hhi|]. vm_compute. intro H. discriminate H.
Defined.
(** X7 on [triangle]: MON to USDC to USDT and back on [bean] returns 1.04
    MON for 1 MON, a profit of 4%. *)
Lemma X7_triangle_on_bean :
  exists t,
    PriceMonitorMore.find_triangular_arbitrage MoreExamples.three_tokens
      MoreExamples.triangle "bean" ["MON"; "USDC"; "USDT"] = Some t
    /\ (PriceMonitorMore.tri_triangular_ratio t == 104 # 100)%Q
    /\ PriceMonitorMore.tri_profit_percent t
       = ((PriceMonitorMore.tri_triangular_ratio t - 1) * 100)%Q
    /\ PriceMonitorMore.tri_dex t = "bean".
Proof.
  destruct (@X7_triangular_opportunity Toy.t Toy.env
              MoreExamples.three_tokens MoreExamples.triangle "bean"
              ["MON"; "USDC"; "USDT"]) as [Hsome _].
  destruct (PriceMonitorMore.find_triangular_arbitrage
              MoreExamples.three_tokens MoreExamples.triangle "bean"
              ["MON"; "USDC"; "USDT"]) as [t|] eqn:Hfound;
    [|vm_compute in Hfound; discriminate Hfound].
  exists t. split; [reflexivity|].
  destruct Hsome as [t0 [t1 [t2 [a0 [a1 [a2 [_ H]]]]]]].
  cbv zeta in H.
  destruct H as [_ [_ [_ [_ [Hpct [_ [_ [_ Hdex]]]]]]]].
  split; [|split; [exact Hpct | exact Hdex]].
  vm_compute in Hfound. injection Hfound as <-. vm_compute. reflexivity.
Defined.

(** X8 on [near_the_ceiling]: after the cycle of two round trips the two
    records of the history are counted. *)
Lemma X8_near_the_ceiling_is_counted :
  let s' := snd (ArbitrageBot.run Config.default 1 Examples.near_the_ceiling) in
  List.length (trade_history s') = 2%nat
  /\ total_trades (stats s') = 2%Z
  /\ counted s' /\ readable (trade_history s').
Proof.
  cbv zeta. split; [vm_compute; reflexivity|].
  split; [vm_compute; reflexivity|].
  destruct (@X8_statistics_follow_the_history Toy.t Toy.env Config.default
              Examples.near_the_ceiling) as [_ [_ H]].
  - repeat split.
  - constructor.
  - exact (H 1%nat).
Defined.

(** X9 on [saved_history]: two trades, one success, a profit of 0.5. *)
Lemma X9_saved_history_is_loaded :
  let run :=
    ArbitrageBotMore._load_trade_history
      (Some (Ok MoreExamples.saved_history)) (Toy.start Examples.market) in
  fst run = Ok tt
  /\ trade_history (snd run) = MoreExamples.saved_history
  /\ counted (snd run)
  /\ successful_trades (stats (snd run)) = 1%Z.
Proof.
  cbv zeta.
  destruct (@X9_load_trade_history Toy.t
              (Some (Ok MoreExamples.saved_history))
              (Toy.start Examples.market))
    as [Hrun [Hhistory Hcounted]].
  - repeat split.
  - split; [exact Hrun|]. split; [exact Hhistory|]. split.
    + apply Hcounted. repeat constructor.
      * intros _. eexists. reflexivity.
      * intro H. discriminate H.
    + vm_compute. reflexivity.
Defined.

(** X10 on [near_the_ceiling]: the two records saved after the cycle are
    loaded again with their statistics. *)
Lemma X10_near_the_ceiling_restarts :
  let s := snd (ArbitrageBot.run Config.default 1 Examples.near_the_ceiling) in
  let written :=
    trade_history_file (snd (ArbitrageBot.save_trade_history s)) in
  let s' :=
    snd (ArbitrageBotMore._load_trade_history (Some (Ok written))
           (Toy.start Examples.market)) in
  List.length written = 2%nat
  /\ trade_history s' = trade_history s
  /\ total_trades (stats s') = total_trades (stats s)
  /\ successful_trades (stats s') = successful_trades (stats s)
  /\ failed_trades (stats s') = failed_trades (stats s)
  /\ total_profit (stats s') = total_profit (stats s).
Proof.
  cbv zeta. split; [vm_compute; reflexivity|].
  apply (@X10_restart_restores_the_statistics Toy.t
           (snd (ArbitrageBot.run Config.default 1 Examples.near_the_ceiling))
           (Toy.start Examples.market)).
  - unfold counted.
    split; [vm_compute; reflexivity|]. split; [vm_compute; reflexivity|].
    split; vm_compute; reflexivity.
  - unfold readable. vm_compute.
    apply Forall_cons; [intros _; eexists; reflexivity|].
    apply Forall_cons; [intros _; eexists; reflexivity|].
    apply Forall_nil.
  - repeat split.
Defined.

(** X11 on scenario A in arbitrage mode: three cycles run on and the
    counter stays at zero. *)
Lemma X11_scenario_a_in_arbitrage_mode :
  let run :=
    ArbitrageBot.run MoreExamples.arbitrage_mode 3
      (Toy.start Examples.scenario_a) in
  fst run = ArbitrageBot.Running /\ total_volume_usdc (snd run) = 0%Q.
Proof.
  cbv zeta.
  apply (@X11_arbitrage_mode_runs_on Toy.t Toy.env MoreExamples.arbitrage_mode
           eq_refl 3%nat (Toy.start Examples.scenario_a)).
Defined.

(** X12 two seconds after a trade, with an interval of five: the clock of
    [market] moves from 1000 to 1003. *)
Lemma X12_market_waits_three_seconds :
  let s := set_last_trade_time 998 (Toy.start Examples.market) in
  let run := ArbitrageBot.wait_for_cooldown 5 s in
  fst run = Ok tt
  /\ last_trade_time (snd run) = 998%Q
  /\ (5 <= time_time (world (snd run)) - last_trade_time (snd run))%Q
  /\ (time_time (world (snd run)) == 1003)%Q.
Proof.
  cbv zeta.
  destruct (@X12_cooldown_has_passed Toy.t Toy.env 5
              (set_last_trade_time 998 (Toy.start Examples.market)))
    as [Hrun [Hlast Hpassed]].
  - intros d w. reflexivity.
  - split; [exact Hrun|]. split; [exact Hlast|]. split; [exact Hpassed|].
    vm_compute. reflexivity.
Defined.

(** X16 on [holding_usdc]: a sale of 10 USDC with 5 USDC held is
    refused. *)
Lemma X16_ten_usdc_with_five_held :
  let run :=
    TransactionExecutor.swap_tokens Config.default "monda" "USDC" "MON"
      (10 * Toy.one_usdc) 0 None true Examples.holding_usdc in
  fst run = Ok TransactionExecutor.swap_failed
  /\ submitted (snd run) = []
  /\ world (snd run) = world Examples.holding_usdc.
Proof.
  cbv zeta.
  apply (@X16_swap_refused_without_the_balance Toy.t Toy.env Config.default
           "monda" "USDC" "MON" (10 * Toy.one_usdc)%Z 0%Z None true
           Examples.holding_usdc 5000000%N).
  - reflexivity.
  - reflexivity.
  - vm_compute. reflexivity.
Defined.

